(** * AuraOS core: the Foreman (plan compiler and step executor)

    A shallow embedding of [call_llm], [execute_step] and [handle_request]
    and of the text clean-up they perform, with the properties of the
    natural-language specification stated and proved over it.

    - Python text is a sequence of Unicode code points; it is modelled as a
      list of code points ([N]).  ASCII literals of the source are written
      with [str_of]; the two glyphs of the classifier are given by their
      code points.
    - A Python value is a [value]: [None], a boolean, an integer, a float,
      text, a list, or a dict with text keys in insertion order.
    - What the functions print is kept as a list of events, one per [print];
      the world the apprentices act on is threaded through the calls, and
      every call of a [run] is recorded.
    - The language model, [json.loads], the import of a module, [str] on a
      value that is not text and [lower] on text outside ASCII are
      parameters.  An exception is one that [except Exception] receives;
      [SystemExit] and [KeyboardInterrupt] are not modelled. *)

From Stdlib Require Import List NArith ZArith Bool Arith Lia.
From Stdlib Require Import Strings.String Strings.Ascii.
From Stdlib Require Import Floats.SpecFloat.
Import ListNotations.

Set Implicit Arguments.
Set Warnings "-register-all".

(** ** Python text *)

Module PyStr.

Definition pystr := list N.

(** An ASCII literal of the source as Python text. *)
Definition str_of (s : string) : pystr :=
  map N_of_ascii (list_ascii_of_string s).

(** [s.startswith(p)] *)
Fixpoint startswith (p s : pystr) : bool :=
  match p, s with
  | [], _ => true
  | _ :: _, [] => false
  | x :: p', c :: s' => N.eqb x c && startswith p' s'
  end.

(** [s.startswith((p1, p2, ...))] *)
Definition startswith_any (ps : list pystr) (s : pystr) : bool :=
  existsb (fun p => startswith p s) ps.

(** [a == b] on text *)
Fixpoint str_eqb (a b : pystr) : bool :=
  match a, b with
  | [], [] => true
  | x :: a', y :: b' => N.eqb x y && str_eqb a' b'
  | _, _ => false
  end.

(** [s.find(c)] for a one-character needle: [None] stands for [-1]. *)
Fixpoint find (c : N) (s : pystr) : option nat :=
  match s with
  | [] => None
  | x :: s' => if N.eqb x c then Some 0
               else match find c s' with
                    | Some i => Some (S i)
                    | None => None
                    end
  end.

(** [s.rfind(c)] for a one-character needle: [None] stands for [-1]. *)
Fixpoint rfind (c : N) (s : pystr) : option nat :=
  match s with
  | [] => None
  | x :: s' => match rfind c s' with
               | Some i => Some (S i)
               | None => if N.eqb x c then Some 0 else None
               end
  end.

(** [s.count(c)] for a one-character needle. *)
Fixpoint count (c : N) (s : pystr) : nat :=
  match s with
  | [] => 0
  | x :: s' => (if N.eqb x c then 1 else 0) + count c s'
  end.

(** [s[i:j]] for [0 <= i], [0 <= j]. *)
Definition slice (i j : nat) (s : pystr) : pystr :=
  firstn (j - i) (skipn i s).

(** [s.replace(old, new)]: the occurrences of [old] are found from the left
    and do not overlap.  [skip] counts the characters of a matched
    occurrence that are still to be passed over. *)
Fixpoint replace_go (old new : pystr) (skip : nat) (s : pystr) : pystr :=
  match s with
  | [] => []
  | c :: s' =>
      match skip with
      | S k => replace_go old new k s'
      | O => if startswith old s
             then new ++ replace_go old new (List.length old - 1) s'
             else c :: replace_go old new 0 s'
      end
  end.

Definition replace (old new s : pystr) : pystr :=
  match old with
  | [] => new ++ flat_map (fun c => c :: new) s
  | _ :: _ => replace_go old new 0 s
  end.

(** [c.isspace()]: the characters [str.strip()] removes. *)
Definition isspace (c : N) : bool :=
  ((9 <=? c) && (c <=? 13) || (28 <=? c) && (c <=? 32)
   || (c =? 133) || (c =? 160) || (c =? 5760)
   || (8192 <=? c) && (c <=? 8202)
   || (c =? 8232) || (c =? 8233) || (c =? 8239) || (c =? 8287)
   || (c =? 12288))%N.

Fixpoint lstrip (s : pystr) : pystr :=
  match s with
  | [] => []
  | c :: s' => if isspace c then lstrip s' else s
  end.

Fixpoint rstrip (s : pystr) : pystr :=
  match s with
  | [] => []
  | c :: s' => match rstrip s' with
               | [] => if isspace c then [] else [c]
               | t => c :: t
               end
  end.

(** [s.strip()] *)
Definition strip (s : pystr) : pystr := rstrip (lstrip s).

(** ['}' * n] and the like. *)
Definition times (c : N) (n : nat) : pystr := repeat c n.

(** [p in s] for text. *)
Fixpoint contains (p s : pystr) : bool :=
  startswith p s ||
  match s with
  | [] => false
  | _ :: s' => contains p s'
  end.

End PyStr.
Import PyStr.

(** ** The clean-up of the model's reply ([call_llm], the text part) *)

Module Repair.

Definition lbracket : N := 91.
Definition rbracket : N := 93.
Definition lbrace : N := 123.
Definition rbrace : N := 125.
Definition squote : N := 39.
Definition dquote : N := 34.
Definition backtick : N := 96.

Definition fence_json : pystr := Eval cbv in str_of "```json".
Definition fence : pystr := Eval cbv in str_of "```".
Definition emphasis : pystr := Eval cbv in str_of "**".

(** Line 173 and 174 of the source: the fence and emphasis markers go. *)
Definition strip_markers (json_plan_str : pystr) : pystr :=
  let s := replace fence (str_of "")
             (replace fence_json (str_of "") json_plan_str) in
  replace emphasis (str_of "") s.

(** Lines 175 to 178: the literals of Python become those of JSON. *)
Definition normalize_literals (json_plan_str : pystr) : pystr :=
  let s := replace (str_of ", True") (str_of ", true")
             (replace (str_of ": True") (str_of ": true") json_plan_str) in
  let s := replace (str_of ", False") (str_of ", false")
             (replace (str_of ": False") (str_of ": false") s) in
  let s := replace (str_of ", None") (str_of ", null")
             (replace (str_of ": None") (str_of ": null") s) in
  replace (str_of " null") (str_of " null") s.

(** Line 179, and line 190 of the fallback. *)
Definition normalize_quotes (json_plan_str : pystr) : pystr :=
  replace [squote] [dquote] json_plan_str.

(** Lines 188 and 189: the literals in the fallback branch. *)
Definition normalize_literals_fallback (json_plan_str : pystr) : pystr :=
  let s := replace (str_of ": False") (str_of ": false")
             (replace (str_of ": True") (str_of ": true") json_plan_str) in
  replace (str_of " null") (str_of " null")
    (replace (str_of ": None") (str_of ": null") s).

(** The bracketed branch, after the slice: the replacements in the order of
    the source, then [strip]. *)
Definition clean_sliced (json_plan_str : pystr) : pystr :=
  strip (normalize_quotes (normalize_literals (strip_markers json_plan_str))).

(** The fallback branch: the raw text with fewer replacements, no [strip]. *)
Definition clean_fallback (raw_output : pystr) : pystr :=
  normalize_quotes (normalize_literals_fallback raw_output).

(** [start_index != -1 and end_index != -1 and end_index > start_index],
    with the slice bounds when it holds. *)
Definition bracket_span (raw_output : pystr) : option (nat * nat) :=
  match find lbracket raw_output, rfind rbracket raw_output with
  | Some start_index, Some end_index =>
      if start_index <? end_index then Some (start_index, end_index) else None
  | _, _ => None
  end.

Definition cleanup (raw_output : pystr) : pystr :=
  match bracket_span raw_output with
  | Some (start_index, end_index) =>
      clean_sliced (slice start_index (end_index + 1) raw_output)
  | None => clean_fallback raw_output
  end.

(** The brace-balancing stage. *)
Definition balance_braces (json_plan_str : pystr) : pystr :=
  let open_braces := count lbrace json_plan_str in
  let close_braces := count rbrace json_plan_str in
  if close_braces <? open_braces
  then json_plan_str ++ times rbrace (open_braces - close_braces)
  else json_plan_str.

(** The whole text pipeline, from [raw_output] to the text given to
    [json.loads]. *)
Definition repair (raw_output : pystr) : pystr :=
  balance_braces (cleanup raw_output).

End Repair.
Import Repair.

(** ** Python values

    What [json.loads] produces and what the apprentices take and return.
    A [dict] keeps its keys in insertion order and holds each key once; it is
    an association list, read with [dict_get]. *)

Module PyVal.

Inductive value : Type :=
| VNone
| VBool (b : bool)
| VInt (z : Z)
| VFloat (f : spec_float)
| VStr (s : pystr)
| VList (items : list value)
| VDict (entries : list (pystr * value)).

(** [bool(v)] *)
Definition truthy (v : value) : bool :=
  match v with
  | VNone => false
  | VBool b => b
  | VInt z => negb (Z.eqb z 0)
  | VFloat (S754_zero _) => false
  | VFloat _ => true
  | VStr s => match s with [] => false | _ => true end
  | VList l => match l with [] => false | _ => true end
  | VDict d => match d with [] => false | _ => true end
  end.

(** [key in d] *)
Fixpoint dict_has (key : pystr) (d : list (pystr * value)) : bool :=
  match d with
  | [] => false
  | (k, _) :: d' => str_eqb k key || dict_has key d'
  end.

(** [d.get(key)] *)
Fixpoint dict_get (key : pystr) (d : list (pystr * value)) : value :=
  match d with
  | [] => VNone
  | (k, v) :: d' => if str_eqb k key then v else dict_get key d'
  end.

(** [d[key] = v] *)
Fixpoint dict_set (key : pystr) (v : value) (d : list (pystr * value))
  : list (pystr * value) :=
  match d with
  | [] => [(key, v)]
  | (k, w) :: d' => if str_eqb k key then (k, v) :: d'
                    else (k, w) :: dict_set key v d'
  end.

(** A position inside a nested value: a key of a mapping or an index of a
    sequence at each level. *)
Inductive selector : Type :=
| Key (k : pystr)
| Index (i : nat).

Fixpoint entry_at (key : pystr) (d : list (pystr * value)) : option value :=
  match d with
  | [] => None
  | (k, v) :: d' => if str_eqb k key then Some v else entry_at key d'
  end.

Fixpoint get_path (path : list selector) (v : value) : option value :=
  match path with
  | [] => Some v
  | Key k :: path' =>
      match v with
      | VDict d => match entry_at k d with
                   | Some w => get_path path' w
                   | None => None
                   end
      | _ => None
      end
  | Index i :: path' =>
      match v with
      | VList l => match nth_error l i with
                   | Some w => get_path path' w
                   | None => None
                   end
      | _ => None
      end
  end.

(** The shape of a value: its nesting, its keys in order and the length of
    its sequences, with every scalar erased. *)
Inductive shape : Type :=
| Leaf
| Seq (items : list shape)
| Map (entries : list (pystr * shape)).

Fixpoint shape_of (v : value) : shape :=
  match v with
  | VList l => Seq (map shape_of l)
  | VDict d => Map (map (fun kv : pystr * value =>
                           let (k, w) := kv in (k, shape_of w)) d)
  | _ => Leaf
  end.

Definition is_container (v : value) : bool :=
  match v with
  | VList _ | VDict _ => true
  | _ => false
  end.

End PyVal.
Import PyVal.

(** ** The Foreman: [call_llm], [execute_step], [handle_request] *)

Module Foreman.

(** What an apprentice, or the import of its module, can raise, by the
    first [except] clause of [execute_step] that matches it; the text is
    [str(e)].  The last is an exception that is no instance of [Exception]
    ([SystemExit], [KeyboardInterrupt], [GeneratorExit]): no clause matches
    it. *)
Inductive exn : Type :=
| ImportError (e : pystr)
| AttributeError (e : pystr)
| OtherException (e : pystr)
| SystemExiting (e : pystr).

Inductive outcome : Type :=
| Returns (v : value)
| Raises (e : exn).

(** One line per [print] of the three functions; a formatted value is kept
    as the value. *)
Inductive event : Type :=
| PlanningTask (user_request : pystr)
| WarnNoBrackets
| AddedBraces (n : nat)
| CleanedPlan (json_plan_str : pystr)
| CouldNotParse (reason : pystr)
| RawOutput (raw_output : pystr)
| AttemptedToParse (json_plan_str : pystr)
| LlmError
| HaltNoPlan
| StartStep (i total : nat)
| ShortName (module_name : pystr)
| InvalidStep (step : value)
| Executing (module_name : pystr)
| ApprenticeOutput (output : value)
| ErrorMessage (error_msg : pystr)
| Traceback (e : exn)
| HaltStep (i : nat) (output : value)
| TaskCompleted
| TaskFailed.

(** What [execute_step] gives back: the pair [(output, success)], or an
    exception that no [except] clause of it receives. *)
Inductive step_result : Type :=
| StepReturn (output : value) (success : bool)
| StepUncaught.

(** How the [for] loop of [handle_request] is left: at the end of the plan,
    with the last value of [previous_step_output]; by its [break]; by an
    exception. *)
Inductive loop_result : Type :=
| LoopDone (previous_step_output : value)
| LoopBroken (i : nat) (output : value)
| LoopUncaught.

(** The way [handle_request] ends.  The source returns [None] on every path
    and prints the outcome; the value names the path taken. *)
Inductive run_status : Type :=
| NoPlan
| Completed
| Failed (step_index : nat) (output : value)
| Uncaught.

Definition ns_prefix : pystr := Eval cbv in str_of "aura_core.apprentices.".
Definition PREV_OUTPUT : pystr := Eval cbv in str_of "$PREV_OUTPUT".
Definition key_apprentice : pystr := Eval cbv in str_of "apprentice".
Definition key_payload : pystr := Eval cbv in str_of "payload".

Definition error_marker : pystr := Eval cbv in str_of "error:".
Definition cross_mark : pystr := [10060%N].
Definition success_marker : pystr := Eval cbv in str_of "success:".
Definition check_mark : pystr := [9989%N].
Definition saved_marker : pystr := Eval cbv in str_of "--- presentation saved".

Definition ascii_lower (c : N) : N :=
  if ((65 <=? c) && (c <=? 90))%N then (c + 32)%N else c.

(** The structural checks of [call_llm] on the parsed reply: the text of
    the [ValueError] raised, if any. *)
Fixpoint check_items (items : list value) : option pystr :=
  match items with
  | [] => None
  | VDict d :: rest =>
      if negb (dict_has key_apprentice d) || negb (dict_has key_payload d)
      then Some (str_of "Dictionary item missing 'apprentice' or 'payload'.")
      else check_items rest
  | _ :: _ => Some (str_of "Item in parsed JSON list is not a dictionary.")
  end.

Definition validate_plan (parsed_json : value) : pystr + list value :=
  match parsed_json with
  | VList items => match check_items items with
                   | Some reason => inl reason
                   | None => inr items
                   end
  | _ => inl (str_of "Parsed JSON is not a list.")
  end.

(** What the structural checks ask of a step: a mapping that has both
    keys. *)
Definition well_formed_step (step : value) : bool :=
  match step with
  | VDict d => dict_has key_apprentice d && dict_has key_payload d
  | _ => false
  end.

Section WithEnvironment.

(** The world outside the Foreman: the file system, the network, the
    modules that can be imported. *)
Variable world : Type.

(** [ollama.chat(...)['message']['content']]: the reply, or [None] when the
    call or the indexing raises. *)
Variable ollama_chat : pystr -> world -> option pystr * world.

(** [json.loads]: the value, or the text of the [JSONDecodeError] raised. *)
Variable json_loads : pystr -> pystr + value.

(** [importlib.import_module]: an imported module, or what the import
    raises. *)
Variable module : Type.
Variable import_module : pystr -> world -> (exn + module) * world.

(** [apprentice_module.run]: the function, or the text of the
    [AttributeError] when the module has no [run]. *)
Variable module_run : module -> pystr + (value -> world -> outcome * world).

(** [str(v)] for a value that is not text, and [s.lower()] for text with a
    character outside ASCII. *)
Variable str_nontext : value -> pystr.
Variable unicode_lower : pystr -> pystr.

(** [str(v)] *)
Definition py_str (v : value) : pystr :=
  match v with
  | VStr s => s
  | _ => str_nontext v
  end.

(** [s.lower()] *)
Definition lower (s : pystr) : pystr :=
  if forallb (fun c => (c <? 128)%N) s then map ascii_lower s
  else unicode_lower s.

Record state : Type := mkState {
  st_world : world;
  st_stdout : list event;          (* the lines printed, oldest first *)
  st_calls : list (pystr * value)  (* the calls of a [run], oldest first *)
}.

Definition emit (e : event) (st : state) : state :=
  mkState (st_world st) (st_stdout st ++ [e]) (st_calls st).

Definition set_world (w : world) (st : state) : state :=
  mkState w (st_stdout st) (st_calls st).

Definition record_call (module_name : pystr) (payload : value) (st : state)
  : state :=
  mkState (st_world st) (st_stdout st) (st_calls st ++ [(module_name, payload)]).

(** *** [call_llm] *)

(** The three lines printed by the [except] clause for [JSONDecodeError]
    and [ValueError]. *)
Definition plan_error (reason raw_output json_plan_str : pystr) (st : state)
  : state :=
  emit (AttemptedToParse json_plan_str)
    (emit (RawOutput raw_output) (emit (CouldNotParse reason) st)).

Definition call_llm (user_request : pystr) (st : state)
  : option (list value) * state :=
  let st := emit (PlanningTask user_request) st in
  match ollama_chat user_request (st_world st) with
  | (None, w) => (None, emit LlmError (set_world w st))
  | (Some content, w) =>
      let st := set_world w st in
      let raw_output := strip content in
      let st := match bracket_span raw_output with
                | Some _ => st
                | None => emit WarnNoBrackets st
                end in
      let json_plan_str := cleanup raw_output in
      let open_braces := count lbrace json_plan_str in
      let close_braces := count rbrace json_plan_str in
      let st := if close_braces <? open_braces
                then emit (AddedBraces (open_braces - close_braces)) st
                else st in
      let json_plan_str := balance_braces json_plan_str in
      let st := emit (CleanedPlan json_plan_str) st in
      match json_loads json_plan_str with
      | inl reason => (None, plan_error reason raw_output json_plan_str st)
      | inr parsed_json =>
          match validate_plan parsed_json with
          | inl reason => (None, plan_error reason raw_output json_plan_str st)
          | inr plan => (Some plan, st)
          end
      end
  end.

(** *** [execute_step] *)

(** [str(output) if output is not None else ""] *)
Definition str_or_empty (output : value) : pystr :=
  match output with
  | VNone => str_of ""
  | _ => py_str output
  end.

Fixpoint replace_prev_output (data_structure output : value) : value :=
  match data_structure with
  | VDict d =>
      VDict (map (fun kv : pystr * value =>
                    let (k, v) := kv in (k, replace_prev_output v output)) d)
  | VList l => VList (map (fun item => replace_prev_output item output) l)
  | VStr s =>
      if str_eqb s PREV_OUTPUT
      then VStr (str_or_empty output)
      else data_structure
  | _ => data_structure
  end.

(** The classification of what [run] returned: the [success] flag. *)
Definition classify (output : value) : bool :=
  match output with
  | VStr s =>
      if startswith_any [error_marker; cross_mark] (lower (strip s))
      then false
      else if startswith_any [success_marker; check_mark; saved_marker]
                (lower (strip s))
      then true
      else true
  | _ => true
  end.

Definition msg_import (module_name : pystr) : pystr :=
  str_of "Error: Could not find module '" ++ module_name ++ str_of "'.".

Definition msg_attribute (module_name ae : pystr) : pystr :=
  str_of "Critical error: Module '" ++ module_name
    ++ str_of "' does not have a 'run' function. " ++ ae.

Definition msg_other (module_name e : pystr) : pystr :=
  str_of "Critical error executing " ++ module_name ++ str_of ": " ++ e.

(** The text that the [except] clause matching [e] builds, if one
    matches. *)
Definition error_text (module_name : pystr) (e : exn) : option pystr :=
  match e with
  | ImportError _ => Some (msg_import module_name)
  | AttributeError ae => Some (msg_attribute module_name ae)
  | OtherException e' => Some (msg_other module_name e')
  | SystemExiting _ => None
  end.

(** The body of the [try], up to the classification: the import of the
    module, the look-up of its [run], the call; what [run] returned, or what
    was raised on the way. *)
Definition try_body (module_name : pystr) (payload : value) (st : state)
  : outcome * state :=
  let st := emit (Executing module_name) st in
  match import_module module_name (st_world st) with
  | (inl e, w) => (Raises e, set_world w st)
  | (inr apprentice_module, w) =>
      let st := set_world w st in
      match module_run apprentice_module with
      | inl ae => (Raises (AttributeError ae), st)
      | inr run =>
          let st := record_call module_name payload st in
          match run payload (st_world st) with
          | (Raises e, w) => (Raises e, set_world w st)
          | (Returns output, w) =>
              (Returns output, emit (ApprenticeOutput output) (set_world w st))
          end
      end
  end.

(** What each [except] clause prints: the first its message, the other two
    the traceback. *)
Definition report (module_name : pystr) (e : exn) (st : state) : state :=
  match e with
  | ImportError _ => emit (ErrorMessage (msg_import module_name)) st
  | AttributeError _ | OtherException _ => emit (Traceback e) st
  | SystemExiting _ => st
  end.

(** The [try] statement: the body, the classification of what it returned,
    and the [except] clauses; an exception that none of them matches leaves
    the function. *)
Definition try_apprentice (module_name : pystr) (payload : value) (st : state)
  : step_result * state :=
  match try_body module_name payload st with
  | (Returns output, st) => (StepReturn output (classify output), st)
  | (Raises e, st) =>
      match error_text module_name e with
      | Some error_msg =>
          (StepReturn (VStr error_msg) false, report module_name e st)
      | None => (StepUncaught, st)
      end
  end.

Definition execute_step (step previous_output : value) (st : state)
  : step_result * state :=
  match step with
  | VDict d =>
      let module_name := dict_get key_apprentice d in
      let payload := dict_get key_payload d in
      if truthy module_name then
        match module_name with
        | VStr name =>
            let '(name, d, st) :=
              if startswith ns_prefix name then (name, d, st)
              else (ns_prefix ++ name,
                    dict_set key_apprentice (VStr (ns_prefix ++ name)) d,
                    emit (ShortName name) st) in
            match payload with
            | VNone => (StepReturn VNone false, emit (InvalidStep (VDict d)) st)
            | _ => try_apprentice name
                     (replace_prev_output payload previous_output) st
            end
        | _ => (StepUncaught, st)   (* no [startswith] on this value *)
        end
      else (StepReturn VNone false, emit (InvalidStep step) st)
  | _ => (StepUncaught, st)         (* no [get] on this value *)
  end.

(** *** [handle_request] *)

(** The [for] loop over [enumerate(plan)], from index [i] on. *)
Fixpoint run_steps (total i : nat) (steps : list value)
    (previous_step_output : value) (st : state) : loop_result * state :=
  match steps with
  | [] => (LoopDone previous_step_output, st)
  | step :: rest =>
      let st := emit (StartStep (i + 1) total) st in
      match execute_step step previous_step_output st with
      | (StepUncaught, st) => (LoopUncaught, st)
      | (StepReturn output success, st) =>
          if success then run_steps total (S i) rest output st
          else (LoopBroken (i + 1) output, emit (HaltStep (i + 1) output) st)
      end
  end.

Definition handle_request (user_request : pystr) (st : state)
  : run_status * state :=
  match call_llm user_request st with
  | (None, st) | (Some [], st) => (NoPlan, emit HaltNoPlan st)
  | (Some plan, st) =>
      match run_steps (List.length plan) 0 plan VNone st with
      | (LoopDone _, st) => (Completed, emit TaskCompleted st)
      | (LoopBroken i output, st) => (Failed i output, emit TaskFailed st)
      | (LoopUncaught, st) => (Uncaught, st)
      end
  end.

End WithEnvironment.

End Foreman.
Import Foreman.

(** ** A reader for a fragment of JSON

    [json.loads] is a parameter of the Foreman.  To run the Foreman on a
    concrete reply, this reader stands for it on the fragment without
    escapes in strings and without fractions or exponents in numbers: there
    a result [Some v] is the value [json.loads] returns.  [None] says that
    the text is not JSON or lies outside the fragment. *)

Module JsonFragment.

Definition is_ws (c : N) : bool :=
  ((c =? 32) || (c =? 9) || (c =? 10) || (c =? 13))%N.

Fixpoint skip_ws (s : pystr) : pystr :=
  match s with
  | c :: s' => if is_ws c then skip_ws s' else s
  | [] => []
  end.

Definition is_digit (c : N) : bool := ((48 <=? c) && (c <=? 57))%N.

Fixpoint read_digits (acc : Z) (s : pystr) : Z * pystr :=
  match s with
  | c :: s' => if is_digit c
               then read_digits (10 * acc + Z.of_N (c - 48)) s'
               else (acc, s)
  | [] => (acc, [])
  end.

(** The characters up to the closing quote. *)
Fixpoint read_string (s : pystr) : option (pystr * pystr) :=
  match s with
  | [] => None
  | c :: s' =>
      if (c =? 34)%N then Some ([], s')
      else if ((c =? 92) || (c <? 32))%N then None
      else match read_string s' with
           | Some (t, rest) => Some (c :: t, rest)
           | None => None
           end
  end.

Definition read_natural (s : pystr) : option (Z * pystr) :=
  match s with
  | c :: s' =>
      if (c =? 48)%N then Some (0%Z, s')
      else if is_digit c then Some (read_digits 0 s)
      else None
  | [] => None
  end.

Definition read_literal (s : pystr) : option (value * pystr) :=
  if startswith (str_of "true") s then Some (VBool true, skipn 4 s)
  else if startswith (str_of "false") s then Some (VBool false, skipn 5 s)
  else if startswith (str_of "null") s then Some (VNone, skipn 4 s)
  else None.

Fixpoint read_value (fuel : nat) (s : pystr) : option (value * pystr) :=
  match fuel with
  | O => None
  | S fuel' =>
      match s with
      | [] => None
      | c :: rest =>
          if (c =? 91)%N then
            match skip_ws rest with
            | [] => None
            | c' :: rest' =>
                if (c' =? 93)%N then Some (VList [], rest')
                else match read_items fuel' (c' :: rest') with
                     | Some (l, r) => Some (VList l, r)
                     | None => None
                     end
            end
          else if (c =? 123)%N then
            match skip_ws rest with
            | [] => None
            | c' :: rest' =>
                if (c' =? 125)%N then Some (VDict [], rest')
                else match read_members fuel' [] (c' :: rest') with
                     | Some (d, r) => Some (VDict d, r)
                     | None => None
                     end
            end
          else if (c =? 34)%N then
            match read_string rest with
            | Some (t, r) => Some (VStr t, r)
            | None => None
            end
          else if (c =? 45)%N then
            match read_natural rest with
            | Some (z, r) => Some (VInt (- z), r)
            | None => None
            end
          else if is_digit c then
            match read_natural s with
            | Some (z, r) => Some (VInt z, r)
            | None => None
            end
          else read_literal s
      end
  end

with read_items (fuel : nat) (s : pystr) : option (list value * pystr) :=
  match fuel with
  | O => None
  | S fuel' =>
      match read_value fuel' s with
      | None => None
      | Some (v, rest) =>
          match skip_ws rest with
          | [] => None
          | c :: rest' =>
              if (c =? 93)%N then Some ([v], rest')
              else if (c =? 44)%N then
                match read_items fuel' (skip_ws rest') with
                | Some (l, r) => Some (v :: l, r)
                | None => None
                end
              else None
          end
      end
  end

with read_members (fuel : nat) (acc : list (pystr * value)) (s : pystr)
  : option (list (pystr * value) * pystr) :=
  match fuel with
  | O => None
  | S fuel' =>
      match s with
      | [] => None
      | q :: s1 =>
          if negb (q =? 34)%N then None
          else
            match read_string s1 with
            | None => None
            | Some (k, s2) =>
                match skip_ws s2 with
                | [] => None
                | colon :: s3 =>
                    if negb (colon =? 58)%N then None
                    else
                      match read_value fuel' (skip_ws s3) with
                      | None => None
                      | Some (v, rest) =>
                          let acc := dict_set k v acc in
                          match skip_ws rest with
                          | [] => None
                          | c :: rest' =>
                              if (c =? 125)%N then Some (acc, rest')
                              else if (c =? 44)%N
                              then read_members fuel' acc (skip_ws rest')
                              else None
                          end
                      end
                end
            end
      end
  end.

Definition loads (s : pystr) : option value :=
  match read_value (2 * List.length s + 2) (skip_ws s) with
  | Some (v, rest) => match skip_ws rest with
                      | [] => Some v
                      | _ :: _ => None
                      end
  | None => None
  end.

End JsonFragment.

(** ** The replacements as rewrite rules

    The chain of [replace] calls of a branch, as a list of pairs
    [(old, new)] applied from the first to the last, and the checks on such
    a list that the proofs about the chain evaluate. *)

Module Rules.

Definition apply_rules (rules : list (pystr * pystr)) (s : pystr) : pystr :=
  fold_left (fun t r => replace (fst r) (snd r) t) rules s.

(** [strip_markers] *)
Definition marker_rules : list (pystr * pystr) :=
  [ (fence_json, []); (fence, []); (emphasis, []) ].

(** [normalize_literals], without the replacement of [" null"] by itself. *)
Definition literal_rules : list (pystr * pystr) :=
  Eval cbv in
  [ (str_of ": True", str_of ": true"); (str_of ", True", str_of ", true");
    (str_of ": False", str_of ": false"); (str_of ", False", str_of ", false");
    (str_of ": None", str_of ": null"); (str_of ", None", str_of ", null") ].

(** [normalize_literals_fallback], likewise. *)
Definition fallback_literal_rules : list (pystr * pystr) :=
  Eval cbv in
  [ (str_of ": True", str_of ": true"); (str_of ": False", str_of ": false");
    (str_of ": None", str_of ": null") ].

(** [normalize_quotes] *)
Definition quote_rules : list (pystr * pystr) := [ ([squote], [dquote]) ].

Definition mem (c : N) (p : pystr) : bool := existsb (N.eqb c) p.

(** [a] and [p] differ at a position that both have. *)
Fixpoint clash (a p : pystr) : bool :=
  match a, p with
  | x :: a', y :: p' => negb (N.eqb y x) || clash a' p'
  | _, _ => false
  end.

(** No occurrence of [p] can begin inside [new]. *)
Fixpoint insulated (new p : pystr) : bool :=
  match new with
  | [] => true
  | _ :: new' => clash new p && insulated new' p
  end.

(** [new] begins with a character that [p] does not hold. *)
Definition head_free (new p : pystr) : bool :=
  match new with
  | [] => false
  | h :: _ => negb (mem h p)
  end.

Definition nonempty (p : pystr) : bool :=
  match p with [] => false | _ :: _ => true end.

(** Applying the rule [r] neither creates an occurrence of [p] nor leaves
    one in what it writes. *)
Definition keeps_out (p : pystr) (r : pystr * pystr) : bool :=
  nonempty (fst r) && insulated (snd r) p && head_free (snd r) (tl p).

(** Each rule clears its pattern and no later rule brings it back. *)
Fixpoint rules_ok (rules : list (pystr * pystr)) : bool :=
  match rules with
  | [] => true
  | r :: rest =>
      keeps_out (fst r) r && forallb (keeps_out (fst r)) rest && rules_ok rest
  end.

(** No pattern of the rules holds one of the characters of [v]. *)
Definition free_of (v : pystr) (rules : list (pystr * pystr)) : bool :=
  forallb (fun r => nonempty (fst r)
                    && forallb (fun c => negb (mem c (fst r))) v) rules.

(** What a rule writes begins with a character foreign to the tail of
    every pattern: a character that no rule matches at is copied by all. *)
Definition copy_safe (rules : list (pystr * pystr)) : bool :=
  forallb (fun r =>
    forallb (fun r' => nonempty (fst r') && head_free (snd r) (tl (fst r')))
      rules) rules.

(** For each rule: no pattern of an earlier rule can begin inside its
    pattern, and no pattern of a later rule inside what it writes. *)
Fixpoint hits_ok (pre rules : list (pystr * pystr)) : bool :=
  match rules with
  | [] => true
  | r :: post =>
      nonempty (fst r)
      && forallb (fun r' => nonempty (fst r') && insulated (fst r) (fst r')) pre
      && forallb (fun r' => nonempty (fst r') && insulated (snd r) (fst r')) post
      && hits_ok (pre ++ [r]) post
  end.

(** The replacements keep the length of the text and neither read nor
    write the character [c]: the positions of [c] stay. *)
Definition position_safe (c : N) (rules : list (pystr * pystr)) : bool :=
  forallb (fun r => nonempty (fst r)
                    && (List.length (fst r) =? List.length (snd r))
                    && negb (mem c (fst r)) && negb (mem c (snd r))) rules.

End Rules.
Import Rules.

(** ** Concrete inputs *)

Module Inputs.

(** The JSON text [["`**``"]]: an array holding one string. *)
Definition backticks_around_emphasis : pystr :=
  Eval cbv in
  str_of "[" ++ [dquote] ++ str_of "`**``" ++ [dquote] ++ str_of "]".

End Inputs.

(** ** A small environment to run the Foreman in

    Five apprentices, a scripted model reply, [JsonFragment.loads] for
    [json.loads].  The world is the list of payloads written by the writer,
    newest first. *)

Module Demo.

Inductive demo_module : Type :=
| Lister      (* returns a list of file names *)
| Failing     (* returns a status text that begins with "Error:" *)
| Writer      (* records its payload, returns a status text *)
| Crashing    (* raises *)
| NoRun       (* has no [run] *)
| Exiting.    (* calls [sys.exit(1)] *)

Definition world : Type := list value.

Definition import_module (module_name : pystr) (w : world)
  : (exn + demo_module) * world :=
  if str_eqb module_name (ns_prefix ++ str_of "lister") then (inr Lister, w)
  else if str_eqb module_name (ns_prefix ++ str_of "failing")
  then (inr Failing, w)
  else if str_eqb module_name (ns_prefix ++ str_of "file_writer")
  then (inr Writer, w)
  else if str_eqb module_name (ns_prefix ++ str_of "crashing")
  then (inr Crashing, w)
  else if str_eqb module_name (ns_prefix ++ str_of "norun")
  then (inr NoRun, w)
  else if str_eqb module_name (ns_prefix ++ str_of "exiting")
  then (inr Exiting, w)
  else (inl (ImportError (str_of "No module named " ++ module_name)), w).

Definition module_run (m : demo_module)
  : pystr + (value -> world -> outcome * world) :=
  match m with
  | Lister =>
      inr (fun _ w =>
             (Returns (VList [VStr (str_of "a.txt"); VStr (str_of "b.txt")]), w))
  | Failing => inr (fun _ w => (Returns (VStr (str_of "Error: boom")), w))
  | Writer =>
      inr (fun payload w =>
             (Returns (VStr (str_of "Success: written")), payload :: w))
  | Crashing => inr (fun _ w => (Raises (OtherException (str_of "disk full")), w))
  | NoRun => inl (str_of "module has no attribute 'run'")
  | Exiting => inr (fun _ w => (Raises (SystemExiting (str_of "1")), w))
  end.

(** The model answers [reply] to every request; [None]: the call raises. *)
Definition chat (reply : option pystr) (user_request : pystr) (w : world)
  : option pystr * world := (reply, w).

Definition str_nontext (v : value) : pystr := str_of "<value>".
Definition unicode_lower (s : pystr) : pystr := s.

Definition initial : state world := mkState (@nil value) [] [].

Definition execute_step := Foreman.execute_step import_module module_run
                             str_nontext unicode_lower.
Definition run_steps := Foreman.run_steps import_module module_run
                          str_nontext unicode_lower.
Definition json_loads (s : pystr) : pystr + value :=
  match JsonFragment.loads s with
  | Some v => inr v
  | None => inl (str_of "Expecting value")
  end.

Definition call_llm (reply : option pystr) :=
  Foreman.call_llm (chat reply) json_loads.
Definition handle_request (reply : option pystr) :=
  Foreman.handle_request (chat reply) json_loads import_module
    module_run str_nontext unicode_lower.

(** A plan of three steps: the second returns an error text. *)
Definition three_step_reply : pystr :=
  Eval cbv in
  str_of "Here is the plan: [{'apprentice': 'lister', 'payload': {}}, {'apprentice': 'failing', 'payload': {'names': '$PREV_OUTPUT'}}, {'apprentice': 'file_writer', 'payload': {'filename': 'out.txt'}}]".

Definition step_lister : value :=
  VDict [(key_apprentice, VStr (str_of "lister")); (key_payload, VDict [])].
Definition step_failing : value :=
  VDict [(key_apprentice, VStr (str_of "failing"));
         (key_payload, VDict [(str_of "names", VStr PREV_OUTPUT)])].
Definition step_writer : value :=
  VDict [(key_apprentice, VStr (str_of "file_writer"));
         (key_payload, VDict [(str_of "filename", VStr (str_of "out.txt"))])].
Definition step_crashing : value :=
  VDict [(key_apprentice, VStr (str_of "crashing")); (key_payload, VDict [])].

(** A step whose payload is [null], and one without the payload key. *)
Definition entries_null_payload : list (pystr * value) :=
  [(key_apprentice, VStr (str_of "file_writer")); (key_payload, VNone)].
Definition step_null_payload : value := VDict entries_null_payload.
Definition entries_no_payload : list (pystr * value) :=
  [(key_apprentice, VStr (str_of "file_writer"))].

(** A payload with the sentinel inside a longer text. *)
Definition labelled_payload : value :=
  VDict [(str_of "text", VStr (str_of "result: $PREV_OUTPUT"))].
Definition entries_labelled : list (pystr * value) :=
  [(key_apprentice, VStr (str_of "file_writer"));
   (key_payload, labelled_payload)].

(** The payload of the specification's example,
    [{"a": ["$PREV_OUTPUT", {"b": "$PREV_OUTPUT"}], "n": 1}]. *)
Definition nested_payload : value :=
  VDict [(str_of "a",
          VList [VStr PREV_OUTPUT; VDict [(str_of "b", VStr PREV_OUTPUT)]]);
         (str_of "n", VInt 1)].

(** The states the three-step plan goes through. *)
Definition planned : state world :=
  Eval vm_compute in
  snd (call_llm (Some three_step_reply) (str_of "go") initial).
Definition listing : value :=
  VList [VStr (str_of "a.txt"); VStr (str_of "b.txt")].
Definition after_first : state world :=
  Eval vm_compute in snd (run_steps 3 0 [step_lister] VNone planned).
Definition after_second : state world :=
  Eval vm_compute in
  snd (execute_step step_failing listing (emit (StartStep 2 3) after_first)).

(** The same plan with a second step that raises. *)
Definition crashing_reply : pystr :=
  Eval cbv in
  str_of "[{'apprentice': 'lister', 'payload': {}}, {'apprentice': 'crashing', 'payload': {}}, {'apprentice': 'file_writer', 'payload': {'filename': 'out.txt'}}]".
Definition planned_crashing : state world :=
  Eval vm_compute in
  snd (call_llm (Some crashing_reply) (str_of "go") initial).
Definition before_crash : state world :=
  Eval vm_compute in
  snd (run_steps 3 0 [step_lister] VNone planned_crashing).
Definition at_crash : state world :=
  Eval vm_compute in emit (ShortName (str_of "crashing"))
                       (emit (StartStep 2 3) before_crash).
Definition crashed : state world :=
  Eval vm_compute in
  snd (try_body import_module module_run (ns_prefix ++ str_of "crashing")
         (VDict []) at_crash).

(** A plan whose first step calls the apprentice that exits. *)
Definition exiting_reply : pystr :=
  Eval cbv in
  str_of "[{'apprentice': 'exiting', 'payload': {}}, {'apprentice': 'file_writer', 'payload': {'filename': 'out.txt'}}]".
Definition step_exiting : value :=
  VDict [(key_apprentice, VStr (str_of "exiting")); (key_payload, VDict [])].
Definition planned_exiting : state world :=
  Eval vm_compute in
  snd (call_llm (Some exiting_reply) (str_of "go") initial).
Definition at_exit : state world :=
  Eval vm_compute in emit (ShortName (str_of "exiting"))
                       (emit (StartStep 1 2) planned_exiting).

(** A step with a [null] payload whose tool name is [true]. *)
Definition entries_true_null : list (pystr * value) :=
  [(key_apprentice, VBool true); (key_payload, VNone)].

End Demo.


(** ** Three apprentices: [file_reader], [file_writer], [doc_reader]

    The [run] functions of three modules that the Foreman imports by name.
    What they ask of the operating system and of the libraries is given by
    parameters, with what those calls raise; what they print is part of the
    world. *)

Module Apprentices.

(** [type(v).__name__] *)
Definition type_name (v : value) : pystr :=
  match v with
  | VNone => str_of "NoneType"
  | VBool _ => str_of "bool"
  | VInt _ => str_of "int"
  | VFloat _ => str_of "float"
  | VStr _ => str_of "str"
  | VList _ => str_of "list"
  | VDict _ => str_of "dict"
  end.

(** The text of the [AttributeError] raised by [v.attr] when the type of
    [v] has no such attribute. *)
Definition no_attribute (v : value) (attr : pystr) : pystr :=
  str_of "'" ++ type_name v ++ str_of "' object has no attribute '"
    ++ attr ++ str_of "'".

(** [d.get(key, default)] *)
Definition dict_get_default (key : pystr) (default : value)
    (d : list (pystr * value)) : value :=
  if dict_has key d then dict_get key d else default.

(** [s.endswith(p)] *)
Definition endswith (p s : pystr) : bool := startswith (rev p) (rev s).

(** [sep.join(parts)] *)
Fixpoint join (sep : pystr) (parts : list pystr) : pystr :=
  match parts with
  | [] => []
  | [p] => p
  | p :: rest => p ++ sep ++ join sep rest
  end.

(** [str(n)] for a length. *)
Fixpoint decimal_go (fuel n : nat) (acc : pystr) : pystr :=
  match fuel with
  | O => acc
  | S fuel' =>
      let acc' := N.of_nat (48 + n mod 10) :: acc in
      if n / 10 =? 0 then acc' else decimal_go fuel' (n / 10) acc'
  end.

Definition decimal (n : nat) : pystr := decimal_go (S n) n [].

(** What [open(filename, 'r', encoding='utf-8')] and [read] give: the
    content, [FileNotFoundError], or another exception with its text. *)
Inductive read_result : Type :=
| ReadOk (content : pystr)
| ReadNotFound
| ReadRaised (e : pystr).

(** What [file_writer] writes: a value through [json.dump], or a text. *)
Inductive write_data : Type :=
| JsonDump (content : value)
| PlainText (text : pystr).

Section WithSystem.

Variable world : Type.
Variable str_nontext : value -> pystr.
Variable unicode_lower : pystr -> pystr.

(** [print] and [traceback.print_exc] in an apprentice; the second is given
    the text of the exception. *)
Variable console : pystr -> world -> world.
Variable print_exc : pystr -> world -> world.

(** *** [file_reader.run] *)

(** [with open(filename, 'r', encoding='utf-8') as f: f.read()] *)
Variable read_text : value -> world -> read_result * world.

Definition file_reader_run (payload : value) (w : world) : outcome * world :=
  match payload with
  | VDict d =>
      let filename := dict_get (str_of "filename") d in
      if negb (truthy filename)
      then (Returns (VStr (str_of "Error: Missing 'filename' in payload.")), w)
      else
        match read_text filename w with
        | (ReadOk content, w') => (Returns (VStr content), w')
        | (ReadNotFound, w') =>
            (Returns (VStr (str_of "Error: File not found at "
                              ++ py_str str_nontext filename)), w')
        | (ReadRaised e, w') =>
            (Returns (VStr (str_of "Error: Failed to read file "
                              ++ py_str str_nontext filename
                              ++ str_of ". Reason: " ++ e)), w')
        end
  | _ => (Raises (AttributeError (no_attribute payload (str_of "get"))), w)
  end.

(** *** [file_writer.run] *)

(** [os.path.dirname(filename)] and the test before [os.makedirs]: the
    directory to create if there is one, or the text of what was raised. *)
Variable dir_to_create : value -> world -> pystr + option pystr.

(** [os.makedirs(file_dir, exist_ok=True)]: [Some e] when it raises. *)
Variable makedirs : pystr -> world -> option pystr * world.

(** [open(filename, mode, encoding='utf-8')] with [json.dump] or [write]:
    [Some e] when one of them raises. *)
Variable write_file : value -> pystr -> write_data -> world
                      -> option pystr * world.

(** The last [except] clause of [file_writer.run]. *)
Definition write_failed (filename : value) (e : pystr) (w : world)
  : outcome * world :=
  (Returns (VStr (str_of "Error: Failed to write to file "
                    ++ py_str str_nontext filename
                    ++ str_of ". Reason: " ++ e)),
   print_exc e w).

Definition file_writer_run (payload : value) (w : world) : outcome * world :=
  match payload with
  | VDict d =>
      let filename := dict_get (str_of "filename") d in
      let content := dict_get (str_of "content") d in
      match dict_get_default (str_of "action") (VStr (str_of "write")) d with
      | VStr a =>
          let action := lower unicode_lower a in
          if negb (truthy filename)
             || match content with VNone => true | _ => false end
          then (Returns (VStr (str_of
                  "Error: Missing 'filename' or 'content' in payload.")), w)
          else if negb (str_eqb action (str_of "write")
                        || str_eqb action (str_of "append"))
          then (Returns (VStr (str_of "Error: Invalid action '" ++ action
                                 ++ str_of "'. Use 'write' or 'append'.")), w)
          else
            match dir_to_create filename w with
            | inl e => write_failed filename e w
            | inr dir =>
                let made :=
                  match dir with
                  | None => (None, w)
                  | Some file_dir =>
                      match makedirs file_dir w with
                      | (Some e, w') => (Some (file_dir, e), w')
                      | (None, w') =>
                          (None,
                           console (str_of "--- File Writer: Created directory '"
                                      ++ file_dir ++ str_of "' ---") w')
                      end
                  end in
                match made with
                | (Some (file_dir, e), w') =>
                    (Returns (VStr (str_of "Error: Could not create directory '"
                                      ++ file_dir ++ str_of "'. Reason: " ++ e)),
                     w')
                | (None, w') =>
                    let mode := if str_eqb action (str_of "write")
                                then str_of "w" else str_of "a" in
                    if is_container content then
                      match write_file filename mode (JsonDump content) w' with
                      | (None, w'') =>
                          (Returns (VStr (str_of "Success: Wrote JSON content to "
                                            ++ py_str str_nontext filename)),
                           w'')
                      | (Some e, w'') => write_failed filename e w''
                      end
                    else
                      match write_file filename mode
                              (PlainText (py_str str_nontext content)) w' with
                      | (None, w'') =>
                          (Returns (VStr (str_of "Success: Wrote "
                              ++ decimal (List.length
                                            (py_str str_nontext content))
                              ++ str_of " characters to "
                              ++ py_str str_nontext filename
                              ++ str_of " (mode: " ++ action ++ str_of ").")),
                           w'')
                      | (Some e, w'') => write_failed filename e w''
                      end
                end
            end
      | other =>
          (Raises (AttributeError (no_attribute other (str_of "lower"))), w)
      end
  | _ => (Raises (AttributeError (no_attribute payload (str_of "get"))), w)
  end.

(** *** [doc_reader.run] *)

(** [os.path.exists(filename)]: the answer, or the text of what it
    raises. *)
Variable path_exists : value -> world -> pystr + bool.

(** [docx.Document(filename)] and the two loops: the texts of the
    paragraphs and of the paragraphs of the table cells, in order, or the
    text of what was raised. *)
Variable docx_texts : pystr -> world -> (pystr + list pystr) * world.

(** [traceback.format_exc()] for an exception with the text [e]. *)
Variable format_exc : pystr -> pystr.

Definition doc_reader_run (payload : value) (w : world) : outcome * world :=
  match payload with
  | VDict d =>
      let filename := dict_get (str_of "filename") d in
      if negb (truthy filename)
      then (Returns (VStr (str_of
              "Error: Missing 'filename' for the document reader.")), w)
      else
        match path_exists filename w with
        | inl e => (Raises (OtherException e), w)
        | inr false =>
            (Returns (VStr (str_of "Error: File not found at '"
                              ++ py_str str_nontext filename ++ str_of "'.")),
             w)
        | inr true =>
            match filename with
            | VStr name =>
                if negb (endswith (str_of ".docx") (lower unicode_lower name))
                then (Returns (VStr (str_of
                        "Error: File is not a .docx file. Got '"
                        ++ name ++ str_of "'.")), w)
                else
                  match docx_texts name w with
                  | (inr full_text, w') =>
                      (Returns (VStr (join (str_of (String "010" "")) full_text)),
                       w')
                  | (inl e, w') =>
                      (Returns (VStr (str_of "Error reading document '"
                                        ++ name ++ str_of "'. Reason: " ++ e)),
                       console (format_exc e) w')
                  end
            | other =>
                (Raises (AttributeError (no_attribute other (str_of "lower"))),
                 w)
            end
        end
  | _ => (Raises (AttributeError (no_attribute payload (str_of "get"))), w)
  end.

End WithSystem.

(** [s.lower()] gives, for the characters of [s] up to its first one outside
    ASCII, their lower-case forms, in place. *)
Definition keeps_ascii_prefix (unicode_lower : pystr -> pystr) : Prop :=
  forall a s, forallb (fun c => (c <? 128)%N) a = true ->
    exists t, unicode_lower (a ++ s) = map ascii_lower a ++ t.

End Apprentices.
Import Apprentices.

(** ** A small system to run the apprentices in

    Files are pairs of a name and a content, newest first; directories
    always exist; no document can be opened. *)

Module Bench.

Definition world : Type := list (pystr * pystr).

Definition lower_ascii (s : pystr) : pystr := map ascii_lower s.
Definition str_nontext (v : value) : pystr := str_of "<value>".
Definition console (line : pystr) (w : world) : world := w.
Definition print_exc (e : pystr) (w : world) : world := w.
Definition format_exc (e : pystr) : pystr := e.

Fixpoint content_of (name : pystr) (w : world) : option pystr :=
  match w with
  | [] => None
  | (n, c) :: w' => if str_eqb n name then Some c else content_of name w'
  end.

Definition read_text (filename : value) (w : world) : read_result * world :=
  match filename with
  | VStr name => match content_of name w with
                 | Some c => (ReadOk c, w)
                 | None => (ReadNotFound, w)
                 end
  | _ => (ReadRaised (str_of "expected str, bytes or os.PathLike object"), w)
  end.

Definition dir_to_create (filename : value) (w : world)
  : pystr + option pystr := inr None.

Definition makedirs (file_dir : pystr) (w : world) : option pystr * world :=
  (None, w).

Definition write_file (filename : value) (mode : pystr) (data : write_data)
    (w : world) : option pystr * world :=
  match filename, data with
  | VStr name, PlainText text => (None, (name, text) :: w)
  | VStr name, JsonDump _ => (None, (name, str_of "{}") :: w)
  | _, _ => (Some (str_of "expected str, bytes or os.PathLike object"), w)
  end.

Definition path_exists (filename : value) (w : world) : pystr + bool :=
  match filename with
  | VStr name => inr (match content_of name w with
                      | Some _ => true
                      | None => false
                      end)
  | _ => inl (str_of "stat: path should be string, bytes, os.PathLike or integer")
  end.

Definition docx_texts (name : pystr) (w : world)
  : (pystr + list pystr) * world :=
  (inl (str_of "File is not a zip file"), w).

Definition file_reader := file_reader_run str_nontext read_text.
Definition file_writer :=
  file_writer_run str_nontext lower_ascii console print_exc dir_to_create
    makedirs write_file.
Definition doc_reader :=
  doc_reader_run str_nontext lower_ascii console path_exists docx_texts
    format_exc.

Inductive bench_module : Type := FileReader | FileWriter | DocReader.

Definition import_module (module_name : pystr) (w : world)
  : (exn + bench_module) * world :=
  if str_eqb module_name (ns_prefix ++ str_of "file_reader")
  then (inr FileReader, w)
  else if str_eqb module_name (ns_prefix ++ str_of "file_writer")
  then (inr FileWriter, w)
  else if str_eqb module_name (ns_prefix ++ str_of "doc_reader")
  then (inr DocReader, w)
  else (inl (ImportError (str_of "No module named " ++ module_name)), w).

Definition module_run (m : bench_module)
  : pystr + (value -> world -> outcome * world) :=
  match m with
  | FileReader => inr file_reader
  | FileWriter => inr file_writer
  | DocReader => inr doc_reader
  end.

Definition try_apprentice :=
  Foreman.try_apprentice import_module module_run lower_ascii.

Definition disk : world :=
  [(str_of "notes.txt", str_of "hello"); (str_of "Report.DOCX", str_of "PK")].

Definition start : state world := mkState disk [] [].

Definition ask_notes : list (pystr * value) :=
  [(str_of "filename", VStr (str_of "notes.txt"))].
Definition ask_missing : list (pystr * value) :=
  [(str_of "filename", VStr (str_of "nothing.txt"))].
Definition ask_report : list (pystr * value) :=
  [(str_of "filename", VStr (str_of "Report.DOCX"))].
Definition ask_nothing : list (pystr * value) := [].
Definition write_notes : list (pystr * value) :=
  [(str_of "filename", VStr (str_of "out.txt"));
   (str_of "content", VStr (str_of "hi")); (str_of "action", VStr (str_of "Write"))].
Definition write_badly : list (pystr * value) :=
  [(str_of "filename", VStr (str_of "out.txt"));
   (str_of "content", VStr (str_of "hi")); (str_of "action", VStr (str_of "erase"))].

(** A plan whose step names its apprentice by a number. *)
Definition number_name_reply : pystr :=
  Eval cbv in str_of "[{'apprentice': 5, 'payload': {}}]".
Definition entries_number_name : list (pystr * value) :=
  [(key_apprentice, VInt 5); (key_payload, VDict [])].
Definition planned_number : state Demo.world :=
  Eval vm_compute in
  snd (Demo.call_llm (Some number_name_reply) (str_of "go") Demo.initial).

Definition entries_lister : list (pystr * value) :=
  [(key_apprentice, VStr (str_of "lister")); (key_payload, VDict [])].

End Bench.

(** * Properties *)

Unset Implicit Arguments.

(** ** Text: [startswith], [contains], [find], [count] *)

Lemma startswith_split (p s : pystr) :
  startswith p s = true -> s = p ++ skipn (List.length p) s.
Proof.
  revert s; induction p as [|x p IH]; intros [|c s] H; simpl in *;
    try reflexivity; try discriminate.
  apply andb_true_iff in H as [Hx Hp].
  apply N.eqb_eq in Hx; subst c.
  f_equal; now apply IH.
Qed.

Lemma startswith_app (p t : pystr) : startswith p (p ++ t) = true.
Proof.
  induction p as [|x p IH]; simpl; [reflexivity|].
  now rewrite N.eqb_refl, IH.
Qed.

Lemma startswith_app_l (p q s : pystr) :
  startswith (p ++ q) s = true -> startswith p s = true.
Proof.
  revert s; induction p as [|x p IH]; intros s H; [reflexivity|].
  destruct s as [|c s]; simpl in *; [discriminate|].
  apply andb_true_iff in H as [Hx Hp].
  rewrite Hx; simpl; now apply IH.
Qed.

(** A tail made of characters that [p] does not hold cannot complete an
    occurrence of [p]. *)
Lemma startswith_app_free (p s v : pystr) :
  Forall (fun c => ~ In c p) v ->
  startswith p (s ++ v) = startswith p s.
Proof.
  intros Hv; revert s; induction p as [|x p IH]; intros s; [reflexivity|].
  destruct s as [|d s]; simpl.
  - destruct v as [|c v]; [reflexivity|].
    inversion Hv as [|? ? Hc _]; subst.
    destruct (N.eqb_spec x c) as [->|_]; [|reflexivity].
    exfalso; apply Hc; now left.
  - rewrite IH; [reflexivity|].
    eapply Forall_impl; [|exact Hv].
    intros c Hc Hin; apply Hc; now right.
Qed.

Lemma contains_cons (p : pystr) (c : N) (s : pystr) :
  contains p (c :: s) = startswith p (c :: s) || contains p s.
Proof. reflexivity. Qed.

Lemma contains_nil_r (p : pystr) : contains p [] = startswith p [].
Proof. simpl; now rewrite orb_false_r. Qed.

Lemma contains_app_r (p a b : pystr) :
  contains p (a ++ b) = false -> contains p b = false.
Proof.
  induction a as [|c a IH]; intros H; [exact H|].
  simpl app in H; rewrite contains_cons in H.
  apply orb_false_iff in H as [_ H]; now apply IH.
Qed.

Lemma contains_skipn (p : pystr) (n : nat) (s : pystr) :
  contains p s = false -> contains p (skipn n s) = false.
Proof.
  intros H; rewrite <- (firstn_skipn n s) in H.
  now apply contains_app_r in H.
Qed.

Lemma startswith_app_r_false (p a b : pystr) :
  startswith p (a ++ b) = false -> startswith p a = false.
Proof.
  revert a; induction p as [|x p IH]; intros a H; [discriminate|].
  destruct a as [|c a]; [reflexivity|].
  simpl in *. apply andb_false_iff in H as [H|H].
  - now rewrite H.
  - rewrite (IH _ H); apply andb_false_r.
Qed.

Lemma contains_app_l (p a b : pystr) :
  contains p (a ++ b) = false -> contains p a = false.
Proof.
  induction a as [|c a IH]; intros H.
  - rewrite contains_nil_r.
    destruct p; [|reflexivity].
    destruct b; simpl in H; discriminate.
  - simpl app in H; rewrite contains_cons in *.
    apply orb_false_iff in H as [H1 H2].
    change (c :: a ++ b) with ((c :: a) ++ b) in H1.
    apply startswith_app_r_false in H1.
    now rewrite H1, IH.
Qed.

(** A text that holds no [p] holds no extension of [p] either. *)
Lemma contains_longer (p q s : pystr) :
  contains p s = false -> contains (p ++ q) s = false.
Proof.
  induction s as [|c s IH]; intros H.
  - rewrite contains_nil_r in *.
    destruct p; [discriminate|reflexivity].
  - rewrite contains_cons in *.
    apply orb_false_iff in H as [H1 H2].
    rewrite (IH H2), orb_false_r.
    destruct (startswith (p ++ q) (c :: s)) eqn:E; [|reflexivity].
    apply startswith_app_l in E; congruence.
Qed.

Lemma count_app (c : N) (a b : pystr) :
  count c (a ++ b) = count c a + count c b.
Proof. induction a as [|x a IH]; simpl; [reflexivity|rewrite IH; lia]. Qed.

Lemma count_times_same (c : N) (n : nat) : count c (times c n) = n.
Proof.
  unfold times; induction n as [|n IH]; simpl; [reflexivity|].
  now rewrite N.eqb_refl, IH.
Qed.

Lemma count_times_other (c d : N) (n : nat) :
  d <> c -> count c (times d n) = 0.
Proof.
  intros Hd; unfold times; induction n as [|n IH]; simpl; [reflexivity|].
  rewrite IH; now destruct (N.eqb_spec d c).
Qed.

(** ** [str.replace] *)

Lemma replace_go_skip (old new : pystr) (k : nat) (s : pystr) :
  replace_go old new k s = replace_go old new 0 (skipn k s).
Proof.
  revert k; induction s as [|c s IH]; intros [|k]; try reflexivity.
  simpl; apply IH.
Qed.

Section ReplaceFacts.

Variables old new : pystr.
Hypothesis old_nonempty : old <> [].

Lemma replace_nil : replace old new [] = [].
Proof. unfold replace; destruct old; [contradiction|reflexivity]. Qed.

(** The unfolding of the scan at one character. *)
Lemma replace_step (c : N) (s : pystr) :
  replace old new (c :: s) =
  if startswith old (c :: s)
  then new ++ replace old new (skipn (List.length old) (c :: s))
  else c :: replace old new s.
Proof.
  unfold replace; destruct old as [|x o] eqn:E; [contradiction|].
  cbn [replace_go].
  destruct (startswith (x :: o) (c :: s)); [|reflexivity].
  rewrite replace_go_skip.
  simpl; now rewrite Nat.sub_0_r.
Qed.

Lemma replace_hit (t : pystr) :
  replace old new (old ++ t) = new ++ replace old new t.
Proof.
  destruct (old ++ t) as [|c r] eqn:H.
  - apply app_eq_nil in H as [H _]; contradiction.
  - rewrite replace_step, <- H, startswith_app.
    now rewrite skipn_app, skipn_all, Nat.sub_diag.
Qed.

Lemma replace_miss (c : N) (s : pystr) :
  startswith old (c :: s) = false ->
  replace old new (c :: s) = c :: replace old new s.
Proof. intros H; now rewrite replace_step, H. Qed.

(** Induction along the scan: a match jumps over the occurrence. *)
Lemma scan_ind (P : pystr -> Prop) :
  P [] ->
  (forall t, P t -> P (old ++ t)) ->
  (forall c s, startswith old (c :: s) = false -> P s -> P (c :: s)) ->
  forall s, P s.
Proof.
  intros Hnil Hhit Hmiss s.
  assert (H : forall n s, List.length s <= n -> P s).
  { clear s; induction n as [|n IH]; intros [|c s] Hn; simpl in Hn;
      try exact Hnil; try lia.
    destruct (startswith old (c :: s)) eqn:E.
    - rewrite (startswith_split _ _ E).
      apply Hhit, IH.
      destruct old as [|x o]; [contradiction|].
      cbn [List.length skipn]. rewrite length_skipn; lia.
    - apply Hmiss; [exact E|apply IH; lia]. }
  now apply (H (List.length s)).
Qed.

Lemma replace_absent (s : pystr) :
  contains old s = false -> replace old new s = s.
Proof.
  induction s as [|c s IH]; intros H; [apply replace_nil|].
  rewrite contains_cons in H; apply orb_false_iff in H as [H1 H2].
  now rewrite replace_miss, IH.
Qed.

(** A first character other than that of [old] is copied. *)
Lemma replace_cons_free (c : N) (s : pystr) :
  hd_error old <> Some c ->
  replace old new (c :: s) = c :: replace old new s.
Proof.
  intros H; apply replace_miss.
  destruct old as [|x o]; [contradiction|]; simpl in *.
  destruct (N.eqb_spec x c) as [->|]; [now elim H|reflexivity].
Qed.

(** A tail of characters that [old] does not hold is copied. *)
Lemma replace_app_free (s v : pystr) :
  Forall (fun c => ~ In c old) v ->
  replace old new (s ++ v) = replace old new s ++ v.
Proof.
  intros Hv; induction s as [|t IH|c s E IH] using scan_ind.
  - rewrite replace_nil; simpl.
    induction v as [|c v IHv]; [apply replace_nil|].
    inversion Hv as [|? ? Hc Hv']; subst.
    rewrite replace_cons_free, IHv; auto.
    destruct old as [|x o]; [contradiction|]; simpl.
    intros [= ->]; apply Hc; now left.
  - now rewrite <- app_assoc, !replace_hit, IH, app_assoc.
  - simpl app; rewrite !replace_miss, IH; auto.
    change (c :: s ++ v) with ((c :: s) ++ v).
    now rewrite startswith_app_free.
Qed.

End ReplaceFacts.

Lemma replace_same (p s : pystr) : p <> [] -> replace p p s = s.
Proof.
  intros Hp; induction s as [|t IH|c s E IH] using (scan_ind p Hp).
  - now apply replace_nil.
  - now rewrite replace_hit, IH.
  - now rewrite replace_miss, IH.
Qed.

(** ** Patterns that a replacement cannot create *)

Lemma mem_false (c : N) (p : pystr) : mem c p = false -> ~ In c p.
Proof.
  unfold mem; intros H Hin.
  assert (E : existsb (N.eqb c) p = true).
  { apply existsb_exists; exists c; split; [exact Hin|apply N.eqb_refl]. }
  congruence.
Qed.

Lemma nonempty_true (p : pystr) : nonempty p = true -> p <> [].
Proof. destruct p; [discriminate|discriminate]. Qed.

Lemma clash_startswith (a p y : pystr) :
  clash a p = true -> startswith p (a ++ y) = false.
Proof.
  revert p; induction a as [|x a IH]; intros [|c p] H; try discriminate.
  simpl in *. destruct (N.eqb c x); simpl in *; [now apply IH|reflexivity].
Qed.

Lemma insulated_contains (new p y : pystr) :
  insulated new p = true -> contains p y = false ->
  contains p (new ++ y) = false.
Proof.
  intros Hi Hy; induction new as [|h new IH]; [exact Hy|].
  cbn [insulated] in Hi; apply andb_true_iff in Hi as [Hc Hi].
  simpl app; rewrite contains_cons, (IH Hi), orb_false_r.
  now apply (clash_startswith _ _ y) in Hc.
Qed.

Section Absence.

Variables old new : pystr.
Hypothesis old_nonempty : old <> [].

(** A prefix found after the replacement was there before it, when the
    replacement text begins with a character foreign to the prefix. *)
Lemma startswith_replace (p s : pystr) :
  head_free new p = true ->
  startswith p (replace old new s) = true -> startswith p s = true.
Proof.
  revert s; induction p as [|x p IH]; intros s Hf H; [reflexivity|].
  destruct new as [|h n] eqn:En; [discriminate|].
  cbn in Hf. apply negb_true_iff, orb_false_iff in Hf as [Hh Hp].
  destruct s as [|c s].
  - rewrite replace_nil in H by assumption; discriminate.
  - rewrite replace_step in H by assumption.
    destruct (startswith old (c :: s)).
    + simpl in H. rewrite N.eqb_sym, Hh in H; discriminate.
    + simpl in H |- *. apply andb_true_iff in H as [Hx H].
      rewrite Hx; simpl. apply IH; [|exact H].
      unfold head_free, mem; now rewrite Hp.
Qed.

(** After the replacement the text holds no [p], when [p] is the pattern
    replaced or was absent before, and [new] is insulated from [p]. *)
Lemma replace_clears (p s : pystr) :
  insulated new p = true -> head_free new (tl p) = true ->
  p = old \/ contains p s = false ->
  contains p (replace old new s) = false.
Proof.
  intros Hi Hf.
  assert (Hp : exists x p', p = x :: p').
  { destruct new as [|h n]; [discriminate|].
    destruct p as [|x p']; [discriminate|eauto]. }
  destruct Hp as (x & p' & ->); cbn [tl] in Hf.
  induction s as [|t IH|c s E IH] using (scan_ind old old_nonempty); intros Hs.
  - now rewrite replace_nil.
  - rewrite replace_hit by assumption.
    apply insulated_contains; [exact Hi|].
    apply IH. destruct Hs as [Hs|Hs]; [now left|right].
    now apply contains_app_r in Hs.
  - rewrite replace_miss by assumption.
    assert (Hs' : x :: p' = old \/ contains (x :: p') s = false).
    { destruct Hs as [Hs|Hs]; [now left|right].
      rewrite contains_cons in Hs; now apply orb_false_iff in Hs. }
    rewrite contains_cons, (IH Hs'), orb_false_r.
    destruct (startswith (x :: p') (c :: replace old new s)) eqn:F;
      [|reflexivity].
    simpl in F; apply andb_true_iff in F as [Fx F].
    apply startswith_replace in F; [|exact Hf].
    assert (G : startswith (x :: p') (c :: s) = true)
      by (simpl; now rewrite Fx, F).
    destruct Hs as [Hs|Hs].
    + rewrite Hs in G; congruence.
    + rewrite contains_cons, G in Hs; discriminate.
Qed.

End Absence.

(** Removing a doubled character leaves no doubled character. *)
Lemma remove_double_clears (a : N) (s : pystr) :
  contains [a; a] (replace [a; a] [] s) = false.
Proof.
  assert (Ho : [a; a] <> []) by discriminate.
  assert (Hhead : forall t, startswith [a] (replace [a; a] [] t) = true ->
                            startswith [a] t = true).
  { intros [|c t] H.
    - rewrite replace_nil in H by assumption; discriminate.
    - rewrite replace_step in H by assumption.
      destruct (startswith [a; a] (c :: t)) eqn:E.
      + simpl in E |- *. apply andb_true_iff in E as [-> _]; reflexivity.
      + simpl in H |- *. now rewrite andb_true_r in *. }
  induction s as [|t IH|c s E IH] using (scan_ind _ Ho).
  - now rewrite replace_nil.
  - now rewrite replace_hit.
  - rewrite replace_miss by assumption.
    rewrite contains_cons, IH, orb_false_r.
    destruct (startswith [a; a] (c :: replace [a; a] [] s)) eqn:F;
      [|reflexivity].
    change (startswith [a; a] (c :: replace [a; a] [] s))
      with (N.eqb a c && startswith [a] (replace [a; a] [] s)) in F.
    apply andb_true_iff in F as [Fx F]. apply Hhead in F.
    change (startswith [a; a] (c :: s))
      with (N.eqb a c && startswith [a] s) in E.
    rewrite Fx, F in E; discriminate.
Qed.

(** ** Chains of replacements *)

Lemma apply_rules_cons (r : pystr * pystr) (rules : list (pystr * pystr))
    (s : pystr) :
  apply_rules (r :: rules) s = apply_rules rules (replace (fst r) (snd r) s).
Proof. reflexivity. Qed.

Lemma apply_rules_app (r1 r2 : list (pystr * pystr)) (s : pystr) :
  apply_rules (r1 ++ r2) s = apply_rules r2 (apply_rules r1 s).
Proof. unfold apply_rules; apply fold_left_app. Qed.

Lemma apply_rules_keeps (p : pystr) (rules : list (pystr * pystr)) (s : pystr) :
  forallb (keeps_out p) rules = true ->
  contains p s = false -> contains p (apply_rules rules s) = false.
Proof.
  revert s; induction rules as [|[old new] rules IH]; intros s Hk Hs;
    [exact Hs|].
  cbn [forallb] in Hk; apply andb_true_iff in Hk as [Hr Hk].
  rewrite apply_rules_cons; apply IH; [exact Hk|].
  unfold keeps_out in Hr; cbn [fst snd] in *.
  apply andb_true_iff in Hr as [Hr Hf]; apply andb_true_iff in Hr as [Hn Hi].
  apply replace_clears; auto using nonempty_true.
Qed.

Lemma apply_rules_clears (rules : list (pystr * pystr)) :
  rules_ok rules = true ->
  forall s r, In r rules -> contains (fst r) (apply_rules rules s) = false.
Proof.
  induction rules as [|[old new] rules IH]; intros Hok s r Hin; [contradiction|].
  cbn [rules_ok] in Hok.
  apply andb_true_iff in Hok as [Hok Hrest];
    apply andb_true_iff in Hok as [Hself Hlater].
  rewrite apply_rules_cons. destruct Hin as [<-|Hin]; [|now apply IH].
  cbn [fst snd] in *. apply apply_rules_keeps; [exact Hlater|].
  unfold keeps_out in Hself; cbn [fst snd] in Hself.
  apply andb_true_iff in Hself as [Hr Hf];
    apply andb_true_iff in Hr as [Hn Hi].
  apply replace_clears; auto using nonempty_true.
Qed.

Lemma apply_rules_fixed (rules : list (pystr * pystr)) (s : pystr) :
  (forall r, In r rules -> fst r <> [] /\ contains (fst r) s = false) ->
  apply_rules rules s = s.
Proof.
  induction rules as [|r rules IH]; intros H; [reflexivity|].
  rewrite apply_rules_cons.
  destruct (H r (or_introl eq_refl)) as [Hn Hc].
  rewrite replace_absent by assumption.
  apply IH; intros r' Hr'; apply H; now right.
Qed.

Lemma rules_ok_nonempty (rules : list (pystr * pystr)) :
  rules_ok rules = true -> forall r, In r rules -> fst r <> [].
Proof.
  induction rules as [|r0 rules IH]; intros Hok r Hin; [contradiction|].
  cbn [rules_ok] in Hok.
  apply andb_true_iff in Hok as [Hok Hrest];
    apply andb_true_iff in Hok as [Hself _].
  destruct Hin as [<-|Hin]; [|now apply IH].
  unfold keeps_out in Hself.
  apply andb_true_iff in Hself as [Hr _]; apply andb_true_iff in Hr as [Hn _].
  now apply nonempty_true.
Qed.

(** A chain that passes [rules_ok] changes nothing when applied again. *)
Lemma apply_rules_idempotent (rules : list (pystr * pystr)) (s : pystr) :
  rules_ok rules = true ->
  apply_rules rules (apply_rules rules s) = apply_rules rules s.
Proof.
  intros Hok; apply apply_rules_fixed; intros r Hr; split.
  - now apply (rules_ok_nonempty _ Hok).
  - now apply apply_rules_clears.
Qed.

Lemma free_of_forall (v : pystr) (rules : list (pystr * pystr)) :
  free_of v rules = true ->
  forall r, In r rules ->
    fst r <> [] /\ Forall (fun c => ~ In c (fst r)) v.
Proof.
  unfold free_of; intros H r Hr.
  rewrite forallb_forall in H. specialize (H r Hr).
  apply andb_true_iff in H as [Hn Hv]; split; [now apply nonempty_true|].
  rewrite forallb_forall in Hv. apply Forall_forall; intros c Hc.
  apply mem_false. specialize (Hv c Hc). now apply negb_true_iff in Hv.
Qed.

Lemma free_of_app (v w : pystr) (rules : list (pystr * pystr)) :
  free_of v rules = true -> free_of w rules = true ->
  free_of (v ++ w) rules = true.
Proof.
  unfold free_of; rewrite !forallb_forall; intros Hv Hw r Hr.
  specialize (Hv r Hr); specialize (Hw r Hr).
  apply andb_true_iff in Hv as [Hn Hv]; apply andb_true_iff in Hw as [_ Hw].
  now rewrite Hn, forallb_app, Hv, Hw.
Qed.

Lemma free_of_times (c : N) (n : nat) (rules : list (pystr * pystr)) :
  free_of [c] rules = true -> free_of (times c n) rules = true.
Proof.
  intros H; induction n as [|n IH].
  - unfold free_of in *; rewrite forallb_forall in *; intros r Hr.
    specialize (H r Hr); apply andb_true_iff in H as [-> _]; reflexivity.
  - change (times c (S n)) with ([c] ++ times c n); now apply free_of_app.
Qed.

(** A first character and a tail that no pattern holds go through a chain
    unchanged. *)
Lemma apply_rules_cons_free (c : N) (rules : list (pystr * pystr)) (s : pystr) :
  free_of [c] rules = true ->
  apply_rules rules (c :: s) = c :: apply_rules rules s.
Proof.
  intros Hf; revert s; induction rules as [|r rules IH]; intros s;
    [reflexivity|].
  destruct (free_of_forall _ _ Hf r (or_introl eq_refl)) as [Hn Hc].
  rewrite !apply_rules_cons, replace_cons_free; [apply IH| exact Hn |].
  - unfold free_of in *; cbn [forallb] in Hf.
    now apply andb_true_iff in Hf as [_ Hf].
  - inversion Hc as [|? ? Hc' _]; subst.
    destruct (fst r) as [|x o]; [contradiction|]; simpl.
    intros [= ->]; apply Hc'; now left.
Qed.

Lemma apply_rules_app_free (v : pystr) (rules : list (pystr * pystr))
    (s : pystr) :
  free_of v rules = true ->
  apply_rules rules (s ++ v) = apply_rules rules s ++ v.
Proof.
  intros Hf; revert s; induction rules as [|r rules IH]; intros s;
    [reflexivity|].
  destruct (free_of_forall _ _ Hf r (or_introl eq_refl)) as [Hn Hc].
  rewrite !apply_rules_cons, replace_app_free by assumption.
  apply IH. unfold free_of in *; cbn [forallb] in Hf.
  now apply andb_true_iff in Hf as [_ Hf].
Qed.

(** ** [find], [rfind] and the slice between the brackets *)

Lemma find_app_free (c : N) (a x : pystr) :
  ~ In c a ->
  find c (a ++ x) = option_map (fun i => List.length a + i) (find c x).
Proof.
  intros Ha; induction a as [|d a IH]; simpl.
  - now destruct (find c x).
  - destruct (N.eqb_spec d c) as [->|_]; [elim Ha; now left|].
    rewrite IH by (intros H; apply Ha; now right).
    now destruct (find c x).
Qed.

Lemma rfind_app_free (c : N) (a x : pystr) :
  ~ In c a ->
  rfind c (a ++ x) = option_map (fun i => List.length a + i) (rfind c x).
Proof.
  intros Ha; induction a as [|d a IH]; simpl.
  - now destruct (rfind c x).
  - rewrite IH by (intros H; apply Ha; now right).
    destruct (rfind c x); simpl; [reflexivity|].
    destruct (N.eqb_spec d c) as [->|_]; [elim Ha; now left|reflexivity].
Qed.

Lemma find_none_free (c : N) (v : pystr) : ~ In c v -> find c v = None.
Proof.
  intros H; rewrite <- (app_nil_r v), find_app_free by assumption.
  reflexivity.
Qed.

Lemma rfind_none_free (c : N) (v : pystr) : ~ In c v -> rfind c v = None.
Proof.
  intros H; rewrite <- (app_nil_r v), rfind_app_free by assumption.
  reflexivity.
Qed.

Lemma find_app_tail (c : N) (s v : pystr) :
  ~ In c v -> find c (s ++ v) = find c s.
Proof.
  intros Hv; induction s as [|d s IH]; simpl; [now apply find_none_free|].
  now rewrite IH.
Qed.

Lemma rfind_app_tail (c : N) (s v : pystr) :
  ~ In c v -> rfind c (s ++ v) = rfind c s.
Proof.
  intros Hv; induction s as [|d s IH]; simpl; [now apply rfind_none_free|].
  now rewrite IH.
Qed.

Lemma rfind_last (c : N) (s v : pystr) :
  ~ In c v -> rfind c (s ++ c :: v) = Some (List.length s).
Proof.
  intros Hv; induction s as [|d s IH]; simpl.
  - now rewrite rfind_none_free, N.eqb_refl.
  - now rewrite IH.
Qed.

Lemma find_replace (old new : pystr) (c : N) (s : pystr) :
  old <> [] -> List.length old = List.length new ->
  ~ In c old -> ~ In c new ->
  find c (replace old new s) = find c s.
Proof.
  intros Ho Hl Hco Hcn.
  induction s as [|t IH|d s E IH] using (scan_ind _ Ho).
  - now rewrite replace_nil.
  - rewrite replace_hit, !find_app_free, IH, Hl by assumption; reflexivity.
  - rewrite replace_miss by assumption; simpl; now rewrite IH.
Qed.

Lemma rfind_replace (old new : pystr) (c : N) (s : pystr) :
  old <> [] -> List.length old = List.length new ->
  ~ In c old -> ~ In c new ->
  rfind c (replace old new s) = rfind c s.
Proof.
  intros Ho Hl Hco Hcn.
  induction s as [|t IH|d s E IH] using (scan_ind _ Ho).
  - now rewrite replace_nil.
  - rewrite replace_hit, !rfind_app_free, IH, Hl by assumption; reflexivity.
  - rewrite replace_miss by assumption; simpl; now rewrite IH.
Qed.

Lemma position_safe_finds (c : N) (rules : list (pystr * pystr)) (s : pystr) :
  position_safe c rules = true ->
  find c (apply_rules rules s) = find c s
  /\ rfind c (apply_rules rules s) = rfind c s.
Proof.
  revert s; induction rules as [|[old new] rules IH]; intros s H;
    [now split|].
  unfold position_safe in H; cbn [forallb fst snd] in H.
  apply andb_true_iff in H as [Hr H].
  apply andb_true_iff in Hr as [Hr Hcn]; apply andb_true_iff in Hr as [Hr Hco].
  apply andb_true_iff in Hr as [Hn Hl].
  apply nonempty_true in Hn. apply Nat.eqb_eq in Hl.
  apply negb_true_iff, mem_false in Hcn, Hco.
  rewrite apply_rules_cons; cbn [fst snd].
  destruct (IH (replace old new s) H) as [-> ->].
  now rewrite find_replace, rfind_replace.
Qed.

Lemma find_some_skipn (c : N) (s : pystr) (i : nat) :
  find c s = Some i -> exists b, skipn i s = c :: b.
Proof.
  revert i; induction s as [|d s IH]; intros i H; [discriminate|].
  simpl in H. destruct (N.eqb_spec d c) as [->|_].
  - injection H as <-; now exists s.
  - destruct (find c s) as [k|]; [|discriminate].
    injection H as <-; simpl; now apply IH.
Qed.

Lemma rfind_some_skipn (c : N) (s : pystr) (j : nat) :
  rfind c s = Some j -> exists b, skipn j s = c :: b.
Proof.
  revert j; induction s as [|d s IH]; intros j H; [discriminate|].
  simpl in H. destruct (rfind c s) as [k|].
  - injection H as <-; simpl; now apply IH.
  - destruct (N.eqb_spec d c) as [->|_]; [|discriminate].
    injection H as <-; now exists s.
Qed.

(** The slice taken by the bracketed branch begins with the opening bracket
    and ends with the closing one. *)
Lemma slice_bracketed (s : pystr) (i j : nat) :
  bracket_span s = Some (i, j) ->
  exists m, slice i (j + 1) s = lbracket :: m ++ [rbracket].
Proof.
  unfold bracket_span; intros H.
  destruct (find lbracket s) as [i'|] eqn:Hf; [|discriminate].
  destruct (rfind rbracket s) as [j'|] eqn:Hr; [|discriminate].
  destruct (Nat.ltb_spec i' j') as [Hlt|]; [|discriminate].
  injection H as -> ->.
  apply find_some_skipn in Hf as [b Hb].
  apply rfind_some_skipn in Hr as [b' Hb'].
  assert (Hj : skipn (j - i - 1) b = rbracket :: b').
  { rewrite <- Hb'. replace j with ((j - i) + i) at 2 by lia.
    rewrite <- skipn_skipn, Hb.
    replace (j - i) with (S (j - i - 1)) at 2 by lia. reflexivity. }
  exists (firstn (j - i - 1) b).
  unfold slice; rewrite Hb.
  replace (j + 1 - i) with (S (j - i)) by lia. cbn [firstn]. f_equal.
  rewrite <- (firstn_skipn (j - i - 1) b) at 1. rewrite Hj.
  assert (Hlen : List.length (firstn (j - i - 1) b) = j - i - 1).
  { apply firstn_length_le.
    assert (Hs : List.length (skipn (j - i - 1) b) <> 0)
      by (rewrite Hj; discriminate).
    rewrite length_skipn in Hs. lia. }
  rewrite firstn_app, Hlen.
  replace (j - i - (j - i - 1)) with 1 by lia.
  rewrite firstn_all2 by lia. reflexivity.
Qed.

(** ** [strip] *)

Lemma rstrip_snoc (s : pystr) (c : N) :
  isspace c = false -> rstrip (s ++ [c]) = s ++ [c].
Proof.
  intros Hc; induction s as [|d s IH]; simpl; [now rewrite Hc|].
  rewrite IH. now destruct (s ++ [c]) eqn:E; [destruct s; discriminate|].
Qed.

Lemma strip_bracketed (m : pystr) :
  strip (lbracket :: m ++ [rbracket]) = lbracket :: m ++ [rbracket].
Proof.
  unfold strip; cbn [lstrip].
  change (isspace lbracket) with false; cbv iota.
  change (lbracket :: m ++ [rbracket]) with ((lbracket :: m) ++ [rbracket]).
  now apply rstrip_snoc.
Qed.

(** ** The stages of the clean-up as chains of replacements *)

Lemma strip_markers_rules (s : pystr) :
  strip_markers s = apply_rules marker_rules s.
Proof. reflexivity. Qed.

Lemma normalize_literals_rules (s : pystr) :
  normalize_literals s = apply_rules literal_rules s.
Proof.
  unfold normalize_literals; now rewrite replace_same by discriminate.
Qed.

Lemma normalize_literals_fallback_rules (s : pystr) :
  normalize_literals_fallback s = apply_rules fallback_literal_rules s.
Proof.
  unfold normalize_literals_fallback; now rewrite replace_same by discriminate.
Qed.

Lemma normalize_quotes_rules (s : pystr) :
  normalize_quotes s = apply_rules quote_rules s.
Proof. reflexivity. Qed.

Lemma clean_sliced_rules (s : pystr) :
  clean_sliced s =
  strip (apply_rules (literal_rules ++ quote_rules)
           (apply_rules marker_rules s)).
Proof.
  unfold clean_sliced.
  now rewrite normalize_quotes_rules, normalize_literals_rules,
    strip_markers_rules, apply_rules_app.
Qed.

Lemma clean_fallback_rules (s : pystr) :
  clean_fallback s = apply_rules (fallback_literal_rules ++ quote_rules) s.
Proof.
  unfold clean_fallback.
  now rewrite normalize_quotes_rules, normalize_literals_fallback_rules,
    apply_rules_app.
Qed.

(** ** Brace balancing *)

Lemma balance_braces_app (t : pystr) :
  balance_braces t = t ++ times rbrace (count lbrace t - count rbrace t).
Proof.
  unfold balance_braces.
  destruct (Nat.ltb_spec (count rbrace t) (count lbrace t)) as [H|H];
    [reflexivity|].
  replace (count lbrace t - count rbrace t) with 0 by lia.
  symmetry; apply app_nil_r.
Qed.

Lemma balance_braces_balanced (t : pystr) :
  count lbrace t <= count rbrace t -> balance_braces t = t.
Proof.
  intros H; unfold balance_braces.
  destruct (Nat.ltb_spec (count rbrace t) (count lbrace t)); [lia|reflexivity].
Qed.

Lemma balance_braces_counts (t : pystr) :
  count lbrace (balance_braces t) = count lbrace t
  /\ count rbrace (balance_braces t)
     = count rbrace t + (count lbrace t - count rbrace t).
Proof.
  rewrite balance_braces_app, !count_app, count_times_same.
  rewrite count_times_other by discriminate. lia.
Qed.

(** ** Applying the clean-up to its own result *)

Lemma not_in_times (c d : N) (n : nat) : c <> d -> ~ In c (times d n).
Proof. intros H Hin; apply repeat_spec in Hin; congruence. Qed.

Lemma cleanup_bracketed (raw : pystr) (i j : nat) :
  bracket_span raw = Some (i, j) ->
  exists m,
    cleanup raw = lbracket :: m ++ [rbracket]
    /\ contains emphasis (cleanup raw) = false
    /\ apply_rules (literal_rules ++ quote_rules) (cleanup raw) = cleanup raw.
Proof.
  intros H; unfold cleanup; rewrite H.
  destruct (slice_bracketed _ _ _ H) as [m0 ->].
  rewrite clean_sliced_rules.
  set (tail := literal_rules ++ quote_rules).
  assert (Hl : forall s, apply_rules tail (apply_rules marker_rules
                 (lbracket :: s ++ [rbracket]))
               = lbracket :: apply_rules tail (apply_rules marker_rules s)
                   ++ [rbracket]).
  { intros s. change (lbracket :: s ++ [rbracket])
      with ((lbracket :: s) ++ [rbracket]).
    rewrite (apply_rules_app_free [rbracket] marker_rules) by reflexivity.
    rewrite (apply_rules_app_free [rbracket] tail) by reflexivity.
    rewrite (apply_rules_cons_free lbracket marker_rules) by reflexivity.
    now rewrite (apply_rules_cons_free lbracket tail) by reflexivity. }
  exists (apply_rules tail (apply_rules marker_rules m0)).
  rewrite Hl, strip_bracketed, <- Hl. split; [reflexivity|split].
  - apply apply_rules_keeps; [reflexivity|].
    apply remove_double_clears.
  - now apply apply_rules_idempotent.
Qed.

Lemma repair_again_bracketed (m : pystr) (k : nat) :
  let u := lbracket :: m ++ [rbracket] in
  contains fence u = false ->
  contains emphasis u = false ->
  apply_rules (literal_rules ++ quote_rules) u = u ->
  repair (u ++ times rbrace k) = balance_braces u.
Proof.
  intros u Hf He Hu.
  assert (Hspan : bracket_span (u ++ times rbrace k)
                  = Some (0, S (List.length m))).
  { unfold bracket_span, u; cbn [app find].
    change (N.eqb lbracket lbracket) with true; cbv iota.
    rewrite <- app_assoc.
    change (lbracket :: m ++ [rbracket] ++ times rbrace k)
      with ((lbracket :: m) ++ rbracket :: times rbrace k).
    rewrite rfind_last by (apply not_in_times; discriminate).
    reflexivity. }
  assert (Hslice : slice 0 (S (List.length m) + 1) (u ++ times rbrace k) = u).
  { unfold slice; cbn [skipn]. rewrite Nat.sub_0_r, firstn_app.
    assert (Hlen : List.length u = S (List.length m) + 1)
      by (unfold u; cbn [List.length]; rewrite length_app; simpl; lia).
    rewrite <- Hlen, firstn_all, Nat.sub_diag. apply app_nil_r. }
  unfold repair, cleanup; rewrite Hspan, Hslice, clean_sliced_rules.
  rewrite (apply_rules_fixed marker_rules u).
  - rewrite Hu. unfold u at 1; now rewrite strip_bracketed.
  - intros r [<-|[<-|[<-|[]]]]; (split; [discriminate|]); cbn [fst];
      [apply (contains_longer fence (str_of "json")) | |]; assumption.
Qed.

Lemma repair_again_fallback (raw : pystr) :
  bracket_span raw = None -> repair (repair raw) = repair raw.
Proof.
  intros H.
  set (rules := fallback_literal_rules ++ quote_rules).
  assert (Hc : cleanup raw = apply_rules rules raw)
    by (unfold cleanup; rewrite H; apply clean_fallback_rules).
  set (u := apply_rules rules raw) in *.
  unfold repair at 2 3; rewrite Hc.
  rewrite balance_braces_app.
  set (k := count lbrace u - count rbrace u).
  assert (Hspan : bracket_span (u ++ times rbrace k) = None).
  { rewrite <- H; unfold bracket_span.
    rewrite find_app_tail, rfind_app_tail
      by (apply not_in_times; discriminate).
    destruct (position_safe_finds lbracket rules raw eq_refl) as [E1 _].
    destruct (position_safe_finds rbracket rules raw eq_refl) as [_ E2].
    fold u in E1, E2. now rewrite E1, E2. }
  unfold repair, cleanup; rewrite Hspan, clean_fallback_rules.
  fold rules.
  rewrite apply_rules_app_free by (apply free_of_times; reflexivity).
  unfold u at 1; rewrite apply_rules_idempotent by reflexivity. fold u.
  apply balance_braces_balanced.
  rewrite !count_app, count_times_same.
  rewrite count_times_other by discriminate.
  unfold k; lia.
Qed.

(** ** The literal stage as one scan *)

Lemma replace_app_insulated (old new a b : pystr) :
  old <> [] -> insulated a old = true ->
  replace old new (a ++ b) = a ++ replace old new b.
Proof.
  intros Ho; induction a as [|c a IH]; intros Hi; [reflexivity|].
  cbn [insulated] in Hi; apply andb_true_iff in Hi as [Hc Hi].
  simpl app; rewrite replace_miss, IH; auto.
  now apply (clash_startswith _ _ b) in Hc.
Qed.

Lemma apply_rules_through (a : pystr) (rules : list (pystr * pystr))
    (b : pystr) :
  forallb (fun r => nonempty (fst r) && insulated a (fst r)) rules = true ->
  apply_rules rules (a ++ b) = a ++ apply_rules rules b.
Proof.
  revert b; induction rules as [|r rules IH]; intros b H; [reflexivity|].
  cbn [forallb] in H; apply andb_true_iff in H as [Hr H].
  apply andb_true_iff in Hr as [Hn Hi].
  rewrite !apply_rules_cons, replace_app_insulated;
    auto using nonempty_true.
Qed.

Lemma apply_rules_hit (pre rules : list (pystr * pystr)) :
  hits_ok pre rules = true ->
  forall r b, In r rules ->
    apply_rules (pre ++ rules) (fst r ++ b)
    = snd r ++ apply_rules (pre ++ rules) b.
Proof.
  revert pre; induction rules as [|r0 post IH]; intros pre H r b Hin;
    [contradiction|].
  cbn [hits_ok] in H.
  apply andb_true_iff in H as [H Hrec]; apply andb_true_iff in H as [H Hpost].
  apply andb_true_iff in H as [Hn Hpre].
  destruct Hin as [<-|Hin].
  - rewrite !apply_rules_app, !apply_rules_cons.
    rewrite apply_rules_through by exact Hpre.
    rewrite replace_hit by now apply nonempty_true.
    now rewrite apply_rules_through by exact Hpost.
  - specialize (IH (pre ++ [r0]) Hrec r b Hin).
    now rewrite <- app_assoc in IH.
Qed.

Lemma apply_rules_copy (all rules : list (pystr * pystr)) (c : N) (s : pystr) :
  copy_safe all = true -> incl rules all ->
  (forall r, In r rules -> startswith (fst r) (c :: s) = false) ->
  apply_rules rules (c :: s) = c :: apply_rules rules s.
Proof.
  intros Hsafe; revert s; induction rules as [|r rules IH]; intros s Hin Hs;
    [reflexivity|].
  assert (Hr : In r all) by (apply Hin; now left).
  assert (Hne : forall r', In r' all -> fst r' <> []).
  { intros r' Hr'. unfold copy_safe in Hsafe.
    rewrite forallb_forall in Hsafe. specialize (Hsafe r Hr).
    rewrite forallb_forall in Hsafe. specialize (Hsafe r' Hr').
    apply andb_true_iff in Hsafe as [Hn _]. now apply nonempty_true. }
  rewrite !apply_rules_cons, replace_miss;
    [|now apply Hne|apply Hs; now left].
  apply IH; [intros x Hx; apply Hin; now right|].
  intros r' Hr'.
  assert (Hr'all : In r' all) by (apply Hin; now right).
  specialize (Hs r' (or_intror Hr')).
  destruct (fst r') as [|x p'] eqn:E; [elim (Hne r' Hr'all E)|].
  simpl in Hs |- *.
  destruct (N.eqb x c); [|reflexivity]. simpl in Hs |- *.
  destruct (startswith p' (replace (fst r) (snd r) s)) eqn:F; [|reflexivity].
  apply startswith_replace in F; [congruence|now apply Hne|].
  unfold copy_safe in Hsafe.
  rewrite forallb_forall in Hsafe. specialize (Hsafe r Hr).
  rewrite forallb_forall in Hsafe. specialize (Hsafe r' Hr'all).
  apply andb_true_iff in Hsafe as [_ Hh]. now rewrite E in Hh.
Qed.

(** * The claims about the clean-up of the reply *)

(** C5 (brace-balance repair).  The text that reaches the brace stage is
    [cleanup raw_output], and [repair raw_output] is [balance_braces] of it.
    For every text [t]: when [t] has more opening than closing braces, the
    stage appends exactly the missing number of closing braces, after which
    the two counts are equal; when it has not, the stage leaves [t] as it
    is. *)
Theorem brace_balance_repair (t : pystr) :
  (count rbrace t < count lbrace t ->
     balance_braces t = t ++ times rbrace (count lbrace t - count rbrace t)
     /\ count lbrace (balance_braces t) = count rbrace (balance_braces t))
  /\ (count lbrace t <= count rbrace t -> balance_braces t = t).
Proof.
  split.
  - intros H; split; [apply balance_braces_app|].
    destruct (balance_braces_counts t) as [-> ->]; lia.
  - apply balance_braces_balanced.
Qed.

Lemma brace_balance_repair_witness :
  (count rbrace (str_of "[{{a}]") < count lbrace (str_of "[{{a}]")
   /\ balance_braces (str_of "[{{a}]") = str_of "[{{a}]}"
   /\ count lbrace (balance_braces (str_of "[{{a}]"))
      = count rbrace (balance_braces (str_of "[{{a}]")))
  /\ (count lbrace (str_of "[{}}]") <= count rbrace (str_of "[{}}]")
      /\ balance_braces (str_of "[{}}]") = str_of "[{}}]").
Proof.
  split.
  - assert (H : count rbrace (str_of "[{{a}]") < count lbrace (str_of "[{{a}]"))
      by (vm_compute; lia).
    split; [exact H|].
    exact (proj1 (brace_balance_repair (str_of "[{{a}]")) H).
  - assert (H : count lbrace (str_of "[{}}]") <= count rbrace (str_of "[{}}]"))
      by (vm_compute; lia).
    split; [exact H|].
    exact (proj2 (brace_balance_repair (str_of "[{}}]")) H).
Defined.

(** C6 (idempotent repair), as the source has it.  For every reply, valid
    JSON or not, whose repaired text holds no fence marker, repairing the
    repaired text changes nothing.  (Removing an emphasis marker can bring
    backticks together into a fence marker, which only a second pass
    removes.) *)
Theorem repair_idempotent (raw_output : pystr) :
  contains fence (repair raw_output) = false ->
  repair (repair raw_output) = repair raw_output.
Proof.
  intros Hf.
  destruct (bracket_span raw_output) as [[i j]|] eqn:Hspan;
    [|now apply repair_again_fallback].
  destruct (cleanup_bracketed _ _ _ Hspan) as (m & Hc & He & Hu).
  assert (Hr : repair raw_output
               = (lbracket :: m ++ [rbracket])
                   ++ times rbrace (count lbrace (lbracket :: m ++ [rbracket])
                                    - count rbrace (lbracket :: m ++ [rbracket])))
    by (unfold repair; now rewrite balance_braces_app, Hc).
  rewrite Hc in He, Hu.
  rewrite Hr in Hf; apply contains_app_l in Hf.
  pose proof (repair_again_bracketed m
                (count lbrace (lbracket :: m ++ [rbracket])
                 - count rbrace (lbracket :: m ++ [rbracket]))
                Hf He Hu) as Hagain.
  cbv zeta in Hagain; rewrite <- Hr in Hagain; rewrite Hagain.
  unfold repair; now rewrite Hc.
Qed.

Lemma repair_idempotent_witness :
  contains fence (repair (str_of "Plan: [{'a': True, 'b': {'c': None}] end")) = false
  /\ repair (repair (str_of "Plan: [{'a': True, 'b': {'c': None}] end"))
     = repair (str_of "Plan: [{'a': True, 'b': {'c': None}] end").
Proof.
  split; [reflexivity|].
  apply (repair_idempotent (str_of "Plan: [{'a': True, 'b': {'c': None}] end")).
  reflexivity.
Defined.

(** C6, the claim as stated, fails: the text [["`**``"]] is valid JSON,
    one pass turns it into [["```"]] and a second pass into [[""]]. *)
Lemma repair_not_idempotent :
  JsonFragment.loads Inputs.backticks_around_emphasis
    = Some (VList [VStr (str_of "`**``")])
  /\ repair (repair Inputs.backticks_around_emphasis)
     <> repair Inputs.backticks_around_emphasis.
Proof. split; [reflexivity|discriminate]. Qed.

(** C7 (literal normalization), as the source has it.  The literal stage is
    one scan from the left over the exact patterns of [literal_rules]:
    a colon or a comma, one space, then [True], [False] or [None].  Where
    such a pattern begins, the literal is rewritten whatever follows it (no
    word boundary is looked for, and string content is not told apart);
    where none begins, the character is copied.  The fallback branch does
    the same with the three colon patterns of [fallback_literal_rules]. *)
Theorem literal_normalization_scan :
  (forall r b, In r literal_rules ->
     normalize_literals (fst r ++ b) = snd r ++ normalize_literals b)
  /\ (forall c s,
        (forall r, In r literal_rules -> startswith (fst r) (c :: s) = false) ->
        normalize_literals (c :: s) = c :: normalize_literals s)
  /\ normalize_literals [] = []
  /\ (forall r b, In r fallback_literal_rules ->
        normalize_literals_fallback (fst r ++ b)
        = snd r ++ normalize_literals_fallback b)
  /\ (forall c s,
        (forall r, In r fallback_literal_rules ->
                   startswith (fst r) (c :: s) = false) ->
        normalize_literals_fallback (c :: s)
        = c :: normalize_literals_fallback s)
  /\ normalize_literals_fallback [] = [].
Proof.
  repeat split; try reflexivity.
  - intros r b Hr; rewrite !normalize_literals_rules.
    now apply (apply_rules_hit [] literal_rules).
  - intros c s H; rewrite !normalize_literals_rules.
    apply apply_rules_copy with (all := literal_rules);
      [reflexivity|apply incl_refl|exact H].
  - intros r b Hr; rewrite !normalize_literals_fallback_rules.
    now apply (apply_rules_hit [] fallback_literal_rules).
  - intros c s H; rewrite !normalize_literals_fallback_rules.
    apply apply_rules_copy with (all := fallback_literal_rules);
      [reflexivity|apply incl_refl|exact H].
Qed.

Lemma literal_normalization_scan_witness :
  In (str_of ", None", str_of ", null") literal_rules
  /\ normalize_literals (str_of ", None" ++ str_of "theless")
     = str_of ", null" ++ normalize_literals (str_of "theless")
  /\ (forall r, In r literal_rules ->
        startswith (fst r) (str_of ":True") = false)
  /\ normalize_literals (str_of ":True")
     = 58%N :: normalize_literals (str_of "True")
  /\ In (str_of ": True", str_of ": true") fallback_literal_rules
  /\ normalize_literals_fallback (str_of ": True" ++ str_of "r")
     = str_of ": true" ++ normalize_literals_fallback (str_of "r")
  /\ (forall r, In r fallback_literal_rules ->
        startswith (fst r) (str_of ", True") = false)
  /\ normalize_literals_fallback (str_of ", True")
     = 44%N :: normalize_literals_fallback (str_of " True").
Proof.
  destruct literal_normalization_scan as (H1 & H2 & _ & H4 & H5 & _).
  assert (I1 : In (str_of ", None", str_of ", null") literal_rules)
    by (cbv; tauto).
  assert (I2 : In (str_of ": True", str_of ": true") fallback_literal_rules)
    by (cbv; tauto).
  assert (M1 : forall r, In r literal_rules ->
                 startswith (fst r) (str_of ":True") = false).
  { intros r Hr; cbv in Hr.
    repeat (destruct Hr as [<-|Hr]; [reflexivity|]); contradiction. }
  assert (M2 : forall r, In r fallback_literal_rules ->
                 startswith (fst r) (str_of ", True") = false).
  { intros r Hr; cbv in Hr.
    repeat (destruct Hr as [<-|Hr]; [reflexivity|]); contradiction. }
  split; [exact I1|]. split; [exact (H1 _ (str_of "theless") I1)|].
  split; [exact M1|]. split; [exact (H2 58%N (str_of "True") M1)|].
  split; [exact I2|]. split; [exact (H4 _ (str_of "r") I2)|].
  split; [exact M2|]. exact (H5 44%N (str_of " True") M2).
Defined.

(** C7, the claim as stated, fails on [[a: Trueish, b:True]]: the first
    [True] is rewritten although it is part of a longer word, the second is
    not although it stands at a word boundary right after a colon. *)
Lemma literal_normalization_no_word_boundary :
  repair (str_of "[a: Trueish, b:True]") = str_of "[a: trueish, b:True]".
Proof. reflexivity. Qed.

(** * The step executor *)

Lemma str_eqb_eq (a b : pystr) : str_eqb a b = true <-> a = b.
Proof.
  revert b; induction a as [|x a IH]; intros [|y b]; simpl;
    try (split; [discriminate|discriminate]); [tauto|].
  rewrite andb_true_iff, N.eqb_eq, IH.
  split; [intros [-> ->]; reflexivity|intros [= -> ->]; now split].
Qed.

Lemma str_eqb_refl (a : pystr) : str_eqb a a = true.
Proof. now apply str_eqb_eq. Qed.

Lemma str_eqb_neq (a b : pystr) : a <> b -> str_eqb a b = false.
Proof.
  intros H; destruct (str_eqb a b) eqn:E; [|reflexivity].
  apply str_eqb_eq in E; contradiction.
Qed.

(** Induction on a value, with the hypothesis for every item of a sequence
    and every entry of a mapping. *)
Lemma value_nested_ind (P : value -> Prop) :
  P VNone -> (forall b, P (VBool b)) -> (forall z, P (VInt z)) ->
  (forall f, P (VFloat f)) -> (forall s, P (VStr s)) ->
  (forall l, Forall P l -> P (VList l)) ->
  (forall d, Forall (fun kv => P (snd kv)) d -> P (VDict d)) ->
  forall v, P v.
Proof.
  intros HN HB HI HF HS HL HD.
  fix IH 1; intros [ | b | z | f | s | l | d ].
  - exact HN.
  - apply HB.
  - apply HI.
  - apply HF.
  - apply HS.
  - apply HL. induction l as [|v l IHl]; constructor; [apply IH|exact IHl].
  - apply HD. induction d as [|[k v] d IHd]; constructor;
      [apply IH|exact IHd].
Qed.

Section WalkFacts.

Variable str_nontext : value -> pystr.

Local Notation "'walk'" := (replace_prev_output str_nontext).
Local Notation "'filler'" := (str_or_empty str_nontext).

Lemma walk_sentinel (output : value) :
  walk (VStr PREV_OUTPUT) output = VStr (filler output).
Proof. reflexivity. Qed.

Lemma walk_other_text (s : pystr) (output : value) :
  s <> PREV_OUTPUT -> walk (VStr s) output = VStr s.
Proof.
  intros H; cbn [replace_prev_output]. now rewrite str_eqb_neq.
Qed.

Lemma walk_scalar (v output : value) :
  is_container v = false -> v <> VStr PREV_OUTPUT -> walk v output = v.
Proof.
  intros Hc Hv; destruct v; try reflexivity; try discriminate.
  apply walk_other_text; congruence.
Qed.

Lemma entry_at_walk (k : pystr) (d : list (pystr * value)) (output : value) :
  entry_at k (map (fun kv : pystr * value =>
                     let (k', v) := kv in (k', walk v output)) d)
  = option_map (fun v => walk v output) (entry_at k d).
Proof.
  induction d as [|[k' v] d IH]; simpl; [reflexivity|].
  now destruct (str_eqb k' k).
Qed.

(** The walk commutes with taking the value at a position. *)
Lemma get_path_walk (path : list selector) (v output : value) :
  get_path path (walk v output)
  = option_map (fun x => walk x output) (get_path path v).
Proof.
  revert v; induction path as [|[k|i] path IH]; intros v; [reflexivity| |].
  - destruct v; cbn [get_path replace_prev_output option_map];
      try reflexivity.
    + now destruct (str_eqb s PREV_OUTPUT).
    + rewrite entry_at_walk.
      destruct (entry_at k entries); [apply IH|reflexivity].
  - destruct v; cbn [get_path replace_prev_output option_map];
      try reflexivity.
    + now destruct (str_eqb s PREV_OUTPUT).
    + rewrite nth_error_map.
      destruct (nth_error items i); [apply IH|reflexivity].
Qed.

Lemma shape_of_walk (v output : value) : shape_of (walk v output) = shape_of v.
Proof.
  induction v as [ | | | | s | l IH | d IH ] using value_nested_ind;
    try reflexivity.
  - cbn [replace_prev_output]. now destruct (str_eqb s PREV_OUTPUT).
  - cbn [replace_prev_output shape_of]. f_equal.
    rewrite map_map. apply map_ext_Forall. exact IH.
  - cbn [replace_prev_output shape_of]. f_equal.
    rewrite map_map. apply map_ext_Forall.
    eapply Forall_impl; [|exact IH]. now intros [k v]; simpl; intros ->.
Qed.

End WalkFacts.

Section ExecutorFacts.

Variable world : Type.
Variable ollama_chat : pystr -> world -> option pystr * world.
Variable json_loads : pystr -> pystr + value.
Variable module : Type.
Variable import_module : pystr -> world -> (exn + module) * world.
Variable module_run : module -> pystr + (value -> world -> outcome * world).
Variable str_nontext : value -> pystr.
Variable unicode_lower : pystr -> pystr.

Local Notation "'attempt'" := (try_body import_module module_run).
Local Notation "'guarded'" :=
  (try_apprentice import_module module_run unicode_lower).
Local Notation "'step_exec'" :=
  (execute_step import_module module_run str_nontext unicode_lower).
Local Notation "'loop'" :=
  (run_steps import_module module_run str_nontext unicode_lower).
Local Notation "'planner'" := (call_llm ollama_chat json_loads).
Local Notation "'foreman'" :=
  (handle_request ollama_chat json_loads import_module module_run
     str_nontext unicode_lower).

(** *** The calls made by one step *)

(** The body of the [try] calls at most one [run], with the name and the
    payload it was given. *)
Lemma try_body_calls (name : pystr) (payload : value) (st : state world) :
  st_calls (snd (attempt name payload st)) = st_calls st
  \/ st_calls (snd (attempt name payload st))
     = st_calls st ++ [(name, payload)].
Proof.
  unfold try_body.
  destruct (import_module name _) as [[e|m] w]; [now left|].
  destruct (module_run m) as [ae|run]; [now left|].
  cbn [record_call set_world st_world emit].
  destruct (run payload w) as [[v|e] w']; now right.
Qed.

Lemma try_apprentice_calls (name : pystr) (payload : value)
    (st : state world) :
  st_calls (snd (guarded name payload st))
  = st_calls (snd (attempt name payload st)).
Proof.
  unfold try_apprentice.
  destruct (attempt name payload st) as [[v|e] st']; [reflexivity|].
  now destruct e.
Qed.

(** The exceptions that no [except] clause matches. *)
Lemma error_text_none (name : pystr) (e : exn) :
  error_text name e = None <-> exists t, e = SystemExiting t.
Proof.
  split.
  - destruct e; try discriminate. eauto.
  - now intros [t ->].
Qed.

(** What the body of the [try] gives when the import raises, when the module
    has no [run], and when [run] raises. *)
Lemma try_body_import_raises (name : pystr) (payload : value)
    (st : state world) (e : exn) (w : world) :
  import_module name (st_world st) = (inl e, w) ->
  attempt name payload st
  = (Raises e, set_world w (emit (Executing name) st)).
Proof. intros H. unfold try_body. cbn [emit st_world]. now rewrite H. Qed.

Lemma try_body_no_run (name : pystr) (payload : value) (st : state world)
    (m : module) (w : world) (ae : pystr) :
  import_module name (st_world st) = (inr m, w) ->
  module_run m = inl ae ->
  attempt name payload st
  = (Raises (AttributeError ae), set_world w (emit (Executing name) st)).
Proof.
  intros H1 H2. unfold try_body. cbn [emit st_world]. now rewrite H1, H2.
Qed.

Lemma try_body_run_raises (name : pystr) (payload : value)
    (st : state world) (m : module) (w w' : world)
    (run : value -> world -> outcome * world) (e : exn) :
  import_module name (st_world st) = (inr m, w) ->
  module_run m = inr run ->
  run payload w = (Raises e, w') ->
  attempt name payload st
  = (Raises e,
     set_world w' (record_call name payload
                     (set_world w (emit (Executing name) st)))).
Proof.
  intros H1 H2 H3. unfold try_body. cbn [emit st_world]. rewrite H1, H2.
  cbn [record_call set_world st_world]. now rewrite H3.
Qed.

(** The body raises only where one of the three raises. *)
Lemma try_body_raises (name : pystr) (payload : value) (st st' : state world)
    (e : exn) :
  attempt name payload st = (Raises e, st') ->
  (exists w, import_module name (st_world st) = (inl e, w))
  \/ (exists m w ae, import_module name (st_world st) = (inr m, w)
                     /\ module_run m = inl ae /\ e = AttributeError ae)
  \/ (exists m w run w', import_module name (st_world st) = (inr m, w)
                         /\ module_run m = inr run
                         /\ run payload w = (Raises e, w')).
Proof.
  unfold try_body. cbn [emit st_world].
  destruct (import_module name (st_world st)) as [[e0|m] w] eqn:E1.
  - intros [= <- _]. left; eauto.
  - destruct (module_run m) as [ae|run] eqn:E2.
    + intros [= <- _]. right; left. exists m, w, ae. auto.
    + cbn [record_call set_world st_world].
      destruct (run payload w) as [[v|e0] w'] eqn:E3; [discriminate|].
      intros [= <- _]. right; right. exists m, w, run, w'. auto.
Qed.

(** The [try] statement gives back the text of the matching clause and the
    flag [False] when its body raised an [Exception], and is left by the
    exception otherwise. *)
Lemma try_apprentice_caught (name : pystr) (payload : value)
    (st st' : state world) (e : exn) (msg : pystr) :
  attempt name payload st = (Raises e, st') ->
  error_text name e = Some msg ->
  guarded name payload st = (StepReturn (VStr msg) false, report name e st').
Proof. intros H1 H2. unfold try_apprentice. now rewrite H1, H2. Qed.

Lemma try_apprentice_escapes (name : pystr) (payload : value)
    (st st' : state world) (t : pystr) :
  attempt name payload st = (Raises (SystemExiting t), st') ->
  guarded name payload st = (StepUncaught, st').
Proof. intros H. unfold try_apprentice. now rewrite H. Qed.

Lemma try_apprentice_uncaught (name : pystr) (payload : value)
    (st : state world) :
  fst (guarded name payload st) = StepUncaught ->
  exists t st', attempt name payload st = (Raises (SystemExiting t), st').
Proof.
  unfold try_apprentice.
  destruct (attempt name payload st) as [[v|e] st']; [discriminate|].
  destruct e; try discriminate. eauto.
Qed.

(** An exception that leaves a step leaves the loop and [handle_request]. *)
Lemma run_steps_escape (total i : nat) (pre : list value) (step : value)
    (post : list value) (previous_output reached : value)
    (st st1 st2 : state world) :
  loop total i pre previous_output st = (LoopDone reached, st1) ->
  step_exec step reached
      (emit (StartStep (i + List.length pre + 1) total) st1)
    = (StepUncaught, st2) ->
  loop total i (pre ++ step :: post) previous_output st = (LoopUncaught, st2).
Proof.
  revert i previous_output st; induction pre as [|s pre IH];
    intros i previous_output st Hpre Hstep.
  - cbn [app List.length] in *. injection Hpre as <- <-.
    rewrite Nat.add_0_r in Hstep. cbn [run_steps]. now rewrite Hstep.
  - cbn [app run_steps List.length] in *.
    destruct (step_exec s previous_output _) as [[output [|]|] st'];
      try discriminate.
    apply IH; [exact Hpre|].
    now replace (S i + List.length pre) with (i + S (List.length pre)) by lia.
Qed.

(** What a step does: it is left by an exception before the [try], or
    rejected as invalid, or it reaches the [try] statement. *)
Lemma execute_step_cases (step previous_output : value) (st : state world) :
  step_exec step previous_output st = (StepUncaught, st)
  \/ (exists st', step_exec step previous_output st = (StepReturn VNone false, st')
                  /\ st_calls st' = st_calls st /\ st_world st' = st_world st)
  \/ (exists name payload st',
        step_exec step previous_output st = guarded name payload st'
        /\ st_calls st' = st_calls st /\ st_world st' = st_world st).
Proof.
  unfold execute_step. destruct step; auto.
  destruct (truthy (dict_get key_apprentice entries)) eqn:Ht;
    [|right; left; eexists; split; [reflexivity|now split]].
  destruct (dict_get key_apprentice entries) as [ | | | | name | | ]; auto.
  destruct (startswith ns_prefix name);
    destruct (dict_get key_payload entries);
    try (right; left; eexists; split; [reflexivity|now split]);
    right; right; do 3 eexists; (split; [reflexivity|now split]).
Qed.

(** A step makes at most one call, after those made before. *)
Lemma execute_step_calls (step previous_output : value) (st : state world) :
  exists more, st_calls (snd (step_exec step previous_output st))
               = st_calls st ++ more
               /\ List.length more <= 1.
Proof.
  destruct (execute_step_cases step previous_output st)
    as [E|[(st' & E & Hc & _)|(name & payload & st' & E & Hc & _)]];
    rewrite E; cbn [snd].
  - exists []; rewrite app_nil_r; split; [reflexivity|simpl; lia].
  - exists []; rewrite app_nil_r; split; [exact Hc|simpl; lia].
  - rewrite try_apprentice_calls, <- Hc.
    destruct (try_body_calls name payload st') as [->| ->].
    + exists []; rewrite app_nil_r; split; [reflexivity|simpl; lia].
    + exists [(name, payload)]; split; [reflexivity|simpl; lia].
Qed.

(** A step without a payload makes no call and leaves the world as it is. *)
Lemma execute_step_no_payload (d : list (pystr * value))
    (previous_output : value) (st : state world) :
  dict_get key_payload d = VNone ->
  (fst (step_exec (VDict d) previous_output st) = StepReturn VNone false
   \/ fst (step_exec (VDict d) previous_output st) = StepUncaught)
  /\ st_calls (snd (step_exec (VDict d) previous_output st)) = st_calls st
  /\ st_world (snd (step_exec (VDict d) previous_output st)) = st_world st.
Proof.
  intros Hp; unfold execute_step; rewrite Hp.
  destruct (truthy (dict_get key_apprentice d)); [|now auto].
  destruct (dict_get key_apprentice d) as [ | | | | name | | ]; auto.
  destruct (startswith ns_prefix name); auto.
Qed.

(** *** The loop *)

Lemma run_steps_app (total i : nat) (pre rest : list value)
    (previous_output : value) (st : state world) :
  loop total i (pre ++ rest) previous_output st
  = match loop total i pre previous_output st with
    | (LoopDone output, st') =>
        loop total (i + List.length pre) rest output st'
    | other => other
    end.
Proof.
  revert i previous_output st; induction pre as [|step pre IH];
    intros i previous_output st.
  - simpl. now rewrite Nat.add_0_r.
  - cbn [app run_steps List.length].
    destruct (step_exec step previous_output _) as [[output [|]|] st'];
      try reflexivity.
    rewrite IH. now replace (S i + List.length pre)
                      with (i + S (List.length pre)) by lia.
Qed.

(** The [break]: a failed step ends the loop, whatever follows it. *)
Lemma run_steps_break (total i : nat) (step : value) (rest : list value)
    (previous_output output : value) (st st' : state world) :
  step_exec step previous_output (emit (StartStep (i + 1) total) st)
    = (StepReturn output false, st') ->
  loop total i (step :: rest) previous_output st
  = (LoopBroken (i + 1) output, emit (HaltStep (i + 1) output) st').
Proof. intros H; cbn [run_steps]; now rewrite H. Qed.

Lemma run_steps_fail_fast (total i : nat) (pre : list value) (step : value)
    (post : list value) (previous_output reached output : value)
    (st st1 st2 : state world) :
  loop total i pre previous_output st = (LoopDone reached, st1) ->
  step_exec step reached
      (emit (StartStep (i + List.length pre + 1) total) st1)
    = (StepReturn output false, st2) ->
  loop total i (pre ++ step :: post) previous_output st
  = (LoopBroken (i + List.length pre + 1) output,
     emit (HaltStep (i + List.length pre + 1) output) st2).
Proof.
  intros Hpre Hstep. rewrite run_steps_app, Hpre.
  now apply run_steps_break.
Qed.

(** The steps that ran to the end of a plan made at most one call each. *)
Lemma run_steps_calls (total : nat) (steps : list value) :
  forall i previous_output st r st',
    loop total i steps previous_output st = (r, st') ->
    List.length (st_calls st')
    <= List.length (st_calls st) + List.length steps.
Proof.
  induction steps as [|step steps IH]; intros i previous_output st r st' H.
  - injection H as _ <-; simpl; lia.
  - cbn [run_steps] in H.
    destruct (execute_step_calls step previous_output
                (emit (StartStep (i + 1) total) st)) as (more & Hc & Hl).
    destruct (step_exec step previous_output _) as [[output [|]|] st1];
      cbn [snd emit st_calls] in Hc.
    + apply IH in H. rewrite Hc, length_app in H. simpl; lia.
    + injection H as _ <-. cbn [emit st_calls List.length].
      rewrite Hc, length_app; lia.
    + injection H as _ <-. rewrite Hc, length_app. simpl; lia.
Qed.

Lemma handle_request_fail_fast (user_request : pystr) (st : state world)
    (pre : list value) (step : value) (post : list value)
    (reached output : value) (st0 st1 st2 : state world) :
  planner user_request st = (Some (pre ++ step :: post), st0) ->
  loop (List.length (pre ++ step :: post)) 0 pre VNone st0
    = (LoopDone reached, st1) ->
  step_exec step reached
      (emit (StartStep (List.length pre + 1)
               (List.length (pre ++ step :: post))) st1)
    = (StepReturn output false, st2) ->
  foreman user_request st
  = (Failed (List.length pre + 1) output,
     emit TaskFailed (emit (HaltStep (List.length pre + 1) output) st2)).
Proof.
  intros Hplan Hpre Hstep. unfold handle_request; rewrite Hplan.
  destruct (pre ++ step :: post) as [|s0 plan] eqn:E;
    [now destruct pre|].
  rewrite <- E in *.
  now rewrite (run_steps_fail_fast _ 0 pre step post VNone _ _ st0 _ _
                 Hpre Hstep).
Qed.

(** *** The planner *)

Lemma check_items_none (items : list value) :
  check_items items = None ->
  Forall (fun step => well_formed_step step = true) items.
Proof.
  induction items as [|step items IH]; intros H; constructor.
  - destruct step; try discriminate. cbn [check_items] in H.
    cbn [well_formed_step].
    destruct (dict_has key_apprentice entries),
             (dict_has key_payload entries); try discriminate; reflexivity.
  - apply IH. destruct step; try discriminate. cbn [check_items] in H.
    destruct (negb (dict_has key_apprentice entries)
              || negb (dict_has key_payload entries));
      [discriminate|exact H].
Qed.

Lemma check_items_missing (items : list value) (step : value) :
  In step items -> well_formed_step step = false ->
  exists reason, check_items items = Some reason.
Proof.
  induction items as [|s items IH]; intros Hin Hbad; [contradiction|].
  destruct Hin as [->|Hin].
  - destruct step; cbn [check_items]; eauto.
    cbn [well_formed_step] in Hbad.
    destruct (dict_has key_apprentice entries),
             (dict_has key_payload entries); try discriminate; simpl; eauto.
  - destruct s; cbn [check_items]; eauto.
    destruct (negb (dict_has key_apprentice entries)
              || negb (dict_has key_payload entries)); eauto.
Qed.

Lemma validate_plan_accepts (parsed_json : value) (plan : list value) :
  validate_plan parsed_json = inr plan ->
  parsed_json = VList plan
  /\ Forall (fun step => well_formed_step step = true) plan.
Proof.
  unfold validate_plan; destruct parsed_json; try discriminate.
  destruct (check_items items) eqn:E; [discriminate|].
  intros [= <-]; split; [reflexivity|now apply check_items_none].
Qed.

Lemma dict_get_absent (key : pystr) (d : list (pystr * value)) :
  dict_has key d = false -> dict_get key d = VNone.
Proof.
  induction d as [|[k v] d IH]; simpl; [reflexivity|].
  destruct (str_eqb k key); [discriminate|exact IH].
Qed.

(** Planning calls no apprentice. *)
Lemma call_llm_calls (user_request : pystr) (st : state world) :
  st_calls (snd (planner user_request st)) = st_calls st.
Proof.
  unfold call_llm. cbn [emit st_world].
  destruct (ollama_chat user_request (st_world st)) as [[content|] w];
    [|reflexivity].
  destruct (json_loads _) as [reason|parsed].
  - destruct (bracket_span (strip content)), (_ <? _); reflexivity.
  - destruct (validate_plan parsed);
      destruct (bracket_span (strip content)), (_ <? _); reflexivity.
Qed.

(** A plan that the planner gives back passed the structural checks. *)
Lemma call_llm_plan (user_request : pystr) (st st' : state world)
    (plan : list value) :
  planner user_request st = (Some plan, st') ->
  Forall (fun step => well_formed_step step = true) plan.
Proof.
  unfold call_llm.
  destruct (ollama_chat user_request _) as [[content|] w]; [|discriminate].
  destruct (json_loads _) as [reason|parsed]; [discriminate|].
  destruct (validate_plan parsed) as [reason|items] eqn:E; [discriminate|].
  intros [= <- _]. now apply validate_plan_accepts in E.
Qed.

(** When the model replied and no plan comes back, the last lines printed
    hold the raw reply and the repaired text. *)
Lemma call_llm_diagnostics (user_request content : pystr) (w : world)
    (st st' : state world) :
  ollama_chat user_request (st_world st) = (Some content, w) ->
  planner user_request st = (None, st') ->
  exists printed reason,
    st_stdout st'
    = printed ++ [CouldNotParse reason; RawOutput (strip content);
                  AttemptedToParse (repair (strip content))].
Proof.
  unfold call_llm. cbn [emit st_world]. intros ->.
  fold (repair (strip content)).
  destruct (json_loads _) as [reason|parsed].
  - intros [= <-]. unfold plan_error; cbn [emit st_stdout].
    do 2 rewrite <- app_assoc. do 2 eexists; reflexivity.
  - destruct (validate_plan parsed) as [reason|]; [|discriminate].
    intros [= <-]. unfold plan_error; cbn [emit st_stdout].
    do 2 rewrite <- app_assoc. do 2 eexists; reflexivity.
Qed.

End ExecutorFacts.

(** *** Markers *)

(** No text begins with a success marker and with a failure marker. *)
Lemma success_excludes_failure (t : pystr) :
  startswith_any [success_marker; check_mark; saved_marker] t = true ->
  startswith_any [error_marker; cross_mark] t = false.
Proof.
  destruct t as [|c t]; [discriminate|].
  unfold startswith_any, success_marker, check_mark, saved_marker,
    error_marker, cross_mark.
  cbn [existsb startswith].
  destruct (N.eqb_spec 115 c) as [<-|_]; [reflexivity|].
  destruct (N.eqb_spec 9989 c) as [<-|_]; [reflexivity|].
  destruct (N.eqb_spec 45 c) as [<-|_]; [reflexivity|].
  discriminate.
Qed.

Lemma longer_than_sentinel (a b : pystr) :
  a ++ b <> [] -> a ++ PREV_OUTPUT ++ b <> PREV_OUTPUT.
Proof.
  intros H E. apply (f_equal (@List.length N)) in E.
  rewrite !length_app in E.
  assert (List.length (a ++ b) <> 0)
    by (destruct (a ++ b); [contradiction|discriminate]).
  rewrite length_app in *. lia.
Qed.

(** * The claims about the step executor and the planner *)

Section Claims.

Variable world : Type.
Variable ollama_chat : pystr -> world -> option pystr * world.
Variable json_loads : pystr -> pystr + value.
Variable module : Type.
Variable import_module : pystr -> world -> (exn + module) * world.
Variable module_run : module -> pystr + (value -> world -> outcome * world).
Variable str_nontext : value -> pystr.
Variable unicode_lower : pystr -> pystr.

Local Notation "'walk'" := (replace_prev_output str_nontext).
Local Notation "'attempt'" := (try_body import_module module_run).
Local Notation "'guarded'" :=
  (try_apprentice import_module module_run unicode_lower).
Local Notation "'step_exec'" :=
  (execute_step import_module module_run str_nontext unicode_lower).
Local Notation "'loop'" :=
  (run_steps import_module module_run str_nontext unicode_lower).
Local Notation "'planner'" := (call_llm ollama_chat json_loads).
Local Notation "'foreman'" :=
  (handle_request ollama_chat json_loads import_module module_run
     str_nontext unicode_lower).

(** C1 (fail-fast halting).  Take any plan [pre ++ step :: post] given back
    by the planner.  If the steps of [pre] ran to their end and [step], the
    step of 1-based index [length pre + 1], came back with the flag
    [False], then [handle_request] ends as [Failed] at that index with the
    output of that step: the last two lines printed are the halt line, with
    the index and the output, and the failure line; the calls made and the
    world are those left by [step], so no step of [post] is invoked; and at
    most [length pre + 1] calls were made in all. *)
Theorem fail_fast_halting (user_request : pystr) (st : state world)
    (pre : list value) (step : value) (post : list value)
    (reached output : value) (st0 st1 st2 : state world) :
  planner user_request st = (Some (pre ++ step :: post), st0) ->
  loop (List.length (pre ++ step :: post)) 0 pre VNone st0
    = (LoopDone reached, st1) ->
  step_exec step reached
      (emit (StartStep (List.length pre + 1)
               (List.length (pre ++ step :: post))) st1)
    = (StepReturn output false, st2) ->
  fst (foreman user_request st) = Failed (List.length pre + 1) output
  /\ st_stdout (snd (foreman user_request st))
     = st_stdout st2 ++ [HaltStep (List.length pre + 1) output; TaskFailed]
  /\ st_calls (snd (foreman user_request st)) = st_calls st2
  /\ st_world (snd (foreman user_request st)) = st_world st2
  /\ List.length (st_calls (snd (foreman user_request st)))
     <= List.length (st_calls st) + List.length pre + 1.
Proof.
  intros Hplan Hpre Hstep.
  rewrite (handle_request_fail_fast _ _ _ _ _ _ _ _ _ _ _ _ _ _ _ _ _ _
             Hplan Hpre Hstep).
  cbn [fst snd emit st_stdout st_calls st_world].
  repeat split; [now rewrite <- app_assoc|].
  pose proof (call_llm_calls _ ollama_chat json_loads user_request st) as Hc.
  rewrite Hplan in Hc; cbn [snd] in Hc.
  apply run_steps_calls in Hpre.
  destruct (execute_step_calls _ _ import_module module_run str_nontext
              unicode_lower step reached
              (emit (StartStep (List.length pre + 1)
                       (List.length (pre ++ step :: post))) st1))
    as (more & Hm & Hl).
  rewrite Hstep in Hm; cbn [snd emit st_calls] in Hm.
  rewrite Hm, length_app, <- Hc. lia.
Qed.

(** C2 (payload substitution).  The walk gives back a value of the same
    shape: same nesting, same keys in the same order, same lengths.  At
    every position, at any depth, where the payload holds the text
    ["$PREV_OUTPUT"], the result holds [str(previous output)], or the empty
    text when the previous output is [None] (as it is at the first step,
    where the loop starts from [None]); where the payload holds any other
    scalar, the result holds the same scalar; and the result has no
    position that the payload has not. *)
Theorem payload_substitution (payload previous_output : value) :
  shape_of (walk payload previous_output) = shape_of payload
  /\ (forall path,
        get_path path payload = Some (VStr PREV_OUTPUT) ->
        get_path path (walk payload previous_output)
        = Some (VStr (str_or_empty str_nontext previous_output)))
  /\ (forall path v,
        get_path path payload = Some v ->
        is_container v = false -> v <> VStr PREV_OUTPUT ->
        get_path path (walk payload previous_output) = Some v)
  /\ (forall path,
        get_path path payload = None ->
        get_path path (walk payload previous_output) = None)
  /\ str_or_empty str_nontext VNone = []
  /\ (previous_output <> VNone ->
      str_or_empty str_nontext previous_output
      = py_str str_nontext previous_output).
Proof.
  split; [apply shape_of_walk|].
  split; [intros path H; now rewrite get_path_walk, H|].
  split; [intros path v H Hc Hv; rewrite get_path_walk, H; simpl;
          now rewrite walk_scalar|].
  split; [intros path H; now rewrite get_path_walk, H|].
  split; [reflexivity|].
  intros H; destruct previous_output; [contradiction|reflexivity..].
Qed.

(** C10 (exact match only).  A text that holds the sentinel with something
    before or after it is not the sentinel: at whatever position of the
    payload it stands, the walk leaves it as it is, and the step gives the
    walked payload, with that text in it, to the [try] statement, whose
    call of [run], if it makes one, has that payload. *)
Theorem sentinel_exact_match_only (payload previous_output : value)
    (path : list selector) (a b : pystr) :
  a ++ b <> [] ->
  get_path path payload = Some (VStr (a ++ PREV_OUTPUT ++ b)) ->
  get_path path (walk payload previous_output)
  = Some (VStr (a ++ PREV_OUTPUT ++ b))
  /\ forall d name st,
       dict_get key_apprentice d = VStr name -> name <> [] ->
       dict_get key_payload d = payload ->
       exists name' st',
         step_exec (VDict d) previous_output st
         = guarded name' (walk payload previous_output) st'
         /\ (st_calls (snd (step_exec (VDict d) previous_output st))
             = st_calls st
             \/ st_calls (snd (step_exec (VDict d) previous_output st))
                = st_calls st ++ [(name', walk payload previous_output)]).
Proof.
  intros Hab Hpath. split.
  - rewrite get_path_walk, Hpath; simpl.
    rewrite str_eqb_neq; [reflexivity|now apply longer_than_sentinel].
  - intros d name st Hname Hne Hpay.
    assert (Hsome : payload <> VNone).
    { intros ->. destruct path as [|[k|i] path]; discriminate. }
    unfold execute_step. rewrite Hname, Hpay.
    assert (Ht : truthy (VStr name) = true)
      by (destruct name; [contradiction|reflexivity]).
    rewrite Ht.
    destruct (startswith ns_prefix name).
    + exists name, st. split; [now destruct payload|].
      replace (match payload with VNone => _ | _ => _ end)
        with (guarded name (walk payload previous_output) st)
        by now destruct payload.
      rewrite try_apprentice_calls. apply try_body_calls.
    + exists (ns_prefix ++ name), (emit (ShortName name) st).
      split; [now destruct payload|].
      replace (match payload with VNone => _ | _ => _ end)
        with (guarded (ns_prefix ++ name) (walk payload previous_output)
                (emit (ShortName name) st))
        by now destruct payload.
      rewrite try_apprentice_calls.
      exact (try_body_calls _ _ import_module module_run
               (ns_prefix ++ name) (walk payload previous_output)
               (emit (ShortName name) st)).
Qed.

Local Notation "'flag'" := (classify unicode_lower).
Local Notation "'lowered'" := (lower unicode_lower).

(** C3 (result classification).  What [run] returned is classified as
    failed exactly when it is text whose stripped, lower-cased form begins
    with ["error:"] or with the cross mark.  Text that begins with a
    success marker, a value that is not text, and text that begins with no
    failure marker are classified as succeeded.  The pair that the [try]
    statement gives back for a returned value holds that value and this
    flag. *)
Theorem result_classification (output : value) :
  (flag output = false <->
     exists s, output = VStr s
               /\ (startswith error_marker (lowered (strip s)) = true
                   \/ startswith cross_mark (lowered (strip s)) = true))
  /\ (forall s, output = VStr s ->
        startswith_any [success_marker; check_mark; saved_marker]
          (lowered (strip s)) = true ->
        flag output = true)
  /\ ((forall s, output <> VStr s) -> flag output = true)
  /\ (forall s, output = VStr s ->
        startswith error_marker (lowered (strip s)) = false ->
        startswith cross_mark (lowered (strip s)) = false ->
        flag output = true)
  /\ (forall name payload st st',
        attempt name payload st = (Returns output, st') ->
        guarded name payload st = (StepReturn output (flag output), st')).
Proof.
  split; [|split; [|split; [|split]]].
  - split.
    + destruct output; try discriminate. cbn [classify].
      unfold startswith_any at 1; cbn [existsb].
      destruct (startswith error_marker _) eqn:E1; [eauto|].
      destruct (startswith cross_mark _) eqn:E2; [eauto|].
      cbn [orb].
      destruct (startswith_any [success_marker; check_mark; saved_marker]
                  (lowered (strip s))); discriminate.
    + intros (s & -> & H). cbn [classify].
      unfold startswith_any at 1; cbn [existsb].
      destruct H as [-> | ->]; [reflexivity|].
      now rewrite orb_true_r.
  - intros s -> H. cbn [classify].
    now rewrite (success_excludes_failure _ H), H.
  - intros H. destruct output; try reflexivity. now elim (H s).
  - intros s -> H1 H2. cbn [classify].
    unfold startswith_any at 1; cbn [existsb]. rewrite H1, H2. cbn [orb].
    now destruct (startswith_any [success_marker; check_mark; saved_marker]
                    (lowered (strip s))).
  - intros name payload st st' H. unfold try_apprentice. now rewrite H.
Qed.

(** C4 (exception containment), as the source has it.  Take a step that
    reaches the [try] statement with the module name [name] and the payload
    [payload].  When the import of the module, the look-up of [run] or [run]
    itself raises an exception that is an instance of [Exception], the
    statement gives back the error text of the matching [except] clause and
    the flag [False]; a module without [run] is such a case.  The statement
    is left by an exception exactly when the import or [run] raises one that
    is no instance of [Exception], the only ones that no clause matches.
    When the step was reached after the steps of [pre] ran to their end, in
    the first case [handle_request] ends as [Failed] at the 1-based index of
    the step with that error text, the halt line and the failure line
    printed last; in the second the exception leaves [handle_request] as
    well, with nothing more printed. *)
Theorem exception_containment (name : pystr) (payload : value)
    (st : state world) :
  (forall e w msg,
     import_module name (st_world st) = (inl e, w) ->
     error_text name e = Some msg ->
     guarded name payload st
     = (StepReturn (VStr msg) false,
        report name e (set_world w (emit (Executing name) st))))
  /\ (forall m w ae,
        import_module name (st_world st) = (inr m, w) ->
        module_run m = inl ae ->
        guarded name payload st
        = (StepReturn (VStr (msg_attribute name ae)) false,
           emit (Traceback (AttributeError ae))
             (set_world w (emit (Executing name) st))))
  /\ (forall m w run e w' msg,
        import_module name (st_world st) = (inr m, w) ->
        module_run m = inr run ->
        run payload w = (Raises e, w') ->
        error_text name e = Some msg ->
        guarded name payload st
        = (StepReturn (VStr msg) false,
           report name e
             (set_world w' (record_call name payload
                              (set_world w (emit (Executing name) st))))))
  /\ (fst (guarded name payload st) = StepUncaught <->
        (exists t w,
           import_module name (st_world st) = (inl (SystemExiting t), w))
        \/ (exists m w run t w',
              import_module name (st_world st) = (inr m, w)
              /\ module_run m = inr run
              /\ run payload w = (Raises (SystemExiting t), w')))
  /\ (forall e, error_text name e = None <-> exists t, e = SystemExiting t)
  /\ (forall user_request st_asked pre step post reached st0 st1,
        planner user_request st_asked = (Some (pre ++ step :: post), st0) ->
        loop (List.length (pre ++ step :: post)) 0 pre VNone st0
          = (LoopDone reached, st1) ->
        step_exec step reached
            (emit (StartStep (List.length pre + 1)
                     (List.length (pre ++ step :: post))) st1)
          = guarded name payload st ->
        (forall e msg,
           error_text name e = Some msg ->
           (exists w, import_module name (st_world st) = (inl e, w))
           \/ (exists m w ae,
                 import_module name (st_world st) = (inr m, w)
                 /\ module_run m = inl ae /\ e = AttributeError ae)
           \/ (exists m w run w',
                 import_module name (st_world st) = (inr m, w)
                 /\ module_run m = inr run
                 /\ run payload w = (Raises e, w')) ->
           fst (foreman user_request st_asked)
           = Failed (List.length pre + 1) (VStr msg)
           /\ st_stdout (snd (foreman user_request st_asked))
              = st_stdout (snd (guarded name payload st))
                  ++ [HaltStep (List.length pre + 1) (VStr msg); TaskFailed]
           /\ st_calls (snd (foreman user_request st_asked))
              = st_calls (snd (guarded name payload st)))
        /\ ((exists t w,
               import_module name (st_world st) = (inl (SystemExiting t), w))
            \/ (exists m w run t w',
                  import_module name (st_world st) = (inr m, w)
                  /\ module_run m = inr run
                  /\ run payload w = (Raises (SystemExiting t), w')) ->
            foreman user_request st_asked
            = (Uncaught, snd (guarded name payload st)))).
Proof.
  assert (Hescape :
    (exists t w,
       import_module name (st_world st) = (inl (SystemExiting t), w))
    \/ (exists m w run t w',
          import_module name (st_world st) = (inr m, w)
          /\ module_run m = inr run
          /\ run payload w = (Raises (SystemExiting t), w')) ->
    exists st', guarded name payload st = (StepUncaught, st')).
  { intros [(t & w & H)|(m & w & run & t & w' & H1 & H2 & H3)]; eexists.
    - eapply try_apprentice_escapes, try_body_import_raises, H.
    - eapply try_apprentice_escapes, try_body_run_raises; eassumption. }
  split; [|split; [|split; [|split; [|split]]]].
  - intros e w msg H Hmsg.
    exact (try_apprentice_caught _ _ _ _ _ _ _ _ _ _ _
             (try_body_import_raises _ _ _ _ _ _ _ _ _ H) Hmsg).
  - intros m w ae H1 H2.
    exact (try_apprentice_caught _ _ _ _ _ _ _ _ _ _ _
             (try_body_no_run _ _ _ _ _ _ _ _ _ _ H1 H2) eq_refl).
  - intros m w run e w' msg H1 H2 H3 Hmsg.
    exact (try_apprentice_caught _ _ _ _ _ _ _ _ _ _ _
             (try_body_run_raises _ _ _ _ _ _ _ _ _ _ _ _ H1 H2 H3) Hmsg).
  - split.
    + intros H.
      destruct (try_apprentice_uncaught _ _ _ _ _ _ _ _ H) as (t & st' & Hb).
      destruct (try_body_raises _ _ _ _ _ _ _ _ _ Hb)
        as [(w & Hi)|[(m & w & ae & _ & _ & He)|(m & w & run & w' & Hr)]].
      * left; eauto.
      * discriminate.
      * right. exists m, w, run, t, w'. exact Hr.
    + intros H. destruct (Hescape H) as [st' ->]. reflexivity.
  - intros e. apply error_text_none.
  - intros user_request st_asked pre step post reached st0 st1
      Hplan Hpre Hstep.
    split.
    + intros e msg Hmsg Hraised.
      assert (Hg : exists st', guarded name payload st
                               = (StepReturn (VStr msg) false, st')).
      { destruct Hraised
          as [(w & Hi)|[(m & w & ae & H1 & H2 & ->)
                       |(m & w & run & w' & H1 & H2 & H3)]]; eexists.
        - exact (try_apprentice_caught _ _ _ _ _ _ _ _ _ _ _
                   (try_body_import_raises _ _ _ _ _ _ _ _ _ Hi) Hmsg).
        - exact (try_apprentice_caught _ _ _ _ _ _ _ _ _ _ _
                   (try_body_no_run _ _ _ _ _ _ _ _ _ _ H1 H2) Hmsg).
        - exact (try_apprentice_caught _ _ _ _ _ _ _ _ _ _ _
                   (try_body_run_raises _ _ _ _ _ _ _ _ _ _ _ _ H1 H2 H3)
                   Hmsg). }
      destruct Hg as [st' Hg]. rewrite Hg in Hstep |- *.
      rewrite (handle_request_fail_fast _ _ _ _ _ _ _ _ _ _ _ _ _ _ _ _ _ _
                 Hplan Hpre Hstep).
      cbn [fst snd emit st_stdout st_calls].
      repeat split. now rewrite <- app_assoc.
    + intros H. destruct (Hescape H) as [st' Hg].
      rewrite Hg in Hstep |- *. cbn [snd].
      unfold handle_request; rewrite Hplan.
      destruct (pre ++ step :: post) as [|s0 plan] eqn:E;
        [now destruct pre|].
      rewrite <- E in *.
      now rewrite (run_steps_escape _ _ _ _ _ _ _ 0 pre step post VNone _ _ _ _
                     Hpre Hstep).
Qed.

(** C8 (step payload), as the source has it.  The structural checks accept
    a parsed reply only if it is a sequence of mappings that each have both
    keys, and reject it when a step lacks the payload key; they do not
    look at the value under the key, so a [null] payload passes them.  A
    step whose payload is [None], absent or [null], never reaches the [try]
    statement: no call is made and the world is untouched.  When its tool
    name is falsy or a text, the guard of [execute_step] rejects it: the
    step gives back [(None, False)], and the last line printed is the one
    for an invalid step.  When its tool name is truthy and not a text, the
    look for the namespace prefix raises before the guard, and the step is
    left by that exception with nothing printed. *)
Theorem payload_presence :
  (forall parsed_json plan,
     validate_plan parsed_json = inr plan ->
     parsed_json = VList plan
     /\ Forall (fun step => well_formed_step step = true) plan)
  /\ (forall items d,
        In (VDict d) items -> dict_has key_payload d = false ->
        exists reason, validate_plan (VList items) = inl reason)
  /\ (forall d previous_output st,
        dict_has key_payload d = false
        \/ dict_get key_payload d = VNone ->
        (truthy (dict_get key_apprentice d) = false
         \/ (exists name, dict_get key_apprentice d = VStr name) ->
         fst (step_exec (VDict d) previous_output st) = StepReturn VNone false
         /\ exists printed step,
              st_stdout (snd (step_exec (VDict d) previous_output st))
              = printed ++ [InvalidStep step])
        /\ (truthy (dict_get key_apprentice d) = true ->
            (forall name, dict_get key_apprentice d <> VStr name) ->
            step_exec (VDict d) previous_output st = (StepUncaught, st))
        /\ st_calls (snd (step_exec (VDict d) previous_output st))
           = st_calls st
        /\ st_world (snd (step_exec (VDict d) previous_output st))
           = st_world st).
Proof.
  split; [apply validate_plan_accepts|split].
  - intros items d Hin Hd.
    destruct (check_items_missing items (VDict d) Hin) as [reason Hr].
    + cbn [well_formed_step]. rewrite Hd. apply andb_false_r.
    + exists reason. unfold validate_plan. now rewrite Hr.
  - intros d previous_output st H.
    assert (Hp : dict_get key_payload d = VNone)
      by (destruct H as [H|H]; [now apply dict_get_absent|exact H]).
    split; [|split].
    + intros Hname. unfold execute_step. rewrite Hp.
      destruct (truthy (dict_get key_apprentice d)) eqn:Ht.
      * destruct Hname as [Hf|[name Hn]]; [discriminate|]. rewrite Hn.
        destruct (startswith ns_prefix name); cbn [fst snd emit st_stdout];
          (split; [reflexivity|eauto]).
      * cbn [fst snd emit st_stdout]. split; [reflexivity|eauto].
    + intros Ht Hn. unfold execute_step. rewrite Ht.
      destruct (dict_get key_apprentice d); try reflexivity.
      now elim (Hn s).
    + apply (execute_step_no_payload _ _ import_module module_run str_nontext
               unicode_lower d previous_output st Hp).
Qed.

(** C9 (plan or halt), as the source has it.  Planning calls no apprentice.
    A plan that comes back passed the structural checks, and may be empty.
    When no plan or an empty plan comes back, [handle_request] halts with
    the no-plan line and no step is executed; otherwise it runs the loop
    over the plan.  When the model replied and no plan comes back, the last
    three lines printed by the planner are the reason, the raw reply and
    the repaired text. *)
Theorem plan_or_halt (user_request : pystr) (st : state world) :
  st_calls (snd (planner user_request st)) = st_calls st
  /\ (forall plan, fst (planner user_request st) = Some plan ->
        Forall (fun step => well_formed_step step = true) plan)
  /\ (fst (planner user_request st) = None
      \/ fst (planner user_request st) = Some [] ->
      foreman user_request st
      = (NoPlan, emit HaltNoPlan (snd (planner user_request st)))
      /\ st_calls (snd (foreman user_request st)) = st_calls st)
  /\ (forall step rest,
        fst (planner user_request st) = Some (step :: rest) ->
        fst (foreman user_request st) <> NoPlan
        /\ foreman user_request st
           = match loop (S (List.length rest)) 0 (step :: rest) VNone
                     (snd (planner user_request st)) with
             | (LoopDone _, st') => (Completed, emit TaskCompleted st')
             | (LoopBroken i output, st') =>
                 (Failed i output, emit TaskFailed st')
             | (LoopUncaught, st') => (Uncaught, st')
             end)
  /\ (forall content w,
        ollama_chat user_request (st_world st) = (Some content, w) ->
        fst (planner user_request st) = None ->
        exists printed reason,
          st_stdout (snd (planner user_request st))
          = printed ++ [CouldNotParse reason; RawOutput (strip content);
                        AttemptedToParse (repair (strip content))]).
Proof.
  pose proof (call_llm_calls _ ollama_chat json_loads user_request st) as Hc.
  split; [exact Hc|].
  split.
  { intros plan H.
    destruct (planner user_request st) as [p st'] eqn:E; cbn [fst] in H.
    subst p. exact (call_llm_plan _ _ _ _ _ _ _ E). }
  split.
  { intros H. unfold handle_request.
    destruct (planner user_request st) as [p st'] eqn:E;
      cbn [fst snd] in *.
    destruct H as [-> | ->]; (split; [reflexivity|exact Hc]). }
  split.
  { intros step rest H. unfold handle_request.
    destruct (planner user_request st) as [p st'] eqn:E;
      cbn [fst snd] in *.
    subst p. cbn [List.length].
    destruct (loop _ _ _ _ _) as [[?|? ?|] ?]; split;
      try reflexivity; discriminate. }
  intros content w Hchat H.
  destruct (planner user_request st) as [p st'] eqn:E; cbn [fst snd] in *.
  subst p. exact (call_llm_diagnostics _ _ _ _ _ _ _ _ Hchat E).
Qed.

End Claims.

(** * The claims on concrete inputs *)

Lemma fail_fast_halting_witness :
  Demo.call_llm (Some Demo.three_step_reply) (str_of "go") Demo.initial
    = (Some ([Demo.step_lister] ++ Demo.step_failing :: [Demo.step_writer]),
       Demo.planned)
  /\ Demo.run_steps 3 0 [Demo.step_lister] VNone Demo.planned
     = (LoopDone Demo.listing, Demo.after_first)
  /\ Demo.execute_step Demo.step_failing Demo.listing
       (emit (StartStep 2 3) Demo.after_first)
     = (StepReturn (VStr (str_of "Error: boom")) false, Demo.after_second)
  /\ fst (Demo.handle_request (Some Demo.three_step_reply) (str_of "go")
            Demo.initial)
     = Failed 2 (VStr (str_of "Error: boom"))
  /\ st_calls (snd (Demo.handle_request (Some Demo.three_step_reply)
                      (str_of "go") Demo.initial))
     = [(ns_prefix ++ str_of "lister", VDict []);
        (ns_prefix ++ str_of "failing",
         VDict [(str_of "names", VStr (str_of "<value>"))])].
Proof.
  assert (H1 : Demo.call_llm (Some Demo.three_step_reply) (str_of "go")
                 Demo.initial
               = (Some ([Demo.step_lister] ++ Demo.step_failing
                          :: [Demo.step_writer]), Demo.planned))
    by (vm_compute; reflexivity).
  assert (H2 : Demo.run_steps 3 0 [Demo.step_lister] VNone Demo.planned
               = (LoopDone Demo.listing, Demo.after_first))
    by (vm_compute; reflexivity).
  assert (H3 : Demo.execute_step Demo.step_failing Demo.listing
                 (emit (StartStep 2 3) Demo.after_first)
               = (StepReturn (VStr (str_of "Error: boom")) false,
                  Demo.after_second))
    by (vm_compute; reflexivity).
  destruct (fail_fast_halting _ (Demo.chat (Some Demo.three_step_reply))
              Demo.json_loads _ Demo.import_module Demo.module_run
              Demo.str_nontext Demo.unicode_lower (str_of "go") Demo.initial
              [Demo.step_lister] Demo.step_failing [Demo.step_writer]
              Demo.listing (VStr (str_of "Error: boom"))
              Demo.planned Demo.after_first Demo.after_second H1 H2 H3)
    as (C1 & _ & C3 & _).
  split; [exact H1|]. split; [exact H2|]. split; [exact H3|].
  split; [exact C1|]. exact C3.
Defined.

Lemma payload_substitution_witness :
  get_path [Key (str_of "a"); Index 1; Key (str_of "b")] Demo.nested_payload
    = Some (VStr PREV_OUTPUT)
  /\ get_path [Key (str_of "a"); Index 1; Key (str_of "b")]
       (replace_prev_output Demo.str_nontext Demo.nested_payload
          (VStr (str_of "X")))
     = Some (VStr (str_of "X"))
  /\ get_path [Key (str_of "n")] Demo.nested_payload = Some (VInt 1)
  /\ is_container (VInt 1) = false
  /\ VInt 1 <> VStr PREV_OUTPUT
  /\ get_path [Key (str_of "n")]
       (replace_prev_output Demo.str_nontext Demo.nested_payload
          (VStr (str_of "X")))
     = Some (VInt 1)
  /\ get_path [Key (str_of "z")] Demo.nested_payload = None
  /\ get_path [Key (str_of "z")]
       (replace_prev_output Demo.str_nontext Demo.nested_payload
          (VStr (str_of "X")))
     = None
  /\ get_path [Key (str_of "a"); Index 0]
       (replace_prev_output Demo.str_nontext Demo.nested_payload VNone)
     = Some (VStr []).
Proof.
  destruct (payload_substitution Demo.str_nontext Demo.nested_payload
              (VStr (str_of "X"))) as (_ & H2 & H3 & H4 & _).
  destruct (payload_substitution Demo.str_nontext Demo.nested_payload VNone)
    as (_ & H2' & _).
  assert (P1 : get_path [Key (str_of "a"); Index 1; Key (str_of "b")]
                 Demo.nested_payload = Some (VStr PREV_OUTPUT))
    by reflexivity.
  assert (P2 : get_path [Key (str_of "n")] Demo.nested_payload
               = Some (VInt 1)) by reflexivity.
  assert (P3 : VInt 1 <> VStr PREV_OUTPUT) by discriminate.
  assert (P4 : get_path [Key (str_of "z")] Demo.nested_payload = None)
    by reflexivity.
  assert (P5 : get_path [Key (str_of "a"); Index 0] Demo.nested_payload
               = Some (VStr PREV_OUTPUT)) by reflexivity.
  split; [exact P1|]. split; [exact (H2 _ P1)|]. split; [exact P2|].
  split; [reflexivity|]. split; [exact P3|].
  split; [exact (H3 _ _ P2 eq_refl P3)|]. split; [exact P4|].
  split; [exact (H4 _ P4)|]. exact (H2' _ P5).
Defined.

Lemma sentinel_exact_match_only_witness :
  str_of "result: " ++ [] <> []
  /\ get_path [Key (str_of "text")] Demo.labelled_payload
     = Some (VStr (str_of "result: " ++ PREV_OUTPUT ++ []))
  /\ get_path [Key (str_of "text")]
       (replace_prev_output Demo.str_nontext Demo.labelled_payload
          (VStr (str_of "X")))
     = Some (VStr (str_of "result: $PREV_OUTPUT"))
  /\ st_calls (snd (Demo.execute_step (VDict Demo.entries_labelled)
                      (VStr (str_of "X")) Demo.initial))
     = [(ns_prefix ++ str_of "file_writer", Demo.labelled_payload)].
Proof.
  assert (H1 : str_of "result: " ++ [] <> []) by discriminate.
  assert (H2 : get_path [Key (str_of "text")] Demo.labelled_payload
               = Some (VStr (str_of "result: " ++ PREV_OUTPUT ++ [])))
    by reflexivity.
  destruct (sentinel_exact_match_only _ _ Demo.import_module Demo.module_run
              Demo.str_nontext Demo.unicode_lower Demo.labelled_payload
              (VStr (str_of "X")) [Key (str_of "text")]
              (str_of "result: ") [] H1 H2) as (C1 & _).
  split; [exact H1|]. split; [exact H2|]. split; [exact C1|].
  vm_compute; reflexivity.
Defined.

Lemma result_classification_witness :
  (exists s, VStr (str_of "  ERROR: disk full") = VStr s
             /\ (startswith error_marker
                   (lower Demo.unicode_lower (strip s)) = true
                 \/ startswith cross_mark
                      (lower Demo.unicode_lower (strip s)) = true))
  /\ classify Demo.unicode_lower (VStr (str_of "  ERROR: disk full")) = false
  /\ (forall s, Demo.listing <> VStr s)
  /\ classify Demo.unicode_lower Demo.listing = true
  /\ startswith_any [success_marker; check_mark; saved_marker]
       (lower Demo.unicode_lower (strip (str_of "Success: written"))) = true
  /\ classify Demo.unicode_lower (VStr (str_of "Success: written")) = true
  /\ startswith error_marker
       (lower Demo.unicode_lower (strip (str_of "/tmp/error: log"))) = false
  /\ startswith cross_mark
       (lower Demo.unicode_lower (strip (str_of "/tmp/error: log"))) = false
  /\ classify Demo.unicode_lower (VStr (str_of "/tmp/error: log")) = true.
Proof.
  assert (E : exists s, VStr (str_of "  ERROR: disk full") = VStr s
                /\ (startswith error_marker
                      (lower Demo.unicode_lower (strip s)) = true
                    \/ startswith cross_mark
                         (lower Demo.unicode_lower (strip s)) = true))
    by (eexists; split; [reflexivity|left; reflexivity]).
  assert (L : forall s, Demo.listing <> VStr s) by discriminate.
  assert (S1 : startswith_any [success_marker; check_mark; saved_marker]
                 (lower Demo.unicode_lower
                    (strip (str_of "Success: written"))) = true)
    by reflexivity.
  assert (N1 : startswith error_marker
                 (lower Demo.unicode_lower
                    (strip (str_of "/tmp/error: log"))) = false)
    by reflexivity.
  assert (N2 : startswith cross_mark
                 (lower Demo.unicode_lower
                    (strip (str_of "/tmp/error: log"))) = false)
    by reflexivity.
  split; [exact E|].
  split; [exact (proj2 (proj1 (result_classification Demo.world Demo.demo_module
                   Demo.import_module Demo.module_run Demo.unicode_lower
                   (VStr (str_of "  ERROR: disk full")))) E)|].
  split; [exact L|].
  split; [exact (proj1 (proj2 (proj2 (result_classification Demo.world
                   Demo.demo_module Demo.import_module Demo.module_run
                   Demo.unicode_lower Demo.listing))) L)|].
  split; [exact S1|].
  split; [exact (proj1 (proj2 (result_classification Demo.world
                   Demo.demo_module Demo.import_module Demo.module_run
                   Demo.unicode_lower (VStr (str_of "Success: written"))))
                   _ eq_refl S1)|].
  split; [exact N1|]. split; [exact N2|].
  exact (proj1 (proj2 (proj2 (proj2 (result_classification Demo.world
           Demo.demo_module Demo.import_module Demo.module_run
           Demo.unicode_lower (VStr (str_of "/tmp/error: log"))))))
           _ eq_refl N1 N2).
Defined.

Lemma exception_containment_witness :
  Demo.import_module (ns_prefix ++ str_of "missing") (st_world Demo.initial)
    = (inl (ImportError
              (str_of "No module named aura_core.apprentices.missing")),
       st_world Demo.initial)
  /\ fst (try_apprentice Demo.import_module Demo.module_run
            Demo.unicode_lower (ns_prefix ++ str_of "missing") (VDict [])
            Demo.initial)
     = StepReturn
         (VStr (str_of
            "Error: Could not find module 'aura_core.apprentices.missing'."))
         false
  /\ Demo.module_run Demo.NoRun = inl (str_of "module has no attribute 'run'")
  /\ fst (try_apprentice Demo.import_module Demo.module_run
            Demo.unicode_lower (ns_prefix ++ str_of "norun") (VDict [])
            Demo.initial)
     = StepReturn
         (VStr (str_of
            "Critical error: Module 'aura_core.apprentices.norun' does not have a 'run' function. module has no attribute 'run'"))
         false
  /\ Demo.call_llm (Some Demo.crashing_reply) (str_of "go") Demo.initial
     = (Some ([Demo.step_lister] ++ Demo.step_crashing :: [Demo.step_writer]),
        Demo.planned_crashing)
  /\ Demo.run_steps 3 0 [Demo.step_lister] VNone Demo.planned_crashing
     = (LoopDone Demo.listing, Demo.before_crash)
  /\ Demo.execute_step Demo.step_crashing Demo.listing
       (emit (StartStep 2 3) Demo.before_crash)
     = try_apprentice Demo.import_module Demo.module_run Demo.unicode_lower
         (ns_prefix ++ str_of "crashing") (VDict []) Demo.at_crash
  /\ Demo.module_run Demo.Crashing
     = inr (fun _ w => (Raises (OtherException (str_of "disk full")), w))
  /\ try_apprentice Demo.import_module Demo.module_run Demo.unicode_lower
       (ns_prefix ++ str_of "crashing") (VDict []) Demo.at_crash
     = (StepReturn
          (VStr (str_of
             "Critical error executing aura_core.apprentices.crashing: disk full"))
          false,
        emit (Traceback (OtherException (str_of "disk full"))) Demo.crashed)
  /\ fst (Demo.handle_request (Some Demo.crashing_reply) (str_of "go")
            Demo.initial)
     = Failed 2
         (VStr (str_of
            "Critical error executing aura_core.apprentices.crashing: disk full"))
  /\ st_calls (snd (Demo.handle_request (Some Demo.crashing_reply)
                      (str_of "go") Demo.initial))
     = [(ns_prefix ++ str_of "lister", VDict []);
        (ns_prefix ++ str_of "crashing", VDict [])]
  /\ Demo.module_run Demo.Exiting
     = inr (fun _ w => (Raises (SystemExiting (str_of "1")), w))
  /\ fst (try_apprentice Demo.import_module Demo.module_run
            Demo.unicode_lower (ns_prefix ++ str_of "exiting") (VDict [])
            Demo.at_exit)
     = StepUncaught
  /\ fst (Demo.handle_request (Some Demo.exiting_reply) (str_of "go")
            Demo.initial)
     = Uncaught.
Proof.
  pose (thm := exception_containment Demo.world).
  (* a module that cannot be imported *)
  assert (I1 : Demo.import_module (ns_prefix ++ str_of "missing")
                 (st_world Demo.initial)
               = (inl (ImportError
                         (str_of
                            "No module named aura_core.apprentices.missing")),
                  st_world Demo.initial)) by reflexivity.
  assert (I2 : error_text (ns_prefix ++ str_of "missing")
                 (ImportError
                    (str_of "No module named aura_core.apprentices.missing"))
               = Some (str_of
                   "Error: Could not find module 'aura_core.apprentices.missing'."))
    by reflexivity.
  pose proof (proj1 (thm (Demo.chat None) Demo.json_loads Demo.demo_module
                Demo.import_module Demo.module_run Demo.str_nontext
                Demo.unicode_lower (ns_prefix ++ str_of "missing") (VDict [])
                Demo.initial) _ _ _ I1 I2) as A.
  (* a module without [run] *)
  assert (N1 : Demo.import_module (ns_prefix ++ str_of "norun")
                 (st_world Demo.initial)
               = (inr Demo.NoRun, st_world Demo.initial)) by reflexivity.
  assert (N2 : Demo.module_run Demo.NoRun
               = inl (str_of "module has no attribute 'run'"))
    by reflexivity.
  pose proof (proj1 (proj2 (thm (Demo.chat None) Demo.json_loads
                Demo.demo_module Demo.import_module Demo.module_run
                Demo.str_nontext Demo.unicode_lower
                (ns_prefix ++ str_of "norun") (VDict []) Demo.initial))
                _ _ _ N1 N2) as B.
  (* a [run] that raises, in the second step of a plan *)
  assert (H1 : Demo.call_llm (Some Demo.crashing_reply) (str_of "go")
                 Demo.initial
               = (Some ([Demo.step_lister] ++ Demo.step_crashing
                          :: [Demo.step_writer]), Demo.planned_crashing))
    by (vm_compute; reflexivity).
  assert (H2 : Demo.run_steps 3 0 [Demo.step_lister] VNone
                 Demo.planned_crashing
               = (LoopDone Demo.listing, Demo.before_crash))
    by (vm_compute; reflexivity).
  assert (H3 : Demo.execute_step Demo.step_crashing Demo.listing
                 (emit (StartStep 2 3) Demo.before_crash)
               = try_apprentice Demo.import_module Demo.module_run
                   Demo.unicode_lower (ns_prefix ++ str_of "crashing")
                   (VDict []) Demo.at_crash)
    by (vm_compute; reflexivity).
  assert (R1 : Demo.import_module (ns_prefix ++ str_of "crashing")
                 (st_world Demo.at_crash)
               = (inr Demo.Crashing, st_world Demo.at_crash)) by reflexivity.
  assert (R2 : Demo.module_run Demo.Crashing
               = inr (fun _ w =>
                        (Raises (OtherException (str_of "disk full")), w)))
    by reflexivity.
  assert (R3 : (fun (_ : value) (w : Demo.world) =>
                  (Raises (OtherException (str_of "disk full")), w))
                 (VDict []) (st_world Demo.at_crash)
               = (Raises (OtherException (str_of "disk full")),
                  st_world Demo.at_crash)) by reflexivity.
  assert (R4 : error_text (ns_prefix ++ str_of "crashing")
                 (OtherException (str_of "disk full"))
               = Some (str_of
                   "Critical error executing aura_core.apprentices.crashing: disk full"))
    by reflexivity.
  destruct (thm (Demo.chat (Some Demo.crashing_reply)) Demo.json_loads
              Demo.demo_module Demo.import_module Demo.module_run
              Demo.str_nontext Demo.unicode_lower
              (ns_prefix ++ str_of "crashing") (VDict []) Demo.at_crash)
    as (_ & _ & C3 & _ & _ & C6).
  pose proof (C3 _ _ _ _ _ _ R1 R2 R3 R4) as C.
  destruct (proj1 (C6 (str_of "go") Demo.initial [Demo.step_lister]
                     Demo.step_crashing [Demo.step_writer] Demo.listing
                     Demo.planned_crashing Demo.before_crash H1 H2 H3)
              _ _ R4
              (or_intror (or_intror
                 (ex_intro _ Demo.Crashing
                    (ex_intro _ (st_world Demo.at_crash)
                       (ex_intro _ _
                          (ex_intro _ (st_world Demo.at_crash)
                             (conj R1 (conj R2 R3)))))))))
    as (D1 & _ & D3).
  (* a [run] that exits *)
  assert (E1 : Demo.import_module (ns_prefix ++ str_of "exiting")
                 (st_world Demo.at_exit)
               = (inr Demo.Exiting, st_world Demo.at_exit)) by reflexivity.
  assert (E2 : Demo.module_run Demo.Exiting
               = inr (fun _ w => (Raises (SystemExiting (str_of "1")), w)))
    by reflexivity.
  assert (E3 : (fun (_ : value) (w : Demo.world) =>
                  (Raises (SystemExiting (str_of "1")), w))
                 (VDict []) (st_world Demo.at_exit)
               = (Raises (SystemExiting (str_of "1")), st_world Demo.at_exit))
    by reflexivity.
  assert (E4 : Demo.call_llm (Some Demo.exiting_reply) (str_of "go")
                 Demo.initial
               = (Some ([] ++ Demo.step_exiting :: [Demo.step_writer]),
                  Demo.planned_exiting))
    by (vm_compute; reflexivity).
  assert (E5 : Demo.run_steps 2 0 [] VNone Demo.planned_exiting
               = (LoopDone VNone, Demo.planned_exiting)) by reflexivity.
  assert (E6 : Demo.execute_step Demo.step_exiting VNone
                 (emit (StartStep 1 2) Demo.planned_exiting)
               = try_apprentice Demo.import_module Demo.module_run
                   Demo.unicode_lower (ns_prefix ++ str_of "exiting")
                   (VDict []) Demo.at_exit)
    by (vm_compute; reflexivity).
  destruct (thm (Demo.chat (Some Demo.exiting_reply)) Demo.json_loads
              Demo.demo_module Demo.import_module Demo.module_run
              Demo.str_nontext Demo.unicode_lower
              (ns_prefix ++ str_of "exiting") (VDict []) Demo.at_exit)
    as (_ & _ & _ & F4 & _ & F6).
  assert (E7 : (exists t w,
                  Demo.import_module (ns_prefix ++ str_of "exiting")
                    (st_world Demo.at_exit) = (inl (SystemExiting t), w))
               \/ (exists m w run t w',
                     Demo.import_module (ns_prefix ++ str_of "exiting")
                       (st_world Demo.at_exit) = (inr m, w)
                     /\ Demo.module_run m = inr run
                     /\ run (VDict []) w = (Raises (SystemExiting t), w'))).
  { right. exists Demo.Exiting, (st_world Demo.at_exit).
    eexists. exists (str_of "1"), (st_world Demo.at_exit).
    split; [exact E1|]. split; [exact E2|exact E3]. }
  pose proof (proj2 (F6 (str_of "go") Demo.initial [] Demo.step_exiting
                       [Demo.step_writer] VNone Demo.planned_exiting
                       Demo.planned_exiting E4 E5 E6) E7) as G.
  split; [exact I1|]. split; [exact (f_equal fst A)|].
  split; [exact N2|]. split; [exact (f_equal fst B)|].
  split; [exact H1|]. split; [exact H2|]. split; [exact H3|].
  split; [exact R2|]. split; [exact C|]. split; [exact D1|].
  split; [exact (eq_trans D3 (f_equal (fun r => st_calls (snd r)) C))|].
  split; [exact E2|]. split; [exact (proj2 F4 E7)|].
  exact (f_equal fst G).
Defined.

(** C4, the claim as stated, fails: an apprentice that calls [sys.exit]
    raises [SystemExit], which is no instance of [Exception].  No [except]
    clause of [execute_step] matches it: it leaves [execute_step] and
    [handle_request], which prints neither a halt line nor a failure line;
    the last line printed is the one that announces the call. *)
Lemma system_exit_is_not_contained :
  fst (Demo.call_llm (Some Demo.exiting_reply) (str_of "go") Demo.initial)
    = Some [Demo.step_exiting; Demo.step_writer]
  /\ Demo.module_run Demo.Exiting
     = inr (fun _ w => (Raises (SystemExiting (str_of "1")), w))
  /\ fst (Demo.execute_step Demo.step_exiting VNone
            (emit (StartStep 1 2) Demo.planned_exiting))
     = StepUncaught
  /\ fst (Demo.handle_request (Some Demo.exiting_reply) (str_of "go")
            Demo.initial)
     = Uncaught
  /\ st_stdout (snd (Demo.handle_request (Some Demo.exiting_reply)
                       (str_of "go") Demo.initial))
     = st_stdout Demo.planned_exiting
         ++ [StartStep 1 2; ShortName (str_of "exiting");
             Executing (ns_prefix ++ str_of "exiting")]
  /\ st_calls (snd (Demo.handle_request (Some Demo.exiting_reply)
                      (str_of "go") Demo.initial))
     = [(ns_prefix ++ str_of "exiting", VDict [])].
Proof. repeat split; vm_compute; reflexivity. Qed.

Lemma payload_presence_witness :
  validate_plan (VList [Demo.step_lister; Demo.step_writer])
    = inr [Demo.step_lister; Demo.step_writer]
  /\ Forall (fun step => well_formed_step step = true)
       [Demo.step_lister; Demo.step_writer]
  /\ In (VDict Demo.entries_no_payload)
       [Demo.step_lister; VDict Demo.entries_no_payload]
  /\ dict_has key_payload Demo.entries_no_payload = false
  /\ (exists reason,
        validate_plan (VList [Demo.step_lister; VDict Demo.entries_no_payload])
        = inl reason)
  /\ dict_get key_payload Demo.entries_null_payload = VNone
  /\ (exists name,
        dict_get key_apprentice Demo.entries_null_payload = VStr name)
  /\ fst (Demo.execute_step Demo.step_null_payload VNone Demo.initial)
     = StepReturn VNone false
  /\ (exists printed step,
        st_stdout (snd (Demo.execute_step Demo.step_null_payload VNone
                          Demo.initial))
        = printed ++ [InvalidStep step])
  /\ st_calls (snd (Demo.execute_step Demo.step_null_payload VNone
                      Demo.initial))
     = st_calls Demo.initial
  /\ dict_get key_payload Demo.entries_true_null = VNone
  /\ truthy (dict_get key_apprentice Demo.entries_true_null) = true
  /\ (forall name,
        dict_get key_apprentice Demo.entries_true_null <> VStr name)
  /\ Demo.execute_step (VDict Demo.entries_true_null) VNone Demo.initial
     = (StepUncaught, Demo.initial).
Proof.
  destruct (payload_presence Demo.world Demo.demo_module Demo.import_module
              Demo.module_run Demo.str_nontext Demo.unicode_lower)
    as (A & B & C).
  assert (H1 : validate_plan (VList [Demo.step_lister; Demo.step_writer])
               = inr [Demo.step_lister; Demo.step_writer]) by reflexivity.
  assert (H2 : In (VDict Demo.entries_no_payload)
                 [Demo.step_lister; VDict Demo.entries_no_payload])
    by (right; left; reflexivity).
  assert (H3 : dict_has key_payload Demo.entries_no_payload = false)
    by reflexivity.
  assert (H4 : dict_get key_payload Demo.entries_null_payload = VNone)
    by reflexivity.
  assert (H5 : exists name,
                 dict_get key_apprentice Demo.entries_null_payload
                 = VStr name)
    by (exists (str_of "file_writer"); reflexivity).
  assert (H6 : dict_get key_payload Demo.entries_true_null = VNone)
    by reflexivity.
  assert (H7 : truthy (dict_get key_apprentice Demo.entries_true_null) = true)
    by reflexivity.
  assert (H8 : forall name,
                 dict_get key_apprentice Demo.entries_true_null <> VStr name)
    by discriminate.
  destruct (C Demo.entries_null_payload VNone Demo.initial (or_intror H4))
    as (C1 & _ & C3 & _).
  destruct (C Demo.entries_true_null VNone Demo.initial (or_intror H6))
    as (_ & C2 & _).
  split; [exact H1|]. split; [exact (proj2 (A _ _ H1))|].
  split; [exact H2|]. split; [exact H3|]. split; [exact (B _ _ H2 H3)|].
  split; [exact H4|]. split; [exact H5|].
  split; [exact (proj1 (C1 (or_intror H5)))|].
  split; [exact (proj2 (C1 (or_intror H5)))|].
  split; [exact C3|].
  split; [exact H6|]. split; [exact H7|]. split; [exact H8|].
  exact (C2 H7 H8).
Defined.

(** C8, the claim as stated, fails: a step whose payload is [null] passes
    the structural checks of the planner. *)
Lemma null_payload_passes_validation :
  JsonFragment.loads
    (repair (str_of "[{'apprentice': 'file_writer', 'payload': null}]"))
    = Some (VList [Demo.step_null_payload])
  /\ validate_plan (VList [Demo.step_null_payload])
     = inr [Demo.step_null_payload]
  /\ fst (Demo.call_llm
            (Some (str_of "[{'apprentice': 'file_writer', 'payload': null}]"))
            (str_of "go") Demo.initial)
     = Some [Demo.step_null_payload].
Proof. repeat split; vm_compute; reflexivity. Qed.

Lemma plan_or_halt_witness :
  (fst (Demo.call_llm (Some (str_of "[]")) (str_of "go") Demo.initial) = None
   \/ fst (Demo.call_llm (Some (str_of "[]")) (str_of "go") Demo.initial)
      = Some [])
  /\ fst (Demo.handle_request (Some (str_of "[]")) (str_of "go") Demo.initial)
     = NoPlan
  /\ st_calls (snd (Demo.handle_request (Some (str_of "[]")) (str_of "go")
                      Demo.initial))
     = st_calls Demo.initial
  /\ fst (Demo.call_llm (Some Demo.three_step_reply) (str_of "go")
            Demo.initial)
     = Some (Demo.step_lister :: [Demo.step_failing; Demo.step_writer])
  /\ fst (Demo.handle_request (Some Demo.three_step_reply) (str_of "go")
            Demo.initial) <> NoPlan
  /\ Demo.chat (Some (str_of " I cannot plan this. ")) (str_of "go")
       (st_world Demo.initial)
     = (Some (str_of " I cannot plan this. "), st_world Demo.initial)
  /\ fst (Demo.call_llm (Some (str_of " I cannot plan this. ")) (str_of "go")
            Demo.initial) = None
  /\ (exists printed reason,
        st_stdout (snd (Demo.call_llm (Some (str_of " I cannot plan this. "))
                          (str_of "go") Demo.initial))
        = printed ++ [CouldNotParse reason;
                      RawOutput (str_of "I cannot plan this.");
                      AttemptedToParse (str_of "I cannot plan this.")]).
Proof.
  assert (H1 : fst (Demo.call_llm (Some (str_of "[]")) (str_of "go")
                      Demo.initial) = None
               \/ fst (Demo.call_llm (Some (str_of "[]")) (str_of "go")
                         Demo.initial) = Some [])
    by (right; reflexivity).
  assert (H2 : fst (Demo.call_llm (Some Demo.three_step_reply) (str_of "go")
                      Demo.initial)
               = Some (Demo.step_lister
                         :: [Demo.step_failing; Demo.step_writer]))
    by (vm_compute; reflexivity).
  assert (H3 : Demo.chat (Some (str_of " I cannot plan this. ")) (str_of "go")
                 (st_world Demo.initial)
               = (Some (str_of " I cannot plan this. "),
                  st_world Demo.initial)) by reflexivity.
  assert (H4 : fst (Demo.call_llm (Some (str_of " I cannot plan this. "))
                      (str_of "go") Demo.initial) = None)
    by (vm_compute; reflexivity).
  destruct (plan_or_halt Demo.world (Demo.chat (Some (str_of "[]")))
              Demo.json_loads Demo.demo_module Demo.import_module
              Demo.module_run Demo.str_nontext Demo.unicode_lower
              (str_of "go") Demo.initial) as (_ & _ & A & _).
  destruct (plan_or_halt Demo.world (Demo.chat (Some Demo.three_step_reply))
              Demo.json_loads Demo.demo_module Demo.import_module
              Demo.module_run Demo.str_nontext Demo.unicode_lower
              (str_of "go") Demo.initial) as (_ & _ & _ & B & _).
  destruct (plan_or_halt Demo.world
              (Demo.chat (Some (str_of " I cannot plan this. ")))
              Demo.json_loads Demo.demo_module Demo.import_module
              Demo.module_run Demo.str_nontext Demo.unicode_lower
              (str_of "go") Demo.initial) as (_ & _ & _ & _ & C).
  split; [exact H1|].
  split; [exact (f_equal fst (proj1 (A H1)))|].
  split; [exact (proj2 (A H1))|].
  split; [exact H2|].
  split; [exact (proj1 (B _ _ H2))|].
  split; [exact H3|]. split; [exact H4|].
  exact (C _ _ H3 H4).
Defined.

(** C9, the claim as stated, fails: to the reply [[]] the planner gives back
    the empty plan, which is neither a non-empty sequence of steps nor a
    failure with the raw reply kept (no error line is printed);
    [handle_request] then halts for want of a plan. *)
Lemma empty_plan_without_diagnostics :
  Demo.call_llm (Some (str_of "[]")) (str_of "go") Demo.initial
    = (Some [],
       mkState (st_world Demo.initial)
         [PlanningTask (str_of "go"); CleanedPlan (str_of "[]")] [])
  /\ fst (Demo.handle_request (Some (str_of "[]")) (str_of "go") Demo.initial)
     = NoPlan.
Proof. split; vm_compute; reflexivity. Qed.

(** * Further properties of the clean-up of the reply *)

Lemma count_zero_free (c : N) (s : pystr) : ~ In c s -> count c s = 0.
Proof.
  induction s as [|x s IH]; intros H; [reflexivity|]; simpl.
  destruct (N.eqb_spec x c) as [->|_]; [elim H; now left|].
  apply IH; intros Hin; apply H; now right.
Qed.

Lemma count_lstrip (c : N) (s : pystr) : count c (lstrip s) <= count c s.
Proof.
  induction s as [|x s IH]; simpl; [lia|].
  destruct (isspace x); simpl; lia.
Qed.

Lemma count_rstrip (c : N) (s : pystr) : count c (rstrip s) <= count c s.
Proof.
  induction s as [|x s IH]; simpl; [lia|].
  destruct (rstrip s) as [|y t].
  - destruct (isspace x); simpl in *; lia.
  - simpl in *; lia.
Qed.

Lemma count_strip (c : N) (s : pystr) : count c (strip s) <= count c s.
Proof.
  unfold strip. pose proof (count_rstrip c (lstrip s)).
  pose proof (count_lstrip c s). lia.
Qed.

Lemma count_replace_char (c d : N) (s : pystr) :
  c <> d -> count c (replace [c] [d] s) = 0.
Proof.
  intros Hcd. assert (Ho : [c] <> []) by discriminate.
  induction s as [|t IH|x s E IH] using (scan_ind _ Ho).
  - now rewrite replace_nil.
  - rewrite replace_hit by assumption. cbn [app count].
    destruct (N.eqb_spec d c) as [->|_]; [contradiction|exact IH].
  - rewrite replace_miss by assumption. cbn [count]. rewrite IH.
    cbn [startswith] in E. rewrite andb_true_r, N.eqb_sym in E.
    now rewrite E.
Qed.

Lemma bracket_span_wrapped (before m after : pystr) :
  ~ In lbracket before -> ~ In rbracket after ->
  bracket_span (before ++ lbracket :: m ++ rbracket :: after)
  = Some (List.length before, List.length before + S (List.length m)).
Proof.
  intros Hb Ha. unfold bracket_span.
  rewrite find_app_free by assumption. cbn [find].
  change (N.eqb lbracket lbracket) with true. cbn [option_map].
  replace (before ++ lbracket :: m ++ rbracket :: after)
    with ((before ++ lbracket :: m) ++ rbracket :: after)
    by (rewrite <- app_assoc; reflexivity).
  rewrite rfind_last by assumption.
  rewrite length_app; cbn [List.length].
  rewrite Nat.add_0_r.
  destruct (Nat.ltb_spec (List.length before)
              (List.length before + S (List.length m))); [reflexivity|lia].
Qed.

Lemma slice_wrapped (before m after : pystr) :
  slice (List.length before) (List.length before + S (List.length m) + 1)
    (before ++ lbracket :: m ++ rbracket :: after)
  = lbracket :: m ++ [rbracket].
Proof.
  unfold slice. rewrite skipn_app, skipn_all, Nat.sub_diag. cbn [app skipn].
  replace (List.length before + S (List.length m) + 1 - List.length before)
    with (S (S (List.length m))) by lia.
  rewrite firstn_cons. f_equal.
  rewrite firstn_app.
  replace (S (List.length m) - List.length m) with 1 by lia.
  rewrite firstn_all2 by lia. reflexivity.
Qed.

Lemma cleanup_wrapped (before m after : pystr) :
  ~ In lbracket before -> ~ In rbracket after ->
  cleanup (before ++ lbracket :: m ++ rbracket :: after)
  = clean_sliced (lbracket :: m ++ [rbracket]).
Proof.
  intros Hb Ha. unfold cleanup. rewrite bracket_span_wrapped by assumption.
  now rewrite slice_wrapped.
Qed.

(** X1 (prose around the array).  When the reply holds an opening bracket,
    with none before it, and later a closing bracket, with none after it,
    everything before the first and after the second is dropped: the reply
    is repaired to the same text as the bracketed part alone. *)
Theorem repair_discards_prose (before m after : pystr) :
  ~ In lbracket before -> ~ In rbracket after ->
  cleanup (before ++ lbracket :: m ++ rbracket :: after)
  = clean_sliced (lbracket :: m ++ [rbracket])
  /\ repair (before ++ lbracket :: m ++ rbracket :: after)
     = repair (lbracket :: m ++ [rbracket]).
Proof.
  intros Hb Ha.
  pose proof (cleanup_wrapped before m after Hb Ha) as H1.
  assert (H2 : cleanup (lbracket :: m ++ [rbracket])
               = clean_sliced (lbracket :: m ++ [rbracket])).
  { apply (cleanup_wrapped [] m []); intros []. }
  split; [exact H1|]. unfold repair. now rewrite H1, H2.
Qed.

Lemma repair_discards_prose_witness :
  ~ In lbracket (str_of "Sure! Here is the plan: ")
  /\ ~ In rbracket (str_of " Let me know.")
  /\ repair (str_of "Sure! Here is the plan: " ++ lbracket
               :: str_of "{'a': 1}" ++ rbracket :: str_of " Let me know.")
     = repair (lbracket :: str_of "{'a': 1}" ++ [rbracket]).
Proof.
  assert (H1 : ~ In lbracket (str_of "Sure! Here is the plan: "))
    by (apply mem_false; reflexivity).
  assert (H2 : ~ In rbracket (str_of " Let me know."))
    by (apply mem_false; reflexivity).
  split; [exact H1|]. split; [exact H2|].
  exact (proj2 (repair_discards_prose _ (str_of "{'a': 1}") _ H1 H2)).
Defined.

Lemma rules_absent (rules : list (pystr * pystr)) (t : pystr) :
  forallb (fun r => nonempty (fst r) && negb (contains (fst r) t)) rules
    = true ->
  apply_rules rules t = t.
Proof.
  intros H. apply apply_rules_fixed. intros r Hr.
  rewrite forallb_forall in H. specialize (H r Hr).
  apply andb_true_iff in H as [Hn Hc]. split; [now apply nonempty_true|].
  now apply negb_true_iff in Hc.
Qed.

(** X2 (clean text is left alone).  A text that begins with an opening
    bracket and ends with a closing one, holds none of the texts that the
    replacements look for (fences, emphasis, the capitalised literals after
    a colon or comma and a space, the single quote) and has no more opening
    than closing braces, comes out of the repair unchanged. *)
Theorem repair_leaves_clean_text (m : pystr) :
  forallb (fun r => negb (contains (fst r) (lbracket :: m ++ [rbracket])))
    (marker_rules ++ literal_rules ++ quote_rules) = true ->
  count lbrace (lbracket :: m ++ [rbracket])
    <= count rbrace (lbracket :: m ++ [rbracket]) ->
  repair (lbracket :: m ++ [rbracket]) = lbracket :: m ++ [rbracket].
Proof.
  intros Hclean Hbraces.
  set (t := lbracket :: m ++ [rbracket]) in *.
  rewrite forallb_app in Hclean. apply andb_true_iff in Hclean as [Hm Hl].
  assert (Hc : cleanup t = clean_sliced t).
  { apply (cleanup_wrapped [] m []); intros []. }
  unfold repair. rewrite Hc, clean_sliced_rules.
  rewrite (rules_absent marker_rules), (rules_absent (literal_rules ++ quote_rules)).
  - unfold t at 1. rewrite strip_bracketed. now apply balance_braces_balanced.
  - rewrite forallb_forall in Hl |- *. intros r Hr.
    rewrite (Hl r Hr), andb_true_r.
    cbv in Hr. repeat (destruct Hr as [<-|Hr]; [reflexivity|]). contradiction.
  - rewrite forallb_forall in Hm |- *. intros r Hr.
    rewrite (Hm r Hr), andb_true_r.
    cbv in Hr. repeat (destruct Hr as [<-|Hr]; [reflexivity|]). contradiction.
Qed.

Lemma repair_leaves_clean_text_witness :
  forallb (fun r => negb (contains (fst r)
                            (lbracket :: str_of "{a: true, b: null}"
                               ++ [rbracket])))
    (marker_rules ++ literal_rules ++ quote_rules) = true
  /\ count lbrace (lbracket :: str_of "{a: true, b: null}" ++ [rbracket])
     <= count rbrace (lbracket :: str_of "{a: true, b: null}" ++ [rbracket])
  /\ repair (lbracket :: str_of "{a: true, b: null}" ++ [rbracket])
     = lbracket :: str_of "{a: true, b: null}" ++ [rbracket].
Proof.
  assert (H1 : forallb (fun r => negb (contains (fst r)
                          (lbracket :: str_of "{a: true, b: null}"
                             ++ [rbracket])))
                 (marker_rules ++ literal_rules ++ quote_rules) = true)
    by reflexivity.
  assert (H2 : count lbrace (lbracket :: str_of "{a: true, b: null}"
                               ++ [rbracket])
               <= count rbrace (lbracket :: str_of "{a: true, b: null}"
                                  ++ [rbracket]))
    by (vm_compute; lia).
  split; [exact H1|]. split; [exact H2|].
  exact (repair_leaves_clean_text _ H1 H2).
Defined.

(** X3 (braces after the repair).  Whatever the reply, the repaired text
    never has more opening than closing braces, and running the brace stage
    on it again adds nothing. *)
Theorem repair_closes_braces (raw_output : pystr) :
  count lbrace (repair raw_output) <= count rbrace (repair raw_output)
  /\ balance_braces (repair raw_output) = repair raw_output.
Proof.
  assert (H : count lbrace (repair raw_output)
              <= count rbrace (repair raw_output)).
  { unfold repair.
    destruct (balance_braces_counts (cleanup raw_output)) as [-> ->]. lia. }
  split; [exact H|now apply balance_braces_balanced].
Qed.

(** Replacing a character by another is a change in place. *)
Lemma replace_char_map (c d : N) (s : pystr) :
  replace [c] [d] s = map (fun x => if (x =? c)%N then d else x) s.
Proof.
  assert (Ho : [c] <> []) by discriminate.
  induction s as [|t IH|x s E IH] using (scan_ind _ Ho).
  - now rewrite replace_nil.
  - rewrite replace_hit by assumption. cbn [app map].
    now rewrite N.eqb_refl, IH.
  - rewrite replace_miss by assumption. cbn [map]. rewrite IH.
    cbn [startswith] in E. rewrite andb_true_r, N.eqb_sym in E.
    now rewrite E.
Qed.

Lemma count_map_char (c d : N) (s : pystr) :
  c <> d ->
  count d (map (fun x => if (x =? c)%N then d else x) s)
  = count d s + count c s.
Proof.
  intros Hcd. induction s as [|x s IH]; [reflexivity|].
  cbn [map count]. rewrite IH.
  destruct (N.eqb_spec x c) as [->|Hx].
  - rewrite N.eqb_refl. destruct (N.eqb_spec c d); [contradiction|lia].
  - destruct (N.eqb_spec x d); lia.
Qed.

(** [strip] takes away white space only. *)
Lemma count_lstrip_solid (c : N) (s : pystr) :
  isspace c = false -> count c (lstrip s) = count c s.
Proof.
  intros Hc. induction s as [|x s IH]; [reflexivity|]. cbn [lstrip].
  destruct (isspace x) eqn:Ex; [|reflexivity]. cbn [count].
  destruct (N.eqb_spec x c) as [->|_]; [congruence|exact IH].
Qed.

Lemma count_rstrip_solid (c : N) (s : pystr) :
  isspace c = false -> count c (rstrip s) = count c s.
Proof.
  intros Hc. induction s as [|x s IH]; [reflexivity|]. cbn [rstrip].
  destruct (rstrip s) as [|y t].
  - cbn [count] in *. rewrite <- IH.
    destruct (isspace x) eqn:Ex; cbn [count]; [|lia].
    destruct (N.eqb_spec x c) as [->|_]; [congruence|reflexivity].
  - cbn [count] in *. now rewrite IH.
Qed.

Lemma count_strip_solid (c : N) (s : pystr) :
  isspace c = false -> count c (strip s) = count c s.
Proof.
  intros Hc. unfold strip.
  now rewrite count_rstrip_solid, count_lstrip_solid.
Qed.

(** X4 (single quotes).  Whatever the reply, the repaired text holds no
    single quote.  The stage that replaces the quotes changes every single
    quote, an apostrophe inside a value included, into a double quote, in
    place, and changes nothing else; and none is lost afterwards: the
    repaired text has as many double quotes as the text given to that stage
    had quotes of the two kinds together. *)
Theorem repair_leaves_no_single_quote (raw_output : pystr) :
  count squote (repair raw_output) = 0
  /\ (forall s,
        normalize_quotes s
        = map (fun c => if (c =? squote)%N then dquote else c) s)
  /\ exists quoted,
       quoted = match bracket_span raw_output with
                | Some (i, j) =>
                    normalize_literals
                      (strip_markers (slice i (j + 1) raw_output))
                | None => normalize_literals_fallback raw_output
                end
       /\ cleanup raw_output
          = match bracket_span raw_output with
            | Some _ => strip (normalize_quotes quoted)
            | None => normalize_quotes quoted
            end
       /\ count dquote (repair raw_output)
          = count dquote quoted + count squote quoted.
Proof.
  assert (Hq : forall s, count dquote (normalize_quotes s)
                         = count dquote s + count squote s).
  { intros s. unfold normalize_quotes.
    rewrite replace_char_map. now apply count_map_char. }
  split; [|split].
  - unfold repair. rewrite balance_braces_app, count_app.
    rewrite (count_times_other squote rbrace) by discriminate.
    rewrite Nat.add_0_r. unfold cleanup.
    destruct (bracket_span raw_output) as [[i j]|].
    + unfold clean_sliced, normalize_quotes.
      pose proof (count_strip squote
                    (replace [squote] [dquote]
                       (normalize_literals
                          (strip_markers (slice i (j + 1) raw_output)))))
        as H.
      rewrite count_replace_char in H by discriminate. lia.
    + unfold clean_fallback, normalize_quotes.
      now apply count_replace_char.
  - intros s. apply replace_char_map.
  - eexists. split; [reflexivity|].
    unfold repair. rewrite balance_braces_app, count_app.
    rewrite (count_times_other dquote rbrace) by discriminate.
    rewrite Nat.add_0_r. unfold cleanup.
    destruct (bracket_span raw_output) as [[i j]|].
    + unfold clean_sliced. split; [reflexivity|].
      rewrite count_strip_solid by reflexivity. apply Hq.
    + unfold clean_fallback. split; [reflexivity|]. apply Hq.
Qed.

(** X5 (shape of the bracketed branch).  When the reply holds an opening
    bracket and, further on, a closing one, the repaired text begins with
    the opening bracket, and all that follows its last closing bracket is
    the closing braces that the brace stage added. *)
Theorem repair_bracketed_shape (raw_output : pystr) (i j : nat) :
  bracket_span raw_output = Some (i, j) ->
  exists m,
    cleanup raw_output = lbracket :: m ++ [rbracket]
    /\ repair raw_output
       = lbracket :: m ++ rbracket
           :: times rbrace (count lbrace (cleanup raw_output)
                            - count rbrace (cleanup raw_output)).
Proof.
  intros H. destruct (cleanup_bracketed _ _ _ H) as (m & Hc & _).
  exists m. split; [exact Hc|].
  unfold repair. rewrite balance_braces_app. rewrite Hc at 1.
  cbn [app]. now rewrite <- app_assoc.
Qed.

Lemma repair_bracketed_shape_witness :
  bracket_span (str_of "plan: [{'a': {'b': 1}] done") = Some (6, 21)
  /\ exists m,
       cleanup (str_of "plan: [{'a': {'b': 1}] done")
       = lbracket :: m ++ [rbracket]
       /\ repair (str_of "plan: [{'a': {'b': 1}] done")
          = lbracket :: m ++ rbracket
              :: times rbrace
                   (count lbrace (cleanup (str_of "plan: [{'a': {'b': 1}] done"))
                    - count rbrace
                        (cleanup (str_of "plan: [{'a': {'b': 1}] done"))).
Proof.
  assert (H : bracket_span (str_of "plan: [{'a': {'b': 1}] done")
              = Some (6, 21)) by reflexivity.
  split; [exact H|]. exact (repair_bracketed_shape _ _ _ H).
Defined.

(** * Further properties of the planner and the step executor *)

Lemma check_items_well_formed (items : list value) :
  Forall (fun step => well_formed_step step = true) items ->
  check_items items = None.
Proof.
  induction 1 as [|step items Hs _ IH]; [reflexivity|].
  destruct step; try discriminate. cbn [check_items well_formed_step] in *.
  apply andb_true_iff in Hs as [-> ->]. exact IH.
Qed.

(** X6 (what the structural checks accept).  The checks accept a parsed
    reply exactly when it is a sequence whose items are all mappings that
    have both keys, and then give that sequence back as the plan; any other
    value is refused with a reason. *)
Theorem validate_plan_characterised (parsed_json : value) (plan : list value) :
  (validate_plan parsed_json = inr plan <->
     parsed_json = VList plan
     /\ Forall (fun step => well_formed_step step = true) plan)
  /\ ((forall items, parsed_json <> VList items) ->
      validate_plan parsed_json = inl (str_of "Parsed JSON is not a list.")).
Proof.
  split; [split|].
  - apply validate_plan_accepts.
  - intros [-> H]. unfold validate_plan.
    now rewrite (check_items_well_formed _ H).
  - intros H. destruct parsed_json; try reflexivity. now elim (H items).
Qed.

Lemma dict_get_set_same (key : pystr) (v : value) (d : list (pystr * value)) :
  dict_get key (dict_set key v d) = v.
Proof.
  induction d as [|[k w] d IH]; simpl; [now rewrite str_eqb_refl|].
  destruct (str_eqb k key) eqn:E; simpl; now rewrite E.
Qed.

Lemma dict_get_set_other (key key' : pystr) (v : value)
    (d : list (pystr * value)) :
  str_eqb key key' = false ->
  dict_get key' (dict_set key v d) = dict_get key' d.
Proof.
  intros Hk. induction d as [|[k w] d IH]; simpl.
  - now rewrite Hk.
  - destruct (str_eqb k key) eqn:E; simpl.
    + apply str_eqb_eq in E; subst k. now rewrite Hk.
    + now rewrite IH.
Qed.

Section MoreExecutorFacts.

Variable world : Type.
Variable ollama_chat : pystr -> world -> option pystr * world.
Variable json_loads : pystr -> pystr + value.
Variable module : Type.
Variable import_module : pystr -> world -> (exn + module) * world.
Variable module_run : module -> pystr + (value -> world -> outcome * world).
Variable str_nontext : value -> pystr.
Variable unicode_lower : pystr -> pystr.

Local Notation "'walk'" := (replace_prev_output str_nontext).
Local Notation "'attempt'" := (try_body import_module module_run).
Local Notation "'guarded'" :=
  (try_apprentice import_module module_run unicode_lower).
Local Notation "'step_exec'" :=
  (execute_step import_module module_run str_nontext unicode_lower).
Local Notation "'loop'" :=
  (run_steps import_module module_run str_nontext unicode_lower).
Local Notation "'planner'" := (call_llm ollama_chat json_loads).
Local Notation "'foreman'" :=
  (handle_request ollama_chat json_loads import_module module_run
     str_nontext unicode_lower).

(** What the [try] statement does depends on the world and on the calls
    made, not on what was printed before: it only adds lines. *)
Lemma try_apprentice_frame (name : pystr) (payload : value) (w : world)
    (printed : list event) (calls : list (pystr * value)) :
  guarded name payload (mkState w printed calls)
  = (fst (guarded name payload (mkState w [] calls)),
     mkState (st_world (snd (guarded name payload (mkState w [] calls))))
       (printed ++ st_stdout (snd (guarded name payload (mkState w [] calls))))
       (st_calls (snd (guarded name payload (mkState w [] calls))))).
Proof.
  unfold try_apprentice, try_body, emit, set_world, record_call.
  cbn [st_world st_stdout st_calls app].
  destruct (import_module name w) as [[e|m] w'].
  - destruct e; unfold report, emit;
      cbn [error_text fst snd st_world st_stdout st_calls app];
      try (now rewrite <- app_assoc); reflexivity.
  - destruct (module_run m) as [ae|run].
    + unfold report, emit;
        cbn [error_text fst snd st_world st_stdout st_calls app];
        now rewrite <- app_assoc.
    + destruct (run payload w') as [[v|e] w''].
      * cbn [fst snd st_world st_stdout st_calls app];
          now rewrite <- app_assoc.
      * destruct e; unfold report, emit;
          cbn [error_text fst snd st_world st_stdout st_calls app];
          try (now rewrite <- app_assoc); reflexivity.
Qed.

(** X7 (short names).  A step that names its apprentice by a short name is
    executed as the step with the full name in its place: same result, same
    world, same calls; the only difference is the line that reports the
    short name, printed first. *)
Theorem short_name_resolves_as_full_name (d : list (pystr * value))
    (n : pystr) (previous_output : value) (st : state world) :
  dict_get key_apprentice d = VStr n -> n <> [] ->
  startswith ns_prefix n = false ->
  exists r w new calls,
    step_exec (VDict (dict_set key_apprentice (VStr (ns_prefix ++ n)) d))
      previous_output st
    = (r, mkState w (st_stdout st ++ new) calls)
    /\ step_exec (VDict d) previous_output st
       = (r, mkState w (st_stdout st ++ ShortName n :: new) calls).
Proof.
  intros Hn Hne Hshort.
  assert (Ht : truthy (VStr n) = true)
    by (destruct n; [contradiction|reflexivity]).
  assert (Hp : dict_get key_payload
                 (dict_set key_apprentice (VStr (ns_prefix ++ n)) d)
               = dict_get key_payload d)
    by (now apply dict_get_set_other).
  unfold execute_step.
  rewrite dict_get_set_same, Hp, Hn, Ht, Hshort, startswith_app.
  change (truthy (VStr (ns_prefix ++ n))) with true. cbv iota.
  destruct st as [w0 printed calls0].
  assert (Hinvalid : forall step,
            exists r w new calls,
              (StepReturn VNone false,
               emit (InvalidStep step) (mkState w0 printed calls0))
              = (r, mkState w (printed ++ new) calls)
              /\ (StepReturn VNone false,
                  emit (InvalidStep step)
                    (emit (ShortName n) (mkState w0 printed calls0)))
                 = (r, mkState w (printed ++ ShortName n :: new) calls)).
  { intros step. exists (StepReturn VNone false), w0, [InvalidStep step], calls0.
    unfold emit; cbn [st_world st_stdout st_calls].
    split; [reflexivity|]. now rewrite <- app_assoc. }
  assert (Htry : forall payload,
            exists r w new calls,
              guarded (ns_prefix ++ n) payload (mkState w0 printed calls0)
              = (r, mkState w (printed ++ new) calls)
              /\ guarded (ns_prefix ++ n) payload
                   (emit (ShortName n) (mkState w0 printed calls0))
                 = (r, mkState w (printed ++ ShortName n :: new) calls)).
  { intros payload. unfold emit; cbn [st_world st_stdout st_calls].
    rewrite (try_apprentice_frame _ _ w0 printed),
            (try_apprentice_frame _ _ w0 (printed ++ [ShortName n])).
    do 4 eexists. split; [reflexivity|]. now rewrite <- app_assoc. }
  cbn [st_stdout].
  destruct (dict_get key_payload d); try apply Htry. apply Hinvalid.
Qed.

(** X8 (a tool name that is not text).  The structural checks do not look
    at the value under the tool key.  When a step that passed them holds
    there a value that is not text and not empty, a number for one, the
    look for the namespace prefix raises outside the [try] statement: the
    exception leaves [execute_step] and [handle_request], which prints
    neither the completion line nor a failure line after the line that
    starts the step, and no call is made for that step or a later one. *)
Theorem non_text_tool_name_escapes (user_request : pystr) (st : state world)
    (pre : list value) (d : list (pystr * value)) (post : list value)
    (reached : value) (st0 st1 : state world) :
  planner user_request st = (Some (pre ++ VDict d :: post), st0) ->
  loop (List.length (pre ++ VDict d :: post)) 0 pre VNone st0
    = (LoopDone reached, st1) ->
  truthy (dict_get key_apprentice d) = true ->
  (forall n, dict_get key_apprentice d <> VStr n) ->
  well_formed_step (VDict d) = true
  /\ foreman user_request st
     = (Uncaught,
        emit (StartStep (List.length pre + 1)
                (List.length (pre ++ VDict d :: post))) st1).
Proof.
  intros Hplan Hpre Ht Hn. split.
  - pose proof (call_llm_plan _ _ _ _ _ _ _ Hplan) as Hw.
    rewrite Forall_forall in Hw. apply Hw, in_elt.
  - unfold handle_request. rewrite Hplan.
    destruct (pre ++ VDict d :: post) as [|s0 plan] eqn:E;
      [now destruct pre|].
    rewrite <- E in *. rewrite run_steps_app, Hpre. cbn [run_steps Nat.add].
    unfold execute_step. rewrite Ht.
    destruct (dict_get key_apprentice d); try reflexivity.
    now elim (Hn s).
Qed.

Lemma execute_step_namespaced (step previous_output : value)
    (st : state world) :
  Forall (fun c => startswith ns_prefix (fst c) = true) (st_calls st) ->
  Forall (fun c => startswith ns_prefix (fst c) = true)
    (st_calls (snd (step_exec step previous_output st))).
Proof.
  intros H. unfold execute_step. destruct step; try exact H.
  destruct (truthy (dict_get key_apprentice entries)); [|exact H].
  destruct (dict_get key_apprentice entries) as [ | | | | name | | ];
    try exact H.
  assert (Hcall : forall nm payload st',
            startswith ns_prefix nm = true -> st_calls st' = st_calls st ->
            Forall (fun c => startswith ns_prefix (fst c) = true)
              (st_calls (snd (guarded nm payload st')))).
  { intros nm payload st' Hnm Hc. rewrite try_apprentice_calls.
    destruct (try_body_calls _ _ import_module module_run nm payload st')
      as [-> | ->]; rewrite Hc; [exact H|].
    apply Forall_app; split; [exact H|]. now constructor. }
  destruct (startswith ns_prefix name) eqn:E;
    destruct (dict_get key_payload entries);
    try exact H; apply Hcall; try reflexivity; try exact E;
    apply startswith_app.
Qed.

Lemma run_steps_namespaced (total : nat) (steps : list value) :
  forall i previous_output st,
    Forall (fun c => startswith ns_prefix (fst c) = true) (st_calls st) ->
    Forall (fun c => startswith ns_prefix (fst c) = true)
      (st_calls (snd (loop total i steps previous_output st))).
Proof.
  induction steps as [|step steps IH]; intros i previous_output st H;
    [exact H|].
  cbn [run_steps].
  pose proof (execute_step_namespaced step previous_output
                (emit (StartStep (i + 1) total) st) H) as Hs.
  destruct (step_exec step previous_output _) as [[output [|]|] st'];
    cbn [snd] in *; [now apply IH|exact Hs|exact Hs].
Qed.

(** X9 (the namespace of the apprentices).  Every module whose [run] the
    Foreman calls while it handles a request has a name that begins with
    ["aura_core.apprentices."], whatever names the plan holds. *)
Theorem only_apprentices_are_called (user_request : pystr)
    (st : state world) :
  Forall (fun c => startswith ns_prefix (fst c) = true) (st_calls st) ->
  Forall (fun c => startswith ns_prefix (fst c) = true)
    (st_calls (snd (foreman user_request st))).
Proof.
  intros H. unfold handle_request.
  pose proof (call_llm_calls _ ollama_chat json_loads user_request st) as Hc.
  destruct (planner user_request st) as [[[|s0 plan]|] st0];
    cbn [snd] in Hc; try (cbn [snd emit st_calls]; now rewrite Hc).
  rewrite <- Hc in H.
  pose proof (run_steps_namespaced (List.length (s0 :: plan)) (s0 :: plan)
                0 VNone st0 H) as Hr.
  destruct (loop _ _ _ _ _) as [[?|? ?|] st']; exact Hr.
Qed.

(** X10 (substituting twice).  Walking a payload that was already walked,
    with the same previous output, changes nothing. *)
Theorem substitution_is_idempotent (payload previous_output : value) :
  walk (walk payload previous_output) previous_output
  = walk payload previous_output.
Proof.
  induction payload as [ | | | | s | l IH | d IH ] using value_nested_ind;
    try reflexivity.
  - cbn [replace_prev_output].
    destruct (str_eqb s PREV_OUTPUT) eqn:E; cbn [replace_prev_output].
    + now destruct (str_eqb (str_or_empty str_nontext previous_output)
                      PREV_OUTPUT).
    + now rewrite E.
  - cbn [replace_prev_output]. f_equal. rewrite map_map.
    apply map_ext_Forall. exact IH.
  - cbn [replace_prev_output]. f_equal. rewrite map_map.
    apply map_ext_Forall. eapply Forall_impl; [|exact IH].
    intros [k v]; simpl. now intros ->.
Qed.

(** X11 (no sentinel is left).  Unless the text put in place of the
    sentinel is itself ["$PREV_OUTPUT"], the walked payload holds the
    sentinel at no position. *)
Theorem substitution_leaves_no_sentinel (payload previous_output : value)
    (path : list selector) :
  str_or_empty str_nontext previous_output <> PREV_OUTPUT ->
  get_path path (walk payload previous_output) <> Some (VStr PREV_OUTPUT).
Proof.
  intros Hf. rewrite get_path_walk.
  destruct (get_path path payload) as [v|]; [|discriminate].
  cbn [option_map]. destruct v; try discriminate.
  cbn [replace_prev_output].
  destruct (str_eqb s PREV_OUTPUT) eqn:E; [congruence|].
  intros [= ->]. now rewrite str_eqb_refl in E.
Qed.

(** X12 (a plan runs in sequence).  Running the steps [pre ++ rest] is
    running [pre] and, when none of its steps failed or raised, running
    [rest] from the output and the state that [pre] left, with the indices
    carried on; when a step of [pre] failed or raised, the result is that of
    [pre] alone. *)
Theorem plan_runs_in_sequence (total i : nat) (pre rest : list value)
    (previous_output : value) (st : state world) :
  loop total i (pre ++ rest) previous_output st
  = match loop total i pre previous_output st with
    | (LoopDone output, st') =>
        loop total (i + List.length pre) rest output st'
    | (LoopBroken k output, st') => (LoopBroken k output, st')
    | (LoopUncaught, st') => (LoopUncaught, st')
    end.
Proof.
  rewrite run_steps_app.
  now destruct (loop total i pre previous_output st) as [[?|? ?|] ?].
Qed.

Lemma run_steps_calls_app (total : nat) (steps : list value) :
  forall i previous_output st,
    exists more,
      st_calls (snd (loop total i steps previous_output st))
      = st_calls st ++ more
      /\ List.length more <= List.length steps.
Proof.
  induction steps as [|step steps IH]; intros i previous_output st.
  - exists []. cbn. now rewrite app_nil_r.
  - cbn [run_steps].
    destruct (execute_step_calls _ _ import_module module_run str_nontext
                unicode_lower step previous_output
                (emit (StartStep (i + 1) total) st)) as (m1 & Hc & Hl).
    destruct (step_exec step previous_output _) as [[output [|]|] st'];
      cbn [snd emit st_calls] in Hc |- *.
    + destruct (IH (S i) output st') as (m2 & Hc2 & Hl2).
      exists (m1 ++ m2). rewrite Hc2, Hc, <- app_assoc.
      split; [reflexivity|]. rewrite length_app. cbn [List.length]. lia.
    + exists m1. split; [exact Hc|cbn [List.length]; lia].
    + exists m1. split; [exact Hc|cbn [List.length]; lia].
Qed.

(** X13 (no more calls than steps).  Handling a request keeps the calls
    made before and adds to them at most one per step of the plan, and
    none when the planner gives no plan. *)
Theorem handle_request_calls_bounded (user_request : pystr)
    (st : state world) :
  exists more,
    st_calls (snd (foreman user_request st)) = st_calls st ++ more
    /\ (forall plan, fst (planner user_request st) = Some plan ->
          List.length more <= List.length plan)
    /\ (fst (planner user_request st) = None -> more = []).
Proof.
  unfold handle_request.
  pose proof (call_llm_calls _ ollama_chat json_loads user_request st) as Hc.
  destruct (planner user_request st) as [[[|s0 plan]|] st0];
    cbn [fst snd] in *.
  - exists []. cbn [snd emit st_calls]. rewrite Hc, app_nil_r.
    split; [reflexivity|]. split; [intros ? [= <-]; cbn; lia|discriminate].
  - destruct (run_steps_calls_app (List.length (s0 :: plan)) (s0 :: plan)
                0 VNone st0) as (more & Hm & Hl).
    exists more. rewrite <- Hc. split.
    + destruct (loop _ _ _ _ _) as [[?|? ?|] st'];
        cbn [snd emit st_calls] in *; exact Hm.
    + split; [intros ? [= <-]; exact Hl|discriminate].
  - exists []. cbn [snd emit st_calls]. rewrite Hc, app_nil_r.
    split; [reflexivity|]. split; [discriminate|reflexivity].
Qed.

End MoreExecutorFacts.

(** * The apprentices and the classification of what they return *)

Lemma startswith_within (p x t : pystr) :
  List.length p <= List.length x ->
  startswith p (x ++ t) = startswith p x.
Proof.
  revert x; induction p as [|c p IH]; intros [|d x] H; simpl in *;
    try reflexivity; try lia.
  rewrite IH by lia. reflexivity.
Qed.

Lemma rstrip_after_solid (a : pystr) (c : N) (s : pystr) :
  isspace c = false -> rstrip ((a ++ [c]) ++ s) = (a ++ [c]) ++ rstrip s.
Proof.
  intros Hc. induction a as [|x a IH].
  - cbn [app rstrip]. destruct (rstrip s); [now rewrite Hc|reflexivity].
  - cbn [app rstrip]. cbn [app] in IH. rewrite IH.
    now destruct ((a ++ [c]) ++ rstrip s) eqn:E; [destruct a; discriminate|].
Qed.

(** A text that begins with a character that is not a space keeps, through
    [strip], everything up to a later character that is not a space. *)
Lemma strip_after_solid (x : N) (a : pystr) (c : N) (s : pystr) :
  isspace x = false -> isspace c = false ->
  strip ((x :: a ++ [c]) ++ s) = (x :: a ++ [c]) ++ rstrip s.
Proof.
  intros Hx Hc. unfold strip. cbn [app lstrip]. rewrite Hx.
  change (x :: (a ++ [c]) ++ s) with (((x :: a) ++ [c]) ++ s).
  now rewrite rstrip_after_solid.
Qed.

Section LowerFacts.

Variable unicode_lower : pystr -> pystr.
Hypothesis lower_ok : keeps_ascii_prefix unicode_lower.

Lemma lower_after_ascii (a s : pystr) :
  forallb (fun c => (c <? 128)%N) a = true ->
  exists t, lower unicode_lower (a ++ s) = map ascii_lower a ++ t.
Proof.
  intros Ha. unfold lower.
  destruct (forallb _ (a ++ s)).
  - exists (map ascii_lower s). apply map_app.
  - now apply lower_ok.
Qed.

(** The flag of a text is decided by an ASCII beginning of six characters
    or more that starts and ends with a character that is not a space. *)
Lemma classify_by_beginning (x : N) (a : pystr) (c : N) (s : pystr) :
  forallb (fun c => (c <? 128)%N) (x :: a ++ [c]) = true ->
  isspace x = false -> isspace c = false ->
  6 <= List.length (x :: a ++ [c]) ->
  classify unicode_lower (VStr ((x :: a ++ [c]) ++ s))
  = negb (startswith_any [error_marker; cross_mark]
            (map ascii_lower (x :: a ++ [c]))).
Proof.
  intros Hascii Hx Hc Hlen. cbn [classify].
  rewrite strip_after_solid by assumption.
  destruct (lower_after_ascii (x :: a ++ [c]) (rstrip s) Hascii) as [t ->].
  unfold startswith_any at 1 3. cbn [existsb].
  rewrite !startswith_within by (rewrite length_map; simpl in *; lia).
  now destruct (_ || _); [|destruct (startswith_any _ _)].
Qed.

Lemma error_text_fails (s : pystr) :
  classify unicode_lower (VStr (str_of "Error:" ++ s)) = false.
Proof.
  exact (classify_by_beginning 69 (str_of "rror") 58 s eq_refl eq_refl eq_refl
           (le_n 6)).
Qed.

Lemma success_text_passes (s : pystr) :
  classify unicode_lower (VStr (str_of "Success:" ++ s)) = true.
Proof.
  exact (classify_by_beginning 83 (str_of "uccess") 58 s eq_refl eq_refl
           eq_refl (le_S _ _ (le_S _ _ (le_n 6)))).
Qed.

Lemma error_reading_passes (s : pystr) :
  classify unicode_lower (VStr (str_of "Error reading" ++ s)) = true.
Proof.
  assert (H : 6 <= List.length (69%N :: str_of "rror readin" ++ [103%N]))
    by (simpl; lia).
  exact (classify_by_beginning 69 (str_of "rror readin") 103 s eq_refl
           eq_refl eq_refl H).
Qed.

End LowerFacts.

Section ApprenticeFacts.

Variable world : Type.
Variable str_nontext : value -> pystr.
Variable unicode_lower : pystr -> pystr.
Variable console : pystr -> world -> world.
Variable print_exc : pystr -> world -> world.
Variable read_text : value -> world -> read_result * world.
Variable dir_to_create : value -> world -> pystr + option pystr.
Variable makedirs : pystr -> world -> option pystr * world.
Variable write_file : value -> pystr -> write_data -> world
                      -> option pystr * world.
Variable path_exists : value -> world -> pystr + bool.
Variable docx_texts : pystr -> world -> (pystr + list pystr) * world.
Variable format_exc : pystr -> pystr.
Variable module : Type.
Variable import_module : pystr -> world -> (exn + module) * world.
Variable module_run : module -> pystr + (value -> world -> outcome * world).

Hypothesis lower_ok : keeps_ascii_prefix unicode_lower.

Local Notation "'reader'" := (file_reader_run str_nontext read_text).
Local Notation "'writer'" :=
  (file_writer_run str_nontext unicode_lower console print_exc dir_to_create
     makedirs write_file).
Local Notation "'doc_reader'" :=
  (doc_reader_run str_nontext unicode_lower console path_exists docx_texts
     format_exc).
Local Notation "'flag'" := (classify unicode_lower).
Local Notation "'guarded'" :=
  (try_apprentice import_module module_run unicode_lower).

(** X14 ([file_reader]: its errors are failures).  Given a mapping whose
    file name is missing or empty, [file_reader] reads nothing and leaves
    the world as it is; in that case, and when the file is not found or the
    reading raises, it returns a text, and that text is classified as failed
    by the executor. *)
Theorem file_reader_errors_are_failures (d : list (pystr * value))
    (w : world) :
  (truthy (dict_get (str_of "filename") d) = false ->
   reader (VDict d) w
   = (Returns (VStr (str_of "Error: Missing 'filename' in payload.")), w))
  /\ ((truthy (dict_get (str_of "filename") d) = false
       \/ forall content,
            fst (read_text (dict_get (str_of "filename") d) w)
            <> ReadOk content) ->
      exists msg w',
        reader (VDict d) w = (Returns (VStr msg), w')
        /\ flag (VStr msg) = false).
Proof.
  split.
  - intros H. unfold file_reader_run. now rewrite H.
  - intros H. unfold file_reader_run.
    destruct (truthy (dict_get (str_of "filename") d)) eqn:Ht; cbn [negb].
    + destruct H as [H|H]; [discriminate|].
      destruct (read_text (dict_get (str_of "filename") d) w)
        as [[content| |e] w']; cbn [fst] in H.
      * now elim (H content).
      * do 2 eexists. split; [reflexivity|].
        exact (error_text_fails unicode_lower lower_ok
                 (str_of " File not found at "
                    ++ py_str str_nontext (dict_get (str_of "filename") d))).
      * do 2 eexists. split; [reflexivity|].
        exact (error_text_fails unicode_lower lower_ok
                 (str_of " Failed to read file "
                    ++ py_str str_nontext (dict_get (str_of "filename") d)
                    ++ str_of ". Reason: " ++ e)).
    + do 2 eexists. split; [reflexivity|].
      exact (error_text_fails unicode_lower lower_ok
               (str_of " Missing 'filename' in payload.")).
Qed.

(** X15 (a payload that is not a mapping).  Given a payload that is not a
    mapping, [file_reader] raises an [AttributeError] at its first line, and
    the step fails with the text that the executor keeps for a module
    without [run], although [run] was there and was called: the call is
    recorded. *)
Theorem payload_that_is_no_mapping (name : pystr) (payload : value)
    (st : state world) (m : module) (w : world) :
  (forall d, payload <> VDict d) ->
  import_module name (st_world st) = (inr m, w) ->
  module_run m = inr reader ->
  guarded name payload st
  = (StepReturn
       (VStr (str_of "Critical error: Module '" ++ name
                ++ str_of "' does not have a 'run' function. "
                ++ no_attribute payload (str_of "get"))) false,
     emit (Traceback (AttributeError (no_attribute payload (str_of "get"))))
       (record_call name payload (set_world w (emit (Executing name) st))))
  /\ st_calls (snd (guarded name payload st))
     = st_calls st ++ [(name, payload)].
Proof.
  intros Hp Hi Hr.
  assert (E : guarded name payload st
              = (StepReturn
                   (VStr (str_of "Critical error: Module '" ++ name
                            ++ str_of "' does not have a 'run' function. "
                            ++ no_attribute payload (str_of "get"))) false,
                 emit (Traceback (AttributeError
                                    (no_attribute payload (str_of "get"))))
                   (record_call name payload
                      (set_world w (emit (Executing name) st))))).
  { unfold try_apprentice, try_body. cbn [emit st_world].
    rewrite Hi, Hr. cbn [record_call set_world st_world].
    unfold file_reader_run.
    destruct payload; try reflexivity. now elim (Hp entries). }
  split; [exact E|]. now rewrite E.
Qed.

(** X16 ([file_writer]: nothing is written on a bad request).  Given a
    mapping whose action is absent or a text, [file_writer] returns an
    error text, writes nothing and leaves the world as it is, when the file
    name is missing or empty, when the content is missing or [null], or
    when the action in lower case is neither ["write"] nor ["append"]. *)
Theorem file_writer_rejects_before_writing (d : list (pystr * value))
    (a : pystr) (w : world) :
  dict_get_default (str_of "action") (VStr (str_of "write")) d = VStr a ->
  truthy (dict_get (str_of "filename") d) = false
  \/ dict_get (str_of "content") d = VNone
  \/ (str_eqb (lower unicode_lower a) (str_of "write") = false
      /\ str_eqb (lower unicode_lower a) (str_of "append") = false) ->
  exists msg,
    writer (VDict d) w = (Returns (VStr (str_of "Error:" ++ msg)), w).
Proof.
  intros Ha H. unfold file_writer_run. rewrite Ha.
  destruct (truthy (dict_get (str_of "filename") d)) eqn:Ht; cbn [negb orb];
    [|eexists; reflexivity].
  destruct (dict_get (str_of "content") d) eqn:Hc;
    try (destruct H as [H|[H|[H1 H2]]]; try discriminate;
         rewrite H1, H2; cbn [negb orb]; eexists; reflexivity).
  eexists; reflexivity.
Qed.

(** X17 ([file_writer]: its status is understood).  Whatever the payload
    and the world, a text that [file_writer] returns begins with
    ["Success:"] and is classified as succeeded, or begins with ["Error:"]
    and is classified as failed; it is classified as succeeded only when
    the file was opened and written without an exception. *)
Theorem file_writer_status_is_understood (payload : value) (w w' : world)
    (v : value) :
  writer payload w = (Returns v, w') ->
  (exists msg, v = VStr (str_of "Success:" ++ msg) /\ flag v = true
               /\ exists filename mode data w0,
                    write_file filename mode data w0 = (None, w'))
  \/ (exists msg, v = VStr (str_of "Error:" ++ msg) /\ flag v = false).
Proof.
  unfold file_writer_run, write_failed.
  destruct payload; try discriminate.
  destruct (dict_get_default _ _ entries); try discriminate.
  set (filename := dict_get (str_of "filename") entries).
  set (content := dict_get (str_of "content") entries).
  destruct (negb (truthy filename) || _).
  { intros [= <- <-]. right. eexists. split; [reflexivity|].
    exact (error_text_fails unicode_lower lower_ok _). }
  destruct (negb _).
  { intros [= <- <-]. right. eexists. split; [reflexivity|].
    exact (error_text_fails unicode_lower lower_ok _). }
  destruct (dir_to_create filename w) as [e|dir].
  { intros [= <- <-]. right. eexists. split; [reflexivity|].
    exact (error_text_fails unicode_lower lower_ok _). }
  assert (Hwrite : forall mode data w1,
            match write_file filename mode data w1 with
            | (None, w2) =>
                forall good,
                  (Returns (VStr (str_of "Success:" ++ good)), w2)
                  = (Returns v, w') ->
                  (exists msg, v = VStr (str_of "Success:" ++ msg)
                     /\ flag v = true
                     /\ exists filename mode data w0,
                          write_file filename mode data w0 = (None, w'))
                  \/ (exists msg, v = VStr (str_of "Error:" ++ msg)
                                  /\ flag v = false)
            | (Some e, w2) => True
            end).
  { intros mode data w1.
    destruct (write_file filename mode data w1) as [[e|] w2] eqn:E;
      [exact I|].
    intros good [= <- <-]. left. eexists. split; [reflexivity|].
    split; [exact (success_text_passes unicode_lower lower_ok _)|].
    now exists filename, mode, data, w1. }
  assert (Hbad : forall e w2,
            (Returns (VStr (str_of "Error: Failed to write to file "
                              ++ py_str str_nontext filename
                              ++ str_of ". Reason: " ++ e)),
             print_exc e w2) = (Returns v, w') ->
            (exists msg, v = VStr (str_of "Success:" ++ msg)
               /\ flag v = true
               /\ exists filename mode data w0,
                    write_file filename mode data w0 = (None, w'))
            \/ (exists msg, v = VStr (str_of "Error:" ++ msg)
                            /\ flag v = false)).
  { intros e w2 [= <- <-]. right. eexists. split; [reflexivity|].
    exact (error_text_fails unicode_lower lower_ok _). }
  assert (Hrest : forall w1,
            (if is_container content
             then match write_file filename
                          (if str_eqb (lower unicode_lower s) (str_of "write")
                           then str_of "w" else str_of "a")
                          (JsonDump content) w1 with
                  | (None, w'') =>
                      (Returns (VStr (str_of "Success: Wrote JSON content to "
                                        ++ py_str str_nontext filename)), w'')
                  | (Some e, w'') =>
                      (Returns (VStr (str_of "Error: Failed to write to file "
                                        ++ py_str str_nontext filename
                                        ++ str_of ". Reason: " ++ e)),
                       print_exc e w'')
                  end
             else match write_file filename
                          (if str_eqb (lower unicode_lower s) (str_of "write")
                           then str_of "w" else str_of "a")
                          (PlainText (py_str str_nontext content)) w1 with
                  | (None, w'') =>
                      (Returns (VStr (str_of "Success: Wrote "
                          ++ decimal (List.length (py_str str_nontext content))
                          ++ str_of " characters to "
                          ++ py_str str_nontext filename
                          ++ str_of " (mode: " ++ lower unicode_lower s
                          ++ str_of ").")), w'')
                  | (Some e, w'') =>
                      (Returns (VStr (str_of "Error: Failed to write to file "
                                        ++ py_str str_nontext filename
                                        ++ str_of ". Reason: " ++ e)),
                       print_exc e w'')
                  end) = (Returns v, w') ->
            (exists msg, v = VStr (str_of "Success:" ++ msg)
               /\ flag v = true
               /\ exists filename mode data w0,
                    write_file filename mode data w0 = (None, w'))
            \/ (exists msg, v = VStr (str_of "Error:" ++ msg)
                            /\ flag v = false)).
  { intros w1. destruct (is_container content).
    - pose proof (Hwrite (if str_eqb (lower unicode_lower s) (str_of "write")
                          then str_of "w" else str_of "a")
                    (JsonDump content) w1) as Hw.
      destruct (write_file _ _ (JsonDump content) w1) as [[e|] w2];
        [apply Hbad|apply Hw].
    - pose proof (Hwrite (if str_eqb (lower unicode_lower s) (str_of "write")
                          then str_of "w" else str_of "a")
                    (PlainText (py_str str_nontext content)) w1) as Hw.
      destruct (write_file _ _ (PlainText _) w1) as [[e|] w2];
        [apply Hbad|apply Hw]. }
  destruct dir as [file_dir|]; [|apply Hrest].
  destruct (makedirs file_dir w) as [[e|] w1]; [|apply Hrest].
  intros [= <- <-]. right. eexists. split; [reflexivity|].
  exact (error_text_fails unicode_lower lower_ok _).
Qed.

(** X18 ([doc_reader]: its refusals are failures).  Given a mapping,
    [doc_reader] refuses a file name that is missing or empty, a file that
    does not exist, and a name that does not end, in lower case, with
    [".docx"]: it opens no document, leaves the world as it is, and returns
    a text that the executor classifies as failed. *)
Theorem doc_reader_refusals_are_failures (d : list (pystr * value))
    (w : world) :
  truthy (dict_get (str_of "filename") d) = false
  \/ path_exists (dict_get (str_of "filename") d) w = inr false
  \/ (exists name,
        dict_get (str_of "filename") d = VStr name
        /\ path_exists (VStr name) w = inr true
        /\ endswith (str_of ".docx") (lower unicode_lower name) = false) ->
  exists msg,
    doc_reader (VDict d) w = (Returns (VStr (str_of "Error:" ++ msg)), w)
    /\ flag (VStr (str_of "Error:" ++ msg)) = false.
Proof.
  intros H. unfold doc_reader_run.
  destruct (truthy (dict_get (str_of "filename") d)) eqn:Ht; cbn [negb].
  - destruct H as [H|[H|(name & Hn & He & Hx)]]; [discriminate| |].
    + rewrite H. eexists. split; [reflexivity|].
      exact (error_text_fails unicode_lower lower_ok _).
    + rewrite Hn, He, Hx. cbn [negb]. eexists. split; [reflexivity|].
      exact (error_text_fails unicode_lower lower_ok _).
  - eexists. split; [reflexivity|].
    exact (error_text_fails unicode_lower lower_ok _).
Qed.

(** X19 ([doc_reader]: a failed reading passes for a success).  When the
    document exists and has the right extension but opening or reading it
    raises, [doc_reader] returns a text that begins with ["Error reading
    document"], without a colon after the first word.  The executor does
    not take it for a failure: the step comes back with that text and the
    flag [True]. *)
Theorem doc_reader_failure_passes_as_success (name_of_module : pystr)
    (d : list (pystr * value)) (filename e : pystr)
    (st : state world) (m : module) (w w' : world) :
  import_module name_of_module (st_world st) = (inr m, w) ->
  module_run m = inr doc_reader ->
  dict_get (str_of "filename") d = VStr filename -> filename <> [] ->
  path_exists (VStr filename) w = inr true ->
  endswith (str_of ".docx") (lower unicode_lower filename) = true ->
  docx_texts filename w = (inl e, w') ->
  doc_reader (VDict d) w
  = (Returns (VStr (str_of "Error reading document '" ++ filename
                      ++ str_of "'. Reason: " ++ e)),
     console (format_exc e) w')
  /\ fst (guarded name_of_module (VDict d) st)
     = StepReturn (VStr (str_of "Error reading document '" ++ filename
                           ++ str_of "'. Reason: " ++ e)) true.
Proof.
  intros Hi Hr Hf Hne Hex Hext Hdoc.
  assert (Ht : truthy (VStr filename) = true)
    by (destruct filename; [contradiction|reflexivity]).
  assert (E : doc_reader (VDict d) w
              = (Returns (VStr (str_of "Error reading document '" ++ filename
                                  ++ str_of "'. Reason: " ++ e)),
                 console (format_exc e) w')).
  { unfold doc_reader_run. rewrite Hf, Ht, Hex, Hext, Hdoc. reflexivity. }
  split; [exact E|].
  unfold try_apprentice, try_body. cbn [emit st_world].
  rewrite Hi, Hr. cbn [record_call set_world st_world]. rewrite E.
  cbn [fst]. f_equal.
  exact (error_reading_passes unicode_lower lower_ok
           (str_of " document '" ++ filename ++ str_of "'. Reason: " ++ e)).
Qed.

End ApprenticeFacts.

(** * The further properties on concrete inputs *)

Lemma lower_ascii_keeps_prefix : keeps_ascii_prefix Bench.lower_ascii.
Proof. intros a s _. exists (map ascii_lower s). apply map_app. Qed.

Lemma validate_plan_characterised_witness :
  (VList [Demo.step_lister; Demo.step_writer]
     = VList [Demo.step_lister; Demo.step_writer]
   /\ Forall (fun step => well_formed_step step = true)
        [Demo.step_lister; Demo.step_writer])
  /\ validate_plan (VList [Demo.step_lister; Demo.step_writer])
     = inr [Demo.step_lister; Demo.step_writer]
  /\ (forall items, VStr (str_of "plan") <> VList items)
  /\ validate_plan (VStr (str_of "plan"))
     = inl (str_of "Parsed JSON is not a list.").
Proof.
  assert (H1 : VList [Demo.step_lister; Demo.step_writer]
               = VList [Demo.step_lister; Demo.step_writer]
               /\ Forall (fun step => well_formed_step step = true)
                    [Demo.step_lister; Demo.step_writer])
    by (split; [reflexivity|repeat constructor]).
  assert (H2 : forall items, VStr (str_of "plan") <> VList items)
    by discriminate.
  split; [exact H1|].
  split; [exact (proj2 (proj1 (validate_plan_characterised _ _)) H1)|].
  split; [exact H2|].
  exact (proj2 (validate_plan_characterised (VStr (str_of "plan")) []) H2).
Defined.

Lemma short_name_resolves_as_full_name_witness :
  dict_get key_apprentice Bench.entries_lister = VStr (str_of "lister")
  /\ str_of "lister" <> []
  /\ startswith ns_prefix (str_of "lister") = false
  /\ exists r w new calls,
       Demo.execute_step
         (VDict (dict_set key_apprentice
                   (VStr (ns_prefix ++ str_of "lister")) Bench.entries_lister))
         VNone Demo.initial
       = (r, mkState w (st_stdout Demo.initial ++ new) calls)
       /\ Demo.execute_step (VDict Bench.entries_lister) VNone Demo.initial
          = (r, mkState w
                  (st_stdout Demo.initial ++ ShortName (str_of "lister") :: new)
                  calls).
Proof.
  assert (H1 : dict_get key_apprentice Bench.entries_lister
               = VStr (str_of "lister")) by reflexivity.
  assert (H2 : str_of "lister" <> []) by discriminate.
  assert (H3 : startswith ns_prefix (str_of "lister") = false) by reflexivity.
  split; [exact H1|]. split; [exact H2|]. split; [exact H3|].
  exact (short_name_resolves_as_full_name _ _ Demo.import_module
           Demo.module_run Demo.str_nontext Demo.unicode_lower
           Bench.entries_lister (str_of "lister") VNone Demo.initial
           H1 H2 H3).
Defined.

Lemma non_text_tool_name_escapes_witness :
  Demo.call_llm (Some Bench.number_name_reply) (str_of "go") Demo.initial
    = (Some ([] ++ VDict Bench.entries_number_name :: []),
       Bench.planned_number)
  /\ Demo.run_steps 1 0 [] VNone Bench.planned_number
     = (LoopDone VNone, Bench.planned_number)
  /\ truthy (dict_get key_apprentice Bench.entries_number_name) = true
  /\ (forall n, dict_get key_apprentice Bench.entries_number_name <> VStr n)
  /\ well_formed_step (VDict Bench.entries_number_name) = true
  /\ Demo.handle_request (Some Bench.number_name_reply) (str_of "go")
       Demo.initial
     = (Uncaught, emit (StartStep 1 1) Bench.planned_number).
Proof.
  assert (H1 : Demo.call_llm (Some Bench.number_name_reply) (str_of "go")
                 Demo.initial
               = (Some ([] ++ VDict Bench.entries_number_name :: []),
                  Bench.planned_number)) by (vm_compute; reflexivity).
  assert (H2 : Demo.run_steps 1 0 [] VNone Bench.planned_number
               = (LoopDone VNone, Bench.planned_number)) by reflexivity.
  assert (H3 : truthy (dict_get key_apprentice Bench.entries_number_name)
               = true) by reflexivity.
  assert (H4 : forall n, dict_get key_apprentice Bench.entries_number_name
                         <> VStr n) by discriminate.
  split; [exact H1|]. split; [exact H2|]. split; [exact H3|].
  split; [exact H4|].
  exact (non_text_tool_name_escapes _
           (Demo.chat (Some Bench.number_name_reply)) Demo.json_loads _
           Demo.import_module Demo.module_run Demo.str_nontext
           Demo.unicode_lower (str_of "go") Demo.initial []
           Bench.entries_number_name [] VNone Bench.planned_number
           Bench.planned_number H1 H2 H3 H4).
Defined.

Lemma only_apprentices_are_called_witness :
  Forall (fun c => startswith ns_prefix (fst c) = true)
    (st_calls Demo.initial)
  /\ Forall (fun c => startswith ns_prefix (fst c) = true)
       (st_calls (snd (Demo.handle_request (Some Demo.three_step_reply)
                         (str_of "go") Demo.initial))).
Proof.
  assert (H : Forall (fun c => startswith ns_prefix (fst c) = true)
                (st_calls Demo.initial)) by constructor.
  split; [exact H|].
  exact (only_apprentices_are_called _
           (Demo.chat (Some Demo.three_step_reply)) Demo.json_loads _
           Demo.import_module Demo.module_run Demo.str_nontext
           Demo.unicode_lower (str_of "go") Demo.initial H).
Defined.

Lemma substitution_leaves_no_sentinel_witness :
  str_or_empty Demo.str_nontext (VStr (str_of "X")) <> PREV_OUTPUT
  /\ get_path [Key (str_of "a"); Index 0]
       (replace_prev_output Demo.str_nontext Demo.nested_payload
          (VStr (str_of "X")))
     <> Some (VStr PREV_OUTPUT).
Proof.
  assert (H : str_or_empty Demo.str_nontext (VStr (str_of "X"))
              <> PREV_OUTPUT) by discriminate.
  split; [exact H|].
  exact (substitution_leaves_no_sentinel Demo.str_nontext Demo.nested_payload
           (VStr (str_of "X")) [Key (str_of "a"); Index 0] H).
Defined.

Lemma handle_request_calls_bounded_witness :
  fst (Demo.call_llm (Some Demo.three_step_reply) (str_of "go") Demo.initial)
    = Some [Demo.step_lister; Demo.step_failing; Demo.step_writer]
  /\ exists more,
       st_calls (snd (Demo.handle_request (Some Demo.three_step_reply)
                        (str_of "go") Demo.initial))
       = st_calls Demo.initial ++ more
       /\ List.length more <= 3.
Proof.
  assert (H : fst (Demo.call_llm (Some Demo.three_step_reply) (str_of "go")
                     Demo.initial)
              = Some [Demo.step_lister; Demo.step_failing; Demo.step_writer])
    by (vm_compute; reflexivity).
  split; [exact H|].
  destruct (handle_request_calls_bounded _
              (Demo.chat (Some Demo.three_step_reply)) Demo.json_loads _
              Demo.import_module Demo.module_run Demo.str_nontext
              Demo.unicode_lower (str_of "go") Demo.initial)
    as (more & Hm & Hl & _).
  exists more. split; [exact Hm|exact (Hl _ H)].
Defined.

Lemma file_reader_errors_are_failures_witness :
  truthy (dict_get (str_of "filename") Bench.ask_nothing) = false
  /\ Bench.file_reader (VDict Bench.ask_nothing) Bench.disk
     = (Returns (VStr (str_of "Error: Missing 'filename' in payload.")),
        Bench.disk)
  /\ (forall content,
        fst (Bench.read_text (dict_get (str_of "filename") Bench.ask_missing)
               Bench.disk) <> ReadOk content)
  /\ exists msg w',
       Bench.file_reader (VDict Bench.ask_missing) Bench.disk
       = (Returns (VStr msg), w')
       /\ classify Bench.lower_ascii (VStr msg) = false.
Proof.
  assert (H1 : truthy (dict_get (str_of "filename") Bench.ask_nothing)
               = false) by reflexivity.
  assert (H2 : forall content,
                 fst (Bench.read_text
                        (dict_get (str_of "filename") Bench.ask_missing)
                        Bench.disk) <> ReadOk content) by discriminate.
  split; [exact H1|].
  split; [exact (proj1 (file_reader_errors_are_failures _ Bench.str_nontext
                          Bench.lower_ascii Bench.read_text
                          lower_ascii_keeps_prefix Bench.ask_nothing
                          Bench.disk) H1)|].
  split; [exact H2|].
  exact (proj2 (file_reader_errors_are_failures _ Bench.str_nontext
                  Bench.lower_ascii Bench.read_text lower_ascii_keeps_prefix
                  Bench.ask_missing Bench.disk) (or_intror H2)).
Defined.

Lemma payload_that_is_no_mapping_witness :
  (forall d, VList [VStr (str_of "notes.txt")] <> VDict d)
  /\ Bench.import_module (ns_prefix ++ str_of "file_reader")
       (st_world Bench.start) = (inr Bench.FileReader, Bench.disk)
  /\ Bench.module_run Bench.FileReader = inr Bench.file_reader
  /\ fst (Bench.try_apprentice (ns_prefix ++ str_of "file_reader")
            (VList [VStr (str_of "notes.txt")]) Bench.start)
     = StepReturn
         (VStr (str_of "Critical error: Module 'aura_core.apprentices.file_reader' does not have a 'run' function. 'list' object has no attribute 'get'"))
         false
  /\ st_calls (snd (Bench.try_apprentice (ns_prefix ++ str_of "file_reader")
                      (VList [VStr (str_of "notes.txt")]) Bench.start))
     = st_calls Bench.start
         ++ [(ns_prefix ++ str_of "file_reader",
              VList [VStr (str_of "notes.txt")])].
Proof.
  assert (H1 : forall d, VList [VStr (str_of "notes.txt")] <> VDict d)
    by discriminate.
  assert (H2 : Bench.import_module (ns_prefix ++ str_of "file_reader")
                 (st_world Bench.start) = (inr Bench.FileReader, Bench.disk))
    by reflexivity.
  assert (H3 : Bench.module_run Bench.FileReader = inr Bench.file_reader)
    by reflexivity.
  destruct (payload_that_is_no_mapping _ Bench.str_nontext Bench.lower_ascii
              Bench.read_text _ Bench.import_module Bench.module_run
              (ns_prefix ++ str_of "file_reader")
              (VList [VStr (str_of "notes.txt")]) Bench.start
              Bench.FileReader Bench.disk H1 H2 H3) as [C1 C2].
  split; [exact H1|]. split; [exact H2|]. split; [exact H3|].
  split; [exact (f_equal fst C1)|exact C2].
Defined.

Lemma file_writer_rejects_before_writing_witness :
  dict_get_default (str_of "action") (VStr (str_of "write")) Bench.write_badly
    = VStr (str_of "erase")
  /\ (truthy (dict_get (str_of "filename") Bench.write_badly) = false
      \/ dict_get (str_of "content") Bench.write_badly = VNone
      \/ (str_eqb (lower Bench.lower_ascii (str_of "erase")) (str_of "write")
            = false
          /\ str_eqb (lower Bench.lower_ascii (str_of "erase"))
               (str_of "append") = false))
  /\ exists msg,
       Bench.file_writer (VDict Bench.write_badly) Bench.disk
       = (Returns (VStr (str_of "Error:" ++ msg)), Bench.disk).
Proof.
  assert (H1 : dict_get_default (str_of "action") (VStr (str_of "write"))
                 Bench.write_badly = VStr (str_of "erase")) by reflexivity.
  assert (H2 : truthy (dict_get (str_of "filename") Bench.write_badly) = false
               \/ dict_get (str_of "content") Bench.write_badly = VNone
               \/ (str_eqb (lower Bench.lower_ascii (str_of "erase"))
                     (str_of "write") = false
                   /\ str_eqb (lower Bench.lower_ascii (str_of "erase"))
                        (str_of "append") = false))
    by (right; right; split; reflexivity).
  split; [exact H1|]. split; [exact H2|].
  exact (file_writer_rejects_before_writing _ Bench.str_nontext
           Bench.lower_ascii Bench.console Bench.print_exc Bench.dir_to_create
           Bench.makedirs Bench.write_file Bench.write_badly (str_of "erase")
           Bench.disk H1 H2).
Defined.

Lemma file_writer_status_is_understood_witness :
  Bench.file_writer (VDict Bench.write_notes) Bench.disk
    = (Returns (VStr (str_of
         "Success: Wrote 2 characters to out.txt (mode: write).")),
       (str_of "out.txt", str_of "hi") :: Bench.disk)
  /\ ((exists msg,
         VStr (str_of "Success: Wrote 2 characters to out.txt (mode: write).")
         = VStr (str_of "Success:" ++ msg)
         /\ classify Bench.lower_ascii
              (VStr (str_of
                 "Success: Wrote 2 characters to out.txt (mode: write)."))
            = true
         /\ exists filename mode data w0,
              Bench.write_file filename mode data w0
              = (None, (str_of "out.txt", str_of "hi") :: Bench.disk))
      \/ (exists msg,
            VStr (str_of
              "Success: Wrote 2 characters to out.txt (mode: write).")
            = VStr (str_of "Error:" ++ msg)
            /\ classify Bench.lower_ascii
                 (VStr (str_of
                    "Success: Wrote 2 characters to out.txt (mode: write)."))
               = false)).
Proof.
  assert (H : Bench.file_writer (VDict Bench.write_notes) Bench.disk
              = (Returns (VStr (str_of
                   "Success: Wrote 2 characters to out.txt (mode: write).")),
                 (str_of "out.txt", str_of "hi") :: Bench.disk))
    by (vm_compute; reflexivity).
  split; [exact H|].
  exact (file_writer_status_is_understood _ Bench.str_nontext
           Bench.lower_ascii Bench.console Bench.print_exc Bench.dir_to_create
           Bench.makedirs Bench.write_file lower_ascii_keeps_prefix
           (VDict Bench.write_notes) Bench.disk _ _ H).
Defined.

Lemma doc_reader_refusals_are_failures_witness :
  (truthy (dict_get (str_of "filename") Bench.ask_notes) = false
   \/ Bench.path_exists (dict_get (str_of "filename") Bench.ask_notes)
        Bench.disk = inr false
   \/ (exists name,
         dict_get (str_of "filename") Bench.ask_notes = VStr name
         /\ Bench.path_exists (VStr name) Bench.disk = inr true
         /\ endswith (str_of ".docx") (lower Bench.lower_ascii name) = false))
  /\ exists msg,
       Bench.doc_reader (VDict Bench.ask_notes) Bench.disk
       = (Returns (VStr (str_of "Error:" ++ msg)), Bench.disk)
       /\ classify Bench.lower_ascii (VStr (str_of "Error:" ++ msg)) = false.
Proof.
  assert (H : truthy (dict_get (str_of "filename") Bench.ask_notes) = false
              \/ Bench.path_exists
                   (dict_get (str_of "filename") Bench.ask_notes) Bench.disk
                 = inr false
              \/ (exists name,
                    dict_get (str_of "filename") Bench.ask_notes = VStr name
                    /\ Bench.path_exists (VStr name) Bench.disk = inr true
                    /\ endswith (str_of ".docx")
                         (lower Bench.lower_ascii name) = false))
    by (right; right; exists (str_of "notes.txt"); repeat split).
  split; [exact H|].
  exact (doc_reader_refusals_are_failures _ Bench.str_nontext
           Bench.lower_ascii Bench.console Bench.path_exists Bench.docx_texts
           Bench.format_exc lower_ascii_keeps_prefix Bench.ask_notes
           Bench.disk H).
Defined.

Lemma doc_reader_failure_passes_as_success_witness :
  Bench.import_module (ns_prefix ++ str_of "doc_reader")
    (st_world Bench.start) = (inr Bench.DocReader, Bench.disk)
  /\ Bench.module_run Bench.DocReader = inr Bench.doc_reader
  /\ dict_get (str_of "filename") Bench.ask_report
     = VStr (str_of "Report.DOCX")
  /\ str_of "Report.DOCX" <> []
  /\ Bench.path_exists (VStr (str_of "Report.DOCX")) Bench.disk = inr true
  /\ endswith (str_of ".docx")
       (lower Bench.lower_ascii (str_of "Report.DOCX")) = true
  /\ Bench.docx_texts (str_of "Report.DOCX") Bench.disk
     = (inl (str_of "File is not a zip file"), Bench.disk)
  /\ fst (Bench.try_apprentice (ns_prefix ++ str_of "doc_reader")
            (VDict Bench.ask_report) Bench.start)
     = StepReturn
         (VStr (str_of
            "Error reading document 'Report.DOCX'. Reason: File is not a zip file"))
         true.
Proof.
  assert (H1 : Bench.import_module (ns_prefix ++ str_of "doc_reader")
                 (st_world Bench.start) = (inr Bench.DocReader, Bench.disk))
    by reflexivity.
  assert (H2 : Bench.module_run Bench.DocReader = inr Bench.doc_reader)
    by reflexivity.
  assert (H3 : dict_get (str_of "filename") Bench.ask_report
               = VStr (str_of "Report.DOCX")) by reflexivity.
  assert (H4 : str_of "Report.DOCX" <> []) by discriminate.
  assert (H5 : Bench.path_exists (VStr (str_of "Report.DOCX")) Bench.disk
               = inr true) by reflexivity.
  assert (H6 : endswith (str_of ".docx")
                 (lower Bench.lower_ascii (str_of "Report.DOCX")) = true)
    by reflexivity.
  assert (H7 : Bench.docx_texts (str_of "Report.DOCX") Bench.disk
               = (inl (str_of "File is not a zip file"), Bench.disk))
    by reflexivity.
  split; [exact H1|]. split; [exact H2|]. split; [exact H3|].
  split; [exact H4|]. split; [exact H5|]. split; [exact H6|].
  split; [exact H7|].
  exact (proj2 (doc_reader_failure_passes_as_success _ Bench.str_nontext
                  Bench.lower_ascii Bench.console Bench.path_exists
                  Bench.docx_texts Bench.format_exc _ Bench.import_module
                  Bench.module_run lower_ascii_keeps_prefix
                  (ns_prefix ++ str_of "doc_reader") Bench.ask_report
                  (str_of "Report.DOCX") (str_of "File is not a zip file")
                  Bench.start Bench.DocReader Bench.disk Bench.disk
                  H1 H2 H3 H4 H5 H6 H7)).
Defined.
